(** * JIRA task exporter: a shallow embedding of [main.py]

    The program fetches issue records page by page from a search API
    ([JiraClient.get_tasks]), flattens every record into a row of 28 named
    columns ([JiraTaskFormatter.format_task], with the text normaliser
    [TextCleaner.clean_field]), and writes the rows to a delimited file
    ([CSVExporter.export]); [JiraTaskExporter.export_tasks] composes the three.

    Conventions of the embedding.
    - A Python value that [response.json()] can produce is a [value].
    - Text is a [string] whose characters are read as the code points 0..255;
      the classes [\s] and [\d] of Python's [re] are given on that range.
    - A dict is an association list in insertion order; lookup takes the
      first binding of a key.
    - A call that can raise returns a [result]; the exception is the one the
      interpreter raises, the message is dropped.
    - Network, console and file system are fields of an explicit [world]. *)

From Stdlib Require Import List String Ascii ZArith NArith Bool Lia Arith.
From Stdlib Require Import Permutation DecimalString.
From Stdlib Require Floats.SpecFloat.
Import ListNotations.
Local Open Scope string_scope.
Local Open Scope list_scope.

Set Implicit Arguments.
Set Warnings "-register-all".

(* ================================================================= *)
(** ** Python values and exceptions *)

Inductive value : Type :=
| VNone
| VBool (b : bool)
| VInt (n : Z)
| VFloat (f : SpecFloat.spec_float)
| VStr (s : string)
| VList (l : list value)
| VDict (d : list (string * value)).

(** A dict as the interpreter holds it: bindings in insertion order. *)
Definition dict := list (string * value).

(** What [requests] raises as a [RequestException]. *)
Inductive request_error : Type :=
| ConnectionError
| HTTPError (status : Z)
| JSONDecodeError.

Inductive exn : Type :=
| KeyError (k : string)
| TypeError
| AttributeError
| ValueError
| OSError
| RequestException (why : request_error).

Inductive result (A : Type) : Type :=
| Returned (a : A)
| Raised (e : exn).

Arguments Returned {A} a.
Arguments Raised {A} e.

Definition ret {A} (a : A) : result A := Returned a.

Definition bind {A B} (m : result A) (k : A -> result B) : result B :=
  match m with
  | Returned a => k a
  | Raised e => Raised e
  end.

Declare Scope py_scope.
Delimit Scope py_scope with py.
Notation "x <- m ;; k" := (bind m (fun x => k))
  (at level 61, m at next level, right associativity) : py_scope.
Local Open Scope py_scope.

Fixpoint mapM {A B} (f : A -> result B) (l : list A) : result (list B) :=
  match l with
  | [] => ret []
  | a :: l' => b <- f a ;; bs <- mapM f l' ;; ret (b :: bs)
  end.

(* ================================================================= *)
(** ** Built-in operations the program uses *)

Module Py.

Fixpoint lookup (k : string) (d : dict) : option value :=
  match d with
  | [] => None
  | (k', v) :: d' => if String.eqb k k' then Some v else lookup k d'
  end.

Definition keys (d : dict) : list string := map fst d.

Definition float_is_zero (f : SpecFloat.spec_float) : bool :=
  match f with
  | SpecFloat.S754_zero _ => true
  | _ => false
  end.

(** [bool(v)] *)
Definition truthy (v : value) : bool :=
  match v with
  | VNone => false
  | VBool b => b
  | VInt n => negb (Z.eqb n 0)
  | VFloat f => negb (float_is_zero f)
  | VStr s => negb (String.eqb s "")
  | VList l => match l with [] => false | _ => true end
  | VDict d => match d with [] => false | _ => true end
  end.

(** [a or b] *)
Definition or_ (a b : value) : value := if truthy a then a else b.

(** [v[k]] for a string key *)
Definition getitem (v : value) (k : string) : result value :=
  match v with
  | VDict d => match lookup k d with
               | Some x => Returned x
               | None => Raised (KeyError k)
               end
  | _ => Raised TypeError
  end.

(** [v.get(k, default)] *)
Definition get (v : value) (k : string) (default : value) : result value :=
  match v with
  | VDict d => match lookup k d with
               | Some x => Returned x
               | None => Returned default
               end
  | _ => Raised AttributeError
  end.

Fixpoint is_substring (p s : string) : bool :=
  String.prefix p s ||
  match s with
  | EmptyString => false
  | String _ s' => is_substring p s'
  end.

Definition is_str (k : string) (v : value) : bool :=
  match v with
  | VStr s => String.eqb s k
  | _ => false
  end.

(** [k in v] for a string [k] *)
Definition contains (k : string) (v : value) : result bool :=
  match v with
  | VDict d => Returned (match lookup k d with Some _ => true | None => false end)
  | VList l => Returned (existsb (is_str k) l)
  | VStr s => Returned (is_substring k s)
  | _ => Raised TypeError
  end.

Fixpoint chars (s : string) : list value :=
  match s with
  | EmptyString => []
  | String c s' => VStr (String c EmptyString) :: chars s'
  end.

(** the items a [for] loop, [list.extend] or a comprehension draws from [v] *)
Definition iter (v : value) : result (list value) :=
  match v with
  | VList l => Returned l
  | VStr s => Returned (chars s)
  | VDict d => Returned (map VStr (keys d))
  | _ => Raised TypeError
  end.

(** [len(v)] *)
Definition len (v : value) : result Z :=
  match v with
  | VList l => Returned (Z.of_nat (List.length l))
  | VStr s => Returned (Z.of_nat (String.length s))
  | VDict d => Returned (Z.of_nat (List.length d))
  | _ => Raised TypeError
  end.

(** [sep.join(items)]: every item has to be a [str] *)
Fixpoint join_strs (sep : string) (items : list value) : result string :=
  match items with
  | [] => Returned ""
  | VStr s :: rest =>
      match rest with
      | [] => Returned s
      | _ :: _ => r <- join_strs sep rest ;; ret (s ++ sep ++ r)%string
      end
  | _ :: _ => Raised TypeError
  end.

Definition join (sep : string) (items : list value) : result value :=
  s <- join_strs sep items ;; ret (VStr s).

Definition str_of_int (n : Z) : string := NilZero.string_of_int (Z.to_int n).

End Py.

(* ================================================================= *)
(** ** The pattern of the text normaliser

    [re.sub(pattern, '', text)] for a pattern that is a sequence of
    single characters, character classes and greedy [+] over a class. *)

Module Re.

Inductive atom : Type :=
| Chr (c : ascii)
| Cls (p : ascii -> bool)
| Plus (p : ascii -> bool).

(** [\s] on code points 0..255: TAB..CR, FS..US, space, NEL, NBSP *)
Definition is_space (c : ascii) : bool :=
  let n := N_of_ascii c in
  ((9 <=? n) && (n <=? 13) || (28 <=? n) && (n <=? 32) || (n =? 133) || (n =? 160))%N.

(** [\d] on code points 0..255 *)
Definition is_digit (c : ascii) : bool :=
  let n := N_of_ascii c in ((48 <=? n) && (n <=? 57))%N.

(** Length of the match of [pat] at the head of the text, if any;
    [Plus] takes as many characters as it can and gives back on failure. *)
Fixpoint match_here (pat : list atom) : string -> option nat :=
  match pat with
  | [] => fun _ => Some 0
  | Chr c :: pat' => fun s =>
      match s with
      | String a s' => if Ascii.eqb a c then option_map S (match_here pat' s') else None
      | EmptyString => None
      end
  | Cls p :: pat' => fun s =>
      match s with
      | String a s' => if p a then option_map S (match_here pat' s') else None
      | EmptyString => None
      end
  | Plus p :: pat' =>
      fix plus (s : string) : option nat :=
        match s with
        | String a s' =>
            if p a then
              match plus s' with
              | Some n => Some (S n)
              | None => option_map S (match_here pat' s')
              end
            else None
        | EmptyString => None
        end
  end.

(** Left to right: at a match the matched text is dropped and the scan
    goes on behind it ([skip] counts the characters still to drop). *)
Fixpoint sub_from (pat : list atom) (skip : nat) (s : string) : string :=
  match s with
  | EmptyString => EmptyString
  | String c s' =>
      match skip with
      | S k => sub_from pat k s'
      | O =>
          match match_here pat s with
          | Some (S n) => sub_from pat n s'
          | _ => String c (sub_from pat 0 s')
          end
      end
  end.

(** [re.sub(pat, '', s)] *)
Definition sub (pat : list atom) (s : string) : string := sub_from pat 0 s.

End Re.

(* ================================================================= *)
(** ** The csv dialect of the Writer

    [csv.DictWriter(file, fieldnames=..., delimiter=...)] writes with the
    default dialect: quote character 34, doubled inside a quoted field,
    minimal quoting, line terminator CR LF. *)

Module Csv.

Definition quotechar : ascii := "034".
Definition CR : ascii := "013".
Definition LF : ascii := "010".
Definition lineterminator : string := String CR (String LF EmptyString).

Definition special (delimiter c : ascii) : bool :=
  Ascii.eqb c delimiter || Ascii.eqb c quotechar || Ascii.eqb c CR || Ascii.eqb c LF.

Fixpoint needs_quoting (delimiter : ascii) (s : string) : bool :=
  match s with
  | EmptyString => false
  | String c s' => special delimiter c || needs_quoting delimiter s'
  end.

Fixpoint escape (s : string) : string :=
  match s with
  | EmptyString => EmptyString
  | String c s' =>
      if Ascii.eqb c quotechar
      then String quotechar (String quotechar (escape s'))
      else String c (escape s')
  end.

Definition write_field (delimiter : ascii) (s : string) : string :=
  if needs_quoting delimiter s
  then String quotechar (escape s ++ String quotechar EmptyString)
  else s.

Fixpoint join_fields (delimiter : ascii) (cells : list string) : string :=
  match cells with
  | [] => EmptyString
  | c :: rest =>
      match rest with
      | [] => write_field delimiter c
      | _ :: _ => write_field delimiter c ++ String delimiter (join_fields delimiter rest)
      end
  end%string.

(** [writer.writerow(cells)]; a row of one empty cell is written quoted. *)
Definition writerow (delimiter : ascii) (cells : list string) : string :=
  match cells with
  | [EmptyString] => String quotechar (String quotechar lineterminator)
  | _ => join_fields delimiter cells ++ lineterminator
  end%string.

(** *** Reading back

    The program only writes. The reading side of the round trip is the
    csv module's reader for the same dialect, run over the text of the
    file: its states, with the end of a physical line folded into the
    characters CR and LF, and no bound on the size of a field. *)

Inductive rstate : Type :=
| StartRecord | StartField | InField
| InQuotedField | QuoteInQuotedField | EatLF.

Record reader : Type := {
  state : rstate;
  field : string;                 (* the field being read *)
  fields : list string;           (* the fields of the record being read *)
  records : list (list string)    (* the records read so far *)
}.

Definition start : reader :=
  {| state := StartRecord; field := EmptyString; fields := []; records := [] |}.

Definition add_char (c : ascii) (next : rstate) (r : reader) : reader :=
  {| state := next; field := (field r ++ String c EmptyString)%string;
     fields := fields r; records := records r |}.

Definition save_field (r : reader) : reader :=
  {| state := StartField; field := EmptyString;
     fields := fields r ++ [field r]; records := records r |}.

Definition goto (next : rstate) (r : reader) : reader :=
  {| state := next; field := field r; fields := fields r; records := records r |}.

(** a line break outside quotes closes the record *)
Definition end_record (c : ascii) (r : reader) : reader :=
  {| state := if Ascii.eqb c CR then EatLF else StartRecord;
     field := EmptyString; fields := [];
     records := records r ++ [fields r ++ [field r]] |}.

Definition empty_record (c : ascii) (r : reader) : reader :=
  {| state := if Ascii.eqb c CR then EatLF else StartRecord;
     field := EmptyString; fields := [];
     records := records r ++ [[]] |}.

Definition is_newline (c : ascii) : bool := Ascii.eqb c CR || Ascii.eqb c LF.

Definition at_start_field (delimiter c : ascii) (r : reader) : reader :=
  if is_newline c then end_record c r
  else if Ascii.eqb c quotechar then goto InQuotedField r
  else if Ascii.eqb c delimiter then save_field r
  else add_char c InField r.

Definition at_start_record (delimiter c : ascii) (r : reader) : reader :=
  if is_newline c then empty_record c r
  else at_start_field delimiter c r.

Definition step (delimiter c : ascii) (r : reader) : reader :=
  match state r with
  | StartRecord => at_start_record delimiter c r
  | StartField => at_start_field delimiter c r
  | InField =>
      if is_newline c then end_record c r
      else if Ascii.eqb c delimiter then save_field r
      else add_char c InField r
  | InQuotedField =>
      if Ascii.eqb c quotechar then goto QuoteInQuotedField r
      else add_char c InQuotedField r
  | QuoteInQuotedField =>
      if Ascii.eqb c quotechar then add_char c InQuotedField r
      else if Ascii.eqb c delimiter then save_field r
      else if is_newline c then end_record c r
      else add_char c InField r
  | EatLF =>
      if Ascii.eqb c LF then goto StartRecord r
      else at_start_record delimiter c r
  end.

Fixpoint feed (delimiter : ascii) (text : string) (r : reader) : reader :=
  match text with
  | EmptyString => r
  | String c text' => feed delimiter text' (step delimiter c r)
  end.

(** at the end of the text an unfinished record is delivered as it is *)
Definition finish (r : reader) : list (list string) :=
  match state r with
  | StartRecord | EatLF => records r
  | _ => records r ++ [fields r ++ [field r]]
  end.

Definition read (delimiter : ascii) (text : string) : list (list string) :=
  finish (feed delimiter text start).

(** The reader, started in [st0] on the written form of the field [s],
    has come to its end: the field is [s], closed by a quote, or open, or
    empty with the reader still where it started. *)
Definition field_done (st0 : rstate) (s : string) (flds : list string)
           (recs : list (list string)) (r : reader) : Prop :=
  field r = s /\ fields r = flds /\ records r = recs /\
  (state r = QuoteInQuotedField \/ state r = InField \/
   (state r = st0 /\ s = EmptyString)).

(** a delimiter that is neither the quote character nor a line break *)
Definition valid_delimiter (delimiter : ascii) : bool :=
  negb (Ascii.eqb delimiter quotechar || is_newline delimiter).

End Csv.

(* ================================================================= *)
(** ** The program *)

Section Program.

(** [repr] of a float, a list or a dict, and [json.dumps]: both are total
    on the values of a decoded response and return text. *)
Variable py_repr : value -> string.
Variable json_dumps : value -> string.

(** [str(v)] *)
Definition py_str (v : value) : string :=
  match v with
  | VStr s => s
  | VNone => "None"
  | VBool true => "True"
  | VBool false => "False"
  | VInt n => Py.str_of_int n
  | VFloat _ | VList _ | VDict _ => py_repr v
  end.

(* --------------------------------------------------------------- *)
(** *** TextCleaner *)

(** [r"\s\(IM-\d+\)"] *)
Definition pattern : list Re.atom :=
  [Re.Cls Re.is_space; Re.Chr "("; Re.Chr "I"; Re.Chr "M"; Re.Chr "-";
   Re.Plus Re.is_digit; Re.Chr ")"]%char.

Definition clean_field (field : value) : result value :=
  if negb (Py.truthy field) then ret (VStr "")
  else
    match field with
    | VList l =>
        let cleaned_list := map (fun x => VStr (Re.sub pattern (py_str x))) l in
        Py.join "," cleaned_list
    | _ => ret (VStr (Re.sub pattern (py_str field)))
    end.

(* --------------------------------------------------------------- *)
(** *** JiraTaskFormatter *)

Definition get_nested_value (data : value) (key : string)
           (subkey : option string) : result value :=
  has_key <- Py.contains key data ;;
  if negb has_key then ret (VStr "")
  else
    value <- Py.getitem data key ;;
    if negb (Py.truthy value) then ret (VStr "")
    else
      match subkey with
      | None | Some EmptyString => ret value
      | Some sk =>
          match value with
          | VDict _ =>
              has_sub <- Py.contains sk value ;;
              if has_sub then
                x <- Py.getitem value sk ;; ret (Py.or_ x (VStr ""))
              else ret (VStr "")
          | _ => ret (VStr "")
          end
      end.

(** [[x.get("emailAddress", "") for x in fields.get("customfield_20145", [])]
     if fields.get("customfield_20145") else []] *)
Definition l2_assignee (fields : value) : result (list value) :=
  c <- Py.get fields "customfield_20145" VNone ;;
  if Py.truthy c then
    src <- Py.get fields "customfield_20145" (VList []) ;;
    xs <- Py.iter src ;;
    mapM (fun x => Py.get x "emailAddress" (VStr "")) xs
  else ret [].

(** lines 118-120 *)
Definition vendor_related (fields : value) : result value :=
  present <- Py.contains "customfield_20906" fields ;;
  if present then
    v <- Py.getitem fields "customfield_20906" ;;
    if Py.truthy v then
      v' <- Py.getitem fields "customfield_20906" ;;
      Py.get v' "value" (VStr "")
    else ret (VStr "")
  else ret (VStr "").

(** lines 122-124 *)
Definition system_owner (fields : value) : result value :=
  c <- Py.get fields "customfield_20157" VNone ;;
  if Py.truthy c then
    v <- Py.getitem fields "customfield_20157" ;;
    has_name <- Py.contains "displayName" v ;;
    if has_name then
      v' <- Py.getitem fields "customfield_20157" ;;
      Py.getitem v' "displayName"
    else ret (VStr "")
  else ret (VStr "").

(** [fields.get(key, {}).get(attr, "")] *)
Definition get_attr (fields : value) (key attr : string) : result value :=
  o <- Py.get fields key (VDict []) ;;
  Py.get o attr (VStr "").

(** [self.cleaner.clean_field(fields.get(key, ""))] *)
Definition cleaned (fields : value) (key : string) : result value :=
  a <- Py.get fields key (VStr "") ;;
  clean_field a.

(** [str(fields.get("customfield_20904", 0) or 0)] *)
Definition error_rate (fields : value) : result value :=
  a <- Py.get fields "customfield_20904" (VInt 0) ;;
  ret (VStr (py_str (Py.or_ a (VInt 0)))).

(** lines 154-157 *)
Definition problem_links (fields : value) : result value :=
  present <- Py.contains "customfield_22301" fields ;;
  if present then
    v <- Py.getitem fields "customfield_22301" ;;
    if Py.truthy v then
      v1 <- Py.getitem fields "customfield_22301" ;;
      has_value <- Py.contains "value" v1 ;;
      if has_value then
        v2 <- Py.getitem fields "customfield_22301" ;;
        x <- Py.getitem v2 "value" ;;
        ret (VStr (json_dumps x))
      else ret (VStr "")
    else ret (VStr "")
  else ret (VStr "").

Definition format_task (task : value) : result dict :=
  fields <- Py.getitem task "fields" ;;
  l2 <- l2_assignee fields ;;
  responsible_team <- cleaned fields "customfield_20161" ;;
  incident_type <- get_nested_value fields "customfield_20163" (Some "value") ;;
  vendor <- vendor_related fields ;;
  owner <- system_owner fields ;;
  c_key <- Py.getitem task "key" ;;
  c_summary <- Py.get fields "summary" (VStr "") ;;
  c_reporter <- get_attr fields "reporter" "displayName" ;;
  c_l2 <- Py.join ", " l2 ;;
  c_status <- get_attr fields "status" "name" ;;
  c_priority <- get_attr fields "priority" "name" ;;
  c_system <- cleaned fields "customfield_20800" ;;
  c_department <- cleaned fields "customfield_20129" ;;
  c_process <- cleaned fields "customfield_20160" ;;
  c_impacted <- cleaned fields "customfield_20164" ;;
  c_detected <- Py.get fields "customfield_20162" (VStr "") ;;
  c_start <- Py.get fields "customfield_20158" (VStr "") ;;
  c_end <- Py.get fields "customfield_20159" (VStr "") ;;
  c_duration <- get_nested_value fields "customfield_20908" (Some "value") ;;
  c_downtime_type <- get_nested_value fields "customfield_20901" (Some "value") ;;
  c_outage <- get_nested_value fields "customfield_20902" (Some "value") ;;
  c_details <- Py.get fields "customfield_20136" (VStr "") ;;
  c_mitigation <- Py.get fields "customfield_20138" (VStr "") ;;
  c_root_cause <- Py.get fields "customfield_20137" (VStr "") ;;
  c_corrective <- Py.get fields "customfield_20148" (VStr "") ;;
  c_solution <- Py.get fields "customfield_20113" (VStr "") ;;
  c_real_downtime <- Py.get fields "customfield_21519" (VStr "") ;;
  c_error_rate <- error_rate fields ;;
  c_problem_links <- problem_links fields ;;
  ret [ ("key", c_key);
        ("summary", c_summary);
        ("reporter", c_reporter);
        ("L2 Assignee", c_l2);
        ("Responsible Team", responsible_team);
        ("Incident Detected type", incident_type);
        ("Vendor Related Incidents", vendor);
        ("status", c_status);
        ("priority", c_priority);
        ("System for incident", c_system);
        ("System Owner", owner);
        ("System owner department", c_department);
        ("Impacted Business Process", c_process);
        ("Impacted Systems", c_impacted);
        ("Incident detected date", c_detected);
        ("Incident start date", c_start);
        ("Incident end date", c_end);
        ("Incident Duration", c_duration);
        ("Downtime Type", c_downtime_type);
        ("Downtime Outage", c_outage);
        ("Incident Details", c_details);
        ("Mitigation & Resolution", c_mitigation);
        ("Root Cause Analysis", c_root_cause);
        ("Corrective Actions", c_corrective);
        ("Incident solution", c_solution);
        ("Real downtime duration", c_real_downtime);
        ("Error Rate", c_error_rate);
        ("Problem Links", c_problem_links) ].

(** The columns of the row after "key", in the order of the dict literal:
    the name, the entry of [fields] the column is drawn from, and the
    expression of [format_task] that computes it. *)
Definition columns : list (string * string * (value -> result value)) :=
  [ ("summary", "summary", fun fields => Py.get fields "summary" (VStr ""));
    ("reporter", "reporter", fun fields => get_attr fields "reporter" "displayName");
    ("L2 Assignee", "customfield_20145",
      fun fields => l2 <- l2_assignee fields ;; Py.join ", " l2);
    ("Responsible Team", "customfield_20161",
      fun fields => cleaned fields "customfield_20161");
    ("Incident Detected type", "customfield_20163",
      fun fields => get_nested_value fields "customfield_20163" (Some "value"));
    ("Vendor Related Incidents", "customfield_20906", vendor_related);
    ("status", "status", fun fields => get_attr fields "status" "name");
    ("priority", "priority", fun fields => get_attr fields "priority" "name");
    ("System for incident", "customfield_20800",
      fun fields => cleaned fields "customfield_20800");
    ("System Owner", "customfield_20157", system_owner);
    ("System owner department", "customfield_20129",
      fun fields => cleaned fields "customfield_20129");
    ("Impacted Business Process", "customfield_20160",
      fun fields => cleaned fields "customfield_20160");
    ("Impacted Systems", "customfield_20164",
      fun fields => cleaned fields "customfield_20164");
    ("Incident detected date", "customfield_20162",
      fun fields => Py.get fields "customfield_20162" (VStr ""));
    ("Incident start date", "customfield_20158",
      fun fields => Py.get fields "customfield_20158" (VStr ""));
    ("Incident end date", "customfield_20159",
      fun fields => Py.get fields "customfield_20159" (VStr ""));
    ("Incident Duration", "customfield_20908",
      fun fields => get_nested_value fields "customfield_20908" (Some "value"));
    ("Downtime Type", "customfield_20901",
      fun fields => get_nested_value fields "customfield_20901" (Some "value"));
    ("Downtime Outage", "customfield_20902",
      fun fields => get_nested_value fields "customfield_20902" (Some "value"));
    ("Incident Details", "customfield_20136",
      fun fields => Py.get fields "customfield_20136" (VStr ""));
    ("Mitigation & Resolution", "customfield_20138",
      fun fields => Py.get fields "customfield_20138" (VStr ""));
    ("Root Cause Analysis", "customfield_20137",
      fun fields => Py.get fields "customfield_20137" (VStr ""));
    ("Corrective Actions", "customfield_20148",
      fun fields => Py.get fields "customfield_20148" (VStr ""));
    ("Incident solution", "customfield_20113",
      fun fields => Py.get fields "customfield_20113" (VStr ""));
    ("Real downtime duration", "customfield_21519",
      fun fields => Py.get fields "customfield_21519" (VStr ""));
    ("Error Rate", "customfield_20904", error_rate);
    ("Problem Links", "customfield_22301", problem_links) ].

(** All the columns computed one after the other on the same [fields]. *)
Definition run_columns (fields : value) : result dict :=
  mapM (fun c : string * string * (value -> result value) =>
          let '(name, _, compute) := c in
          v <- compute fields ;; ret (name, v))
       columns.

(* --------------------------------------------------------------- *)
(** *** The world: search API, console, file system *)

Record JiraConfig : Type := {
  url : string;
  username : string;
  password : string;
  verify_ssl : bool
}.

Record params : Type := {
  jql : string;
  startAt : Z;
  maxResults : Z
}.

Record request : Type := {
  req_url : string;
  req_headers : list (string * string);
  req_params : params;
  req_auth : string * string;
  req_verify : bool
}.

(** What [requests.get] comes back with: it raises, or it returns a
    response with a status code and a body that [response.json()] decodes
    ([None]: the body is not JSON). *)
Inductive reply : Type :=
| NoResponse
| Response (status_code : Z) (json_body : option value).

(** The server on the other side: a state and its answer to a request. *)
Variable St : Type.
Variable serve : St -> request -> reply * St.

Inductive message : Type :=
| FetchError (err : request_error)
    (* "Error occurred while fetching data from Jira: {err}" *)
| NoTasksFound
    (* "No tasks found for the given query." *)
| Exported (filename : string)
    (* "Tasks exported to '{filename}' successfully." *)
| ExportError (e : exn)
    (* "Error exporting to CSV: {e}" *).

(** Files hold text; [writable] says whether [open(name, "w")] succeeds. *)
Record filesystem : Type := {
  file : string -> option string;
  writable : string -> bool
}.

Record world : Type := {
  server : St;
  exchanges : list (request * reply);   (* oldest first *)
  console : list message;               (* oldest first *)
  disk : filesystem;
  export_calls : list (list dict)       (* arguments of [exporter.export] *)
}.

Definition print (m : message) (w : world) : world :=
  {| server := server w; exchanges := exchanges w;
     console := console w ++ [m]; disk := disk w;
     export_calls := export_calls w |}.

Definition with_disk (d : filesystem) (w : world) : world :=
  {| server := server w; exchanges := exchanges w;
     console := console w; disk := d;
     export_calls := export_calls w |}.

Definition requests_get (rq : request) (w : world) : reply * world :=
  let (rep, s') := serve (server w) rq in
  (rep, {| server := s'; exchanges := exchanges w ++ [(rq, rep)];
           console := console w; disk := disk w;
           export_calls := export_calls w |}).

(* --------------------------------------------------------------- *)
(** *** JiraClient *)

Record JiraClient : Type := {
  config : JiraConfig;
  headers : list (string * string);
  auth : string * string
}.

Definition JiraClient_init (config : JiraConfig) : JiraClient :=
  {| config := config;
     headers := [("Content-Type", "application/json")];
     auth := (username config, password config) |}.

(** [response.raise_for_status()] *)
Definition raise_for_status (status_code : Z) : result unit :=
  if ((400 <=? status_code) && (status_code <? 600))%Z
  then Raised (RequestException (HTTPError status_code))
  else ret tt.

(** [response.json()] *)
Definition response_json (json_body : option value) : result value :=
  match json_body with
  | Some v => ret v
  | None => Raised (RequestException JSONDecodeError)
  end.

Inductive control : Type := Break | Continue.

(** The locals of [get_tasks] that the loop updates. *)
Record locals : Type := {
  start_at : Z;
  all_tasks : list value
}.

(** The [try] block of one iteration, after [requests.get] came back. *)
Definition try_block (max_results_per_page : Z) (l : locals)
           (rep : reply) : result (control * locals) :=
  match rep with
  | NoResponse => Raised (RequestException ConnectionError)
  | Response status_code json_body =>
      _ <- raise_for_status status_code ;;
      js <- response_json json_body ;;
      issues <- Py.get js "issues" (VList []) ;;
      items <- Py.iter issues ;;            (* all_tasks.extend(issues) *)
      let all_tasks' := all_tasks l ++ items in
      n <- Py.len issues ;;
      if (n <? max_results_per_page)%Z
      then ret (Break, {| start_at := start_at l; all_tasks := all_tasks' |})
      else ret (Continue, {| start_at := (start_at l + max_results_per_page)%Z;
                             all_tasks := all_tasks' |})
  end.

Definition page_request (self : JiraClient) (jql_query : string)
           (max_results_per_page : Z) (l : locals) : request :=
  {| req_url := url (config self);
     req_headers := headers self;
     req_params := {| jql := jql_query; startAt := start_at l;
                      maxResults := max_results_per_page |};
     req_auth := auth self;
     req_verify := verify_ssl (config self) |}.

(** One turn of [while True]: the request, the [try] block and the
    [except requests.exceptions.RequestException] clause. *)
Definition loop_body (self : JiraClient) (jql_query : string)
           (max_results_per_page : Z) (l : locals) (w : world)
  : result (control * locals) * world :=
  let (rep, w1) := requests_get (page_request self jql_query max_results_per_page l) w in
  match try_block max_results_per_page l rep with
  | Raised (RequestException err) => (Returned (Break, l), print (FetchError err) w1)
  | r => (r, w1)
  end.

(** [while True]; [None] when the loop is still running after [fuel] turns. *)
Fixpoint while_true (fuel : nat) (self : JiraClient) (jql_query : string)
         (max_results_per_page : Z) (l : locals) (w : world)
  : option (result (list value) * world) :=
  match fuel with
  | O => None
  | S fuel' =>
      match loop_body self jql_query max_results_per_page l w with
      | (Raised e, w') => Some (Raised e, w')
      | (Returned (Break, l'), w') => Some (Returned (all_tasks l'), w')
      | (Returned (Continue, l'), w') =>
          while_true fuel' self jql_query max_results_per_page l' w'
      end
  end.

Definition get_tasks (fuel : nat) (self : JiraClient) (jql_query : string)
           (max_results_per_page : Z) (w : world)
  : option (result (list value) * world) :=
  while_true fuel self jql_query max_results_per_page
             {| start_at := 0; all_tasks := [] |} w.

(* --------------------------------------------------------------- *)
(** *** DataExporter and CSVExporter *)

Class DataExporter (E : Type) : Type := {
  export : E -> list dict -> world -> result unit * world
}.

Record CSVExporter : Type := {
  filename : string;
  delimiter : string;
  fieldnames : list string
}.

Definition CSVExporter_init (filename delimiter : string) : CSVExporter :=
  {| filename := filename;
     delimiter := delimiter;
     fieldnames :=
       [ "key"; "summary"; "reporter"; "L2 Assignee"; "Responsible Team";
         "Incident Detected type"; "Vendor Related Incidents"; "status"; "priority";
         "System for incident"; "System Owner"; "System owner department";
         "Impacted Business Process"; "Impacted Systems"; "Incident detected date";
         "Incident start date"; "Incident end date"; "Downtime Type"; "Downtime Outage";
         "Incident Duration"; "Incident Details"; "Root Cause Analysis";
         "Mitigation & Resolution"; "Corrective Actions"; "Incident solution";
         "Real downtime duration"; "Error Rate"; "Problem Links" ] |}.

(** [open(name, mode="w", ...)]: the file is created or truncated *)
Definition open_w (name : string) (d : filesystem) : result filesystem :=
  if writable d name
  then ret {| file := fun n => if String.eqb n name then Some EmptyString else file d n;
              writable := writable d |}
  else Raised OSError.

Definition write (name text : string) (d : filesystem) : filesystem :=
  {| file := fun n => if String.eqb n name
                      then Some (match file d name with
                                 | Some old => old ++ text
                                 | None => text
                                 end)%string
                      else file d n;
     writable := writable d |}.

(** how the csv writer renders a cell: [None] as nothing, text as it is,
    anything else through [str] *)
Definition cell_text (v : value) : string :=
  match v with
  | VNone => EmptyString
  | VStr s => s
  | _ => py_str v
  end.

(** [DictWriter._dict_to_list] with [extrasaction="raise"], [restval=""] *)
Definition dict_to_list (fieldnames : list string) (rowdict : dict)
  : result (list value) :=
  let wrong_fields :=
    filter (fun k => negb (existsb (String.eqb k) fieldnames)) (Py.keys rowdict) in
  match wrong_fields with
  | [] => ret (map (fun key => match Py.lookup key rowdict with
                               | Some v => v
                               | None => VStr ""
                               end) fieldnames)
  | _ :: _ => Raised ValueError
  end.

(** [csv.DictWriter(file, fieldnames=..., delimiter=...)]: the delimiter
    has to be one character *)
Definition DictWriter (delimiter : string) : result ascii :=
  match delimiter with
  | String c EmptyString => ret c
  | _ => Raised TypeError
  end.

Definition writeheader (name : string) (delim : ascii) (fieldnames : list string)
           (d : filesystem) : filesystem :=
  write name (Csv.writerow delim fieldnames) d.

(** [writer.writerows(data)]: row after row, up to the first that raises *)
Fixpoint writerows (name : string) (delim : ascii) (fieldnames : list string)
         (data : list dict) (d : filesystem) : result unit * filesystem :=
  match data with
  | [] => (ret tt, d)
  | rowdict :: rest =>
      match dict_to_list fieldnames rowdict with
      | Raised e => (Raised e, d)
      | Returned cells =>
          writerows name delim fieldnames rest
                    (write name (Csv.writerow delim (map cell_text cells)) d)
      end
  end.

Definition CSVExporter_export (self : CSVExporter) (data : list dict)
           (w : world) : result unit * world :=
  match open_w (filename self) (disk w) with
  | Raised e => (ret tt, print (ExportError e) w)
  | Returned d0 =>
      match DictWriter (delimiter self) with
      | Raised e => (ret tt, print (ExportError e) (with_disk d0 w))
      | Returned delim =>
          let d1 := writeheader (filename self) delim (fieldnames self) d0 in
          match writerows (filename self) delim (fieldnames self) data d1 with
          | (Raised e, d2) => (ret tt, print (ExportError e) (with_disk d2 w))
          | (Returned _, d2) => (ret tt, print (Exported (filename self)) (with_disk d2 w))
          end
      end
  end.

#[local] Instance CSVExporter_DataExporter : DataExporter CSVExporter :=
  {| export := CSVExporter_export |}.

(* --------------------------------------------------------------- *)
(** *** JiraTaskExporter *)

Record JiraTaskExporter (E : Type) : Type := {
  jira_client : JiraClient;
  exporter : E
}.

(** The formatter and its cleaner hold no state:
    [self.formatter.format_task] is [format_task] above. *)

(** the call [self.exporter.export(formatted_tasks)], entered in the world *)
Definition call_export {E} {X : DataExporter E} (e : E) (data : list dict)
           (w : world) : result unit * world :=
  export e data
         {| server := server w; exchanges := exchanges w;
            console := console w; disk := disk w;
            export_calls := export_calls w ++ [data] |}.

Definition export_tasks {E} {X : DataExporter E} (fuel : nat)
           (self : JiraTaskExporter E) (jql_query : string) (w : world)
  : option (result unit * world) :=
  match get_tasks fuel (jira_client self) jql_query 50 w with
  | None => None
  | Some (Raised e, w1) => Some (Raised e, w1)
  | Some (Returned tasks, w1) =>
      if negb (Py.truthy (VList tasks))
      then Some (ret tt, print NoTasksFound w1)
      else
        match mapM format_task tasks with
        | Raised e => Some (Raised e, w1)
        | Returned formatted_tasks =>
            Some (call_export (exporter self) formatted_tasks w1)
        end
  end.

End Program.

(* ================================================================= *)
(** ** Runs of the fetch loop *)

Section Runs.

Variable St : Type.
Variable serve : St -> request -> reply * St.
Variable self : JiraClient.
Variable jql_query : string.
Variable max_results_per_page : Z.

(** The request that [get_tasks] sends for the offset [off]. *)
Definition request_at (off : Z) : request :=
  page_request self jql_query max_results_per_page
               {| start_at := off; all_tasks := [] |}.

(** The records that the [try] block draws from a reply, up to
    [all_tasks.extend(issues)]. *)
Definition records_of (rep : reply) : result (list value) :=
  match rep with
  | NoResponse => Raised (RequestException ConnectionError)
  | Response status_code json_body =>
      _ <- raise_for_status status_code ;;
      js <- response_json json_body ;;
      issues <- Py.get js "issues" (VList []) ;;
      Py.iter issues
  end.

(** The reply is a failed request: [requests.get] raised, the status is
    one that [raise_for_status] rejects, or the body is not JSON. *)
Definition request_failure (rep : reply) : option request_error :=
  match records_of rep with
  | Raised (RequestException err) => Some err
  | _ => None
  end.

Definition offset_of (x : request * reply) : Z := startAt (req_params (fst x)).

(** From state [s] and offset [off] the server answers the requests of
    the loop with the pages [pages], none shorter than the page size. *)
Inductive full_pages : St -> Z -> list (list value) ->
                       list (request * reply) -> St -> Prop :=
| full_pages_nil s off : full_pages s off [] [] s
| full_pages_cons s off rep s1 p pages xs s' :
    serve s (request_at off) = (rep, s1) ->
    records_of rep = Returned p ->
    (max_results_per_page <= Z.of_nat (List.length p))%Z ->
    full_pages s1 (off + max_results_per_page)%Z pages xs s' ->
    full_pages s off (p :: pages) ((request_at off, rep) :: xs) s'.

(** The exchanges of one run from offset [off]: every page that is not
    shorter than the page size is followed by the request for the next
    offset, and the run ends with the first reply that is not such a
    page. *)
Inductive chain : Z -> list (request * reply) -> Prop :=
| chain_last off rep :
    (forall p, records_of rep = Returned p ->
               (Z.of_nat (List.length p) < max_results_per_page)%Z) ->
    chain off [(request_at off, rep)]
| chain_more off rep p xs :
    records_of rep = Returned p ->
    (max_results_per_page <= Z.of_nat (List.length p))%Z ->
    chain (off + max_results_per_page)%Z xs ->
    chain off ((request_at off, rep) :: xs).

(** The world after the server moved to [s'] over the exchanges [xs]. *)
Definition after (s' : St) (xs : list (request * reply)) (w : world St)
  : world St :=
  {| server := s'; exchanges := exchanges w ++ xs;
     console := console w; disk := disk w;
     export_calls := export_calls w |}.

End Runs.

(* ================================================================= *)
(** ** What "every occurrence stripped" means

    An annotation is one white-space character, the text "(IM-", one or
    more digits and ")". [stripped s out]: reading [s] from the left, every
    annotation met is dropped and every other character is kept. *)

Fixpoint all_chars (p : ascii -> bool) (s : string) : bool :=
  match s with
  | EmptyString => true
  | String c s' => p c && all_chars p s'
  end.

Inductive annotation : string -> Prop :=
| annotation_intro (c : ascii) (ds : string) :
    Re.is_space c = true ->
    ds <> EmptyString ->
    all_chars Re.is_digit ds = true ->
    annotation (String c ("(IM-" ++ ds ++ ")")).

Inductive stripped : string -> string -> Prop :=
| stripped_nil : stripped EmptyString EmptyString
| stripped_drop (a rest out : string) :
    annotation a -> stripped rest out -> stripped (a ++ rest) out
| stripped_keep (c : ascii) (s out : string) :
    (forall a rest, annotation a -> String c s <> (a ++ rest)%string) ->
    stripped s out -> stripped (String c s) (String c out).

(* ================================================================= *)
(** ** The row schema and the defaults of the extraction policies *)

(** The column names of a row, in the order [format_task] lays them out. *)
Definition row_columns : list string :=
  [ "key"; "summary"; "reporter"; "L2 Assignee"; "Responsible Team";
    "Incident Detected type"; "Vendor Related Incidents"; "status"; "priority";
    "System for incident"; "System Owner"; "System owner department";
    "Impacted Business Process"; "Impacted Systems"; "Incident detected date";
    "Incident start date"; "Incident end date"; "Incident Duration";
    "Downtime Type"; "Downtime Outage"; "Incident Details";
    "Mitigation & Resolution"; "Root Cause Analysis"; "Corrective Actions";
    "Incident solution"; "Real downtime duration"; "Error Rate"; "Problem Links" ].

Definition mem (x : string) (l : list string) : bool := existsb (String.eqb x) l.

Fixpoint nodupb (l : list string) : bool :=
  match l with
  | [] => true
  | x :: l' => negb (mem x l') && nodupb l'
  end.

(** Conditional nested extraction, as the specification words it: the
    entry counts only if it exists and is truthy; then the named attribute
    is read from it, the empty text standing in for a missing one. *)
Definition conditional_nested (fields : dict) (key attr : string) : value :=
  match Py.lookup key fields with
  | Some v =>
      if Py.truthy v then
        match v with
        | VDict d => match Py.lookup attr d with
                     | Some x => x
                     | None => VStr ""
                     end
        | _ => VStr ""
        end
      else VStr ""
  | None => VStr ""
  end.

(** An entry that the conditional extraction can read an attribute from,
    or has no need to: it is absent, falsy, or an object. *)
Definition object_or_falsy (entry : option value) : bool :=
  match entry with
  | None => true
  | Some (VDict _) => true
  | Some v => negb (Py.truthy v)
  end.

(** The record has no entry [k] to subscript ([task[k]] raises). *)
Definition missing (task : value) (k : string) : Prop :=
  forall v, Py.getitem task k <> Returned v.

Definition column_name (c : string * string * (value -> result value)) : string :=
  fst (fst c).

(** What a column holds when its entry is absent. *)
Definition absent_default (column : string) : value :=
  if String.eqb column "Error Rate" then VStr "0" else VStr "".

(** The columns that pass their entry on as it is ([fields.get(key, "")]). *)
Definition direct_columns : list string :=
  [ "summary"; "Incident detected date"; "Incident start date";
    "Incident end date"; "Incident Details"; "Mitigation & Resolution";
    "Root Cause Analysis"; "Corrective Actions"; "Incident solution";
    "Real downtime duration" ].

(** What a column holds when its entry is null. *)
Definition null_default (column : string) : value :=
  if mem column direct_columns then VNone else absent_default column.

(** The entries read with [fields.get(key, {}).get(...)]. *)
Definition attr_entries : list string := [ "reporter"; "status"; "priority" ].

(* ================================================================= *)
(** ** Rows as the Writer takes them and as a reader gives them back *)

(** A FlatRow for the header [fieldnames]: every column of the header holds
    text, and there is no other key. *)
Definition FlatRow (fieldnames : list string) (row : dict) : Prop :=
  (forall c, In c fieldnames -> exists s, Py.lookup c row = Some (VStr s)) /\
  (forall k, In k (Py.keys row) -> In k fieldnames).

Definition text_of (v : option value) : string :=
  match v with
  | Some (VStr s) => s
  | _ => EmptyString
  end.

(** The cells of a row in the order of the header. *)
Definition row_cells (fieldnames : list string) (row : dict) : list string :=
  map (fun c => text_of (Py.lookup c row)) fieldnames.

(** [dict(zip(header, cells))], as [csv.DictReader] builds a row *)
Definition zip_row (header cells : list string) : dict :=
  combine header (map VStr cells).

(** The rows a [csv.DictReader] gives for a text: the first record is the
    header, every further record a row under that header. *)
Definition DictReader (delimiter : ascii) (text : string) : list dict :=
  match Csv.read delimiter text with
  | [] => []
  | header :: data => map (zip_row header) data
  end.

(** Two dicts are equal when they bind the same keys to the same values. *)
Definition dict_equal (a b : dict) : Prop :=
  forall k, Py.lookup k a = Py.lookup k b.

(* ================================================================= *)
(** ** Stub collaborators for closed examples *)

(** The examples below never reach [repr] or [json.dumps]. *)
Definition no_repr (_ : value) : string := EmptyString.

(** A stub server: it answers from a script, whatever is asked, and does
    not answer once the script is over. *)
Definition stub_serve (script : list reply) (_ : request) : reply * list reply :=
  match script with
  | [] => (NoResponse, [])
  | rep :: script' => (rep, script')
  end.

Definition empty_disk : filesystem :=
  {| file := fun _ => None; writable := fun _ => true |}.

Definition fresh_world {St} (s : St) : world St :=
  {| server := s; exchanges := []; console := []; disk := empty_disk;
     export_calls := [] |}.

Definition issue (n : nat) : value :=
  VDict [("key", VStr ("IM-" ++ NilZero.string_of_uint (Nat.to_uint n)));
         ("fields", VDict [("summary", VStr "Disk full (IM-1234)")])].

(** [count] issues numbered from [first] *)
Definition issues_from (first count : nat) : list value :=
  map issue (seq first count).

Definition page (records : list value) : reply :=
  Response 200 (Some (VDict [("issues", VList records)])).

Definition the_config : JiraConfig :=
  {| url := "https://jira.example/rest/api/2/search";
     username := "user"; password := "secret"; verify_ssl := false |}.

Definition the_client : JiraClient := JiraClient_init the_config.

Definition the_query : string := "project = OPS".

Definition script_50_50_12 : list reply :=
  [ page (issues_from 0 50); page (issues_from 50 50); page (issues_from 100 12) ].

(** one page of the page size, then nothing: the next request fails *)
Definition script_one_full_page : list reply := [ page (issues_from 0 50) ].

(** a page of the page size followed by an empty page *)
Definition script_full_then_empty : list reply := [ page (issues_from 0 50); page [] ].

(** a "304 Not Modified" that carries two records *)
Definition script_not_modified : list reply :=
  [ Response 304 (Some (VDict [("issues", VList (issues_from 0 2))])) ].

(** a record without "fields" *)
Definition shapeless_issue : value := VDict [("key", VStr "IM-1")].

Definition sample_task : value :=
  VDict [("key", VStr "IM-7");
         ("fields",
           VDict [("summary", VStr "Disk full");
                  ("customfield_20145",
                    VList [VDict [("emailAddress", VStr "a@x.com")];
                           VDict [("emailAddress", VStr "b@x.com")]]);
                  ("customfield_20161", VList [VStr "Ops (IM-12)"; VStr "Net"]);
                  ("customfield_20906", VNone);
                  ("customfield_20904", VInt 5);
                  ("customfield_20157", VDict [("displayName", VStr "Ann")])])].

(** a record with a vendor flag and an owner, both objects *)
Definition vendor_task : value :=
  VDict [("key", VStr "IM-11");
         ("fields",
           VDict [("summary", VStr "Link down");
                  ("customfield_20906",
                    VDict [("id", VStr "10200"); ("value", VStr "Yes")]);
                  ("customfield_20157",
                    VDict [("name", VStr "ann"); ("displayName", VStr "Ann")])])].

(** a record whose vendor flag is text, not an object *)
Definition text_vendor_task : value :=
  VDict [("key", VStr "IM-12");
         ("fields", VDict [("customfield_20906", VStr "Yes")])].

Definition the_exporter : CSVExporter :=
  CSVExporter_init "jira_exported_tasks.csv" ";".

Definition the_task_exporter : JiraTaskExporter CSVExporter :=
  {| jira_client := the_client; exporter := the_exporter |}.

(** a FlatRow with the given key and summary and every other column empty *)
Definition sample_row (key summary : string) : dict :=
  map (fun c => (c, VStr (if String.eqb c "key" then key
                          else if String.eqb c "summary" then summary
                          else EmptyString)))
      (fieldnames the_exporter).

(** text with a delimiter, quotes and a line break in it *)
Definition tricky_text : string :=
  "a;b says " ++ String Csv.quotechar ("hi" ++ String Csv.quotechar
     (String Csv.CR (String Csv.LF "bye"))).

(** The program against a stub server with a script, the csv exporter
    of [main] at the other end. *)
Definition csv_instance : DataExporter (list reply) CSVExporter :=
  CSVExporter_DataExporter no_repr (list reply).

Definition run_fetch (fuel : nat) (script : list reply) :=
  get_tasks stub_serve fuel the_client the_query 50 (fresh_world script).

Definition run_export (fuel : nat) (script : list reply) :=
  export_tasks no_repr no_repr stub_serve (X := csv_instance) fuel
               the_task_exporter the_query (fresh_world script).

Definition sample_rows : list dict :=
  [ sample_row "IM-1" tricky_text; sample_row "IM-2" "plain";
    sample_row "IM-1" tricky_text ].

(* ================================================================= *)
(** ** Notions for the further properties *)

(** The entry of [fields] that a column is drawn from. *)
Definition column_entry (c : string * string * (value -> result value)) : string :=
  snd (fst c).

(** The entries of [fields] that [format_task] reads. *)
Definition source_entries : list string :=
  [ "summary"; "reporter"; "customfield_20145"; "customfield_20161";
    "customfield_20163"; "customfield_20906"; "status"; "priority";
    "customfield_20800"; "customfield_20157"; "customfield_20129";
    "customfield_20160"; "customfield_20164"; "customfield_20162";
    "customfield_20158"; "customfield_20159"; "customfield_20908";
    "customfield_20901"; "customfield_20902"; "customfield_20136";
    "customfield_20138"; "customfield_20137"; "customfield_20148";
    "customfield_20113"; "customfield_21519"; "customfield_20904";
    "customfield_22301" ].

(** The e-mail address that the projection takes from one assignee. *)
Definition email_of (person : dict) : string :=
  text_of (Py.lookup "emailAddress" person).

Definition is_dict (v : value) : bool :=
  match v with
  | VDict _ => true
  | _ => false
  end.

(** The records that one exchange adds to the result of the fetch. *)
Definition page_records (x : request * reply) : list value :=
  match records_of (snd x) with
  | Returned p => p
  | Raised _ => []
  end.

(** The exception, if any, that the [try] block raises on a decoded body
    between [response.json()] and [all_tasks.extend(issues)]. *)
Definition unhandled_body (js : value) : option exn :=
  match Py.get js "issues" (VList []) with
  | Raised e => Some e
  | Returned issues =>
      match Py.iter issues with
      | Raised e => Some e
      | Returned _ => None
      end
  end.

(** The row has no key outside the header. *)
Definition only_header_keys (fieldnames : list string) (row : dict) : bool :=
  forallb (fun k => mem k fieldnames) (Py.keys row).

(** The rows up to the first one with a key outside the header. *)
Fixpoint accepted_prefix (fieldnames : list string) (data : list dict) : list dict :=
  match data with
  | [] => []
  | row :: rest =>
      if only_header_keys fieldnames row
      then row :: accepted_prefix fieldnames rest
      else []
  end.

(** The cells that the Writer puts down for a row, in the order of the
    header: a missing column and [None] as nothing, text as it is, anything
    else through [str]. *)
Definition written_cells (py_repr : value -> string) (fieldnames : list string)
           (row : dict) : list string :=
  map (fun c => match Py.lookup c row with
                | Some v => cell_text py_repr v
                | None => EmptyString
                end) fieldnames.

(** The text of a file that holds a header and rows of cells. *)
Definition csv_text (delim : ascii) (header : list string)
           (rows : list (list string)) : string :=
  fold_left (fun a cells => (a ++ Csv.writerow delim cells)%string) rows
            (Csv.writerow delim header).

Fixpoint count_char (c : ascii) (s : string) : nat :=
  match s with
  | EmptyString => 0
  | String a s' => (if Ascii.eqb a c then 1 else 0) + count_char c s'
  end.

(** The file system with [content] under [name]. *)
Definition put_file (name content : string) (d : filesystem) : filesystem :=
  {| file := fun n => if String.eqb n name then Some content else file d n;
     writable := writable d |}.

(** A server that answers every request with the same page. *)
Definition repeat_serve (records : list value) (n : nat) (_ : request)
  : reply * nat :=
  (page records, S n).

(** a row with a key that the header does not have *)
Definition odd_row : dict := ("colour", VStr "red") :: sample_row "IM-3" "odd".

(** a row as the flattener leaves it: a null summary, a number, no status *)
Definition loose_row : dict :=
  [ ("key", VStr "IM-9"); ("summary", VNone); ("Error Rate", VInt 5) ].

(** a record with an assignee whose address is null *)
Definition null_email_task : value :=
  VDict [("key", VStr "IM-8");
         ("fields",
           VDict [("customfield_20145",
                    VList [VDict [("emailAddress", VStr "a@x.com")];
                           VDict [("emailAddress", VNone)]])])].

(** a record with a null reporter *)
Definition null_reporter_task : value :=
  VDict [("key", VStr "IM-8"); ("fields", VDict [("reporter", VNone)])].

(** [sample_task] with keys and entries that the flattener does not read *)
Definition padded_task : value :=
  VDict [("id", VStr "10042");
         ("key", VStr "IM-7");
         ("fields",
           VDict [("created", VStr "2024-01-01");
                  ("summary", VStr "Disk full");
                  ("customfield_20145",
                    VList [VDict [("emailAddress", VStr "a@x.com")];
                           VDict [("emailAddress", VStr "b@x.com")]]);
                  ("customfield_20161", VList [VStr "Ops (IM-12)"; VStr "Net"]);
                  ("labels", VList [VStr "infra"]);
                  ("customfield_20906", VNone);
                  ("customfield_20904", VInt 5);
                  ("customfield_20157", VDict [("displayName", VStr "Ann")])])].

(** a record with a null summary and nothing else *)
Definition null_summary_task : value :=
  VDict [("key", VStr "IM-9"); ("fields", VDict [("summary", VNone)])].


(** a full page, then a body that is a JSON list *)
Definition script_list_body : list reply :=
  [ page (issues_from 0 50); Response 200 (Some (VList [])) ].

(* ================================================================= *)
(** ** Properties *)

Lemma bind_Returned {A B} (m : result A) (k : A -> result B) (b : B) :
  bind m k = Returned b -> exists a, m = Returned a /\ k a = Returned b.
Proof. destruct m as [a|e]; simpl; intros H; [eauto | discriminate]. Qed.

Ltac inv_binds :=
  repeat match goal with
         | H : bind _ _ = Returned _ |- _ =>
             let v := fresh "v" in
             let Hv := fresh "Hv" in
             apply bind_Returned in H; destruct H as (v & Hv & H)
         | H : ret _ = Returned _ |- _ => unfold ret in H
         | H : Returned _ = Returned _ |- _ => injection H as H; try subst
         end.

Ltac bind_inv H :=
  let a := fresh "a" in
  let Ha := fresh "Ha" in
  apply bind_Returned in H; destruct H as (a & Ha & H).

(** *** Text *)

Lemma append_assoc (a b c : string) :
  ((a ++ b) ++ c)%string = (a ++ b ++ c)%string.
Proof. induction a as [|x a IH]; simpl; [reflexivity | now rewrite IH]. Qed.

Lemma append_nil_r (a : string) : (a ++ "")%string = a.
Proof. induction a as [|x a IH]; simpl; [reflexivity | now rewrite IH]. Qed.

Lemma length_append (a b : string) :
  String.length (a ++ b) = String.length a + String.length b.
Proof. induction a as [|x a IH]; simpl; [reflexivity | now rewrite IH]. Qed.

(** *** The pattern *)

Lemma match_here_Chr c pat s n :
  Re.match_here (Re.Chr c :: pat) s = Some n <->
  exists s' m, s = String c s' /\ Re.match_here pat s' = Some m /\ n = S m.
Proof.
  simpl. destruct s as [|a s'].
  - split; [discriminate | intros (s1 & m & H & _); discriminate].
  - destruct (Ascii.eqb_spec a c) as [->|Hne].
    + destruct (Re.match_here pat s') as [m|] eqn:E; simpl.
      * split.
        -- intros [= <-]. exists s', m. auto.
        -- intros (s1 & m1 & [= <-] & Hm & ->). congruence.
      * split; [discriminate|]. intros (s1 & m1 & [= <-] & Hm & _). congruence.
    + split; [discriminate|]. intros (s1 & m1 & [= -> _] & _). congruence.
Qed.

Lemma match_here_Cls p pat s n :
  Re.match_here (Re.Cls p :: pat) s = Some n <->
  exists a s' m, s = String a s' /\ p a = true /\
                 Re.match_here pat s' = Some m /\ n = S m.
Proof.
  simpl. destruct s as [|a s'].
  - split; [discriminate | intros (a1 & s1 & m & H & _); discriminate].
  - destruct (p a) eqn:Hp.
    + destruct (Re.match_here pat s') as [m|] eqn:E; simpl.
      * split.
        -- intros [= <-]. exists a, s', m. auto.
        -- intros (a1 & s1 & m1 & [= <- <-] & _ & Hm & ->). congruence.
      * split; [discriminate|].
        intros (a1 & s1 & m1 & [= <- <-] & _ & Hm & _). congruence.
    + split; [discriminate|].
      intros (a1 & s1 & m1 & [= <- <-] & Hp' & _). congruence.
Qed.

Lemma plus_unfold p pat a s :
  Re.match_here (Re.Plus p :: pat) (String a s) =
  if p a then
    match Re.match_here (Re.Plus p :: pat) s with
    | Some k => Some (S k)
    | None => option_map S (Re.match_here pat s)
    end
  else None.
Proof. reflexivity. Qed.

Lemma digits_then_paren_complete ds rest :
  ds <> EmptyString -> all_chars Re.is_digit ds = true ->
  Re.match_here [Re.Plus Re.is_digit; Re.Chr ")"%char] (ds ++ String ")" rest)
  = Some (S (String.length ds)).
Proof.
  induction ds as [|a ds IH]; intros Hne Hall; [congruence|].
  simpl in Hall. apply andb_true_iff in Hall as [Ha Hall].
  change (String a ds ++ String ")" rest)%string
    with (String a (ds ++ String ")" rest)).
  rewrite plus_unfold, Ha.
  destruct ds as [|b ds].
  - reflexivity.
  - rewrite IH by (auto; discriminate). reflexivity.
Qed.

Lemma digits_then_paren_sound s n :
  Re.match_here [Re.Plus Re.is_digit; Re.Chr ")"%char] s = Some n ->
  exists ds rest, s = (ds ++ String ")" rest)%string /\ ds <> EmptyString /\
                  all_chars Re.is_digit ds = true /\ n = S (String.length ds).
Proof.
  revert n. induction s as [|a s' IH]; intros n H; [discriminate|].
  rewrite plus_unfold in H.
  destruct (Re.is_digit a) eqn:Hd; [|discriminate].
  destruct (Re.match_here [Re.Plus Re.is_digit; Re.Chr ")"%char] s') as [k|] eqn:E.
  - injection H as <-.
    destruct (IH k eq_refl) as (ds & rest & -> & Hne & Hall & ->).
    exists (String a ds), rest. simpl. rewrite Hd, Hall.
    repeat split; auto. discriminate.
  - destruct (Re.match_here [Re.Chr ")"%char] s') as [m|] eqn:E2; [|discriminate].
    apply match_here_Chr in E2 as (rest & m' & -> & Hm & ->).
    simpl in Hm. injection Hm as <-. simpl in H. injection H as <-.
    exists (String a EmptyString), rest. simpl. rewrite Hd.
    repeat split; auto. discriminate.
Qed.

(** The pattern matches at the head of a text exactly when the text opens
    with an annotation, and then over the whole annotation. *)
Lemma match_here_pattern s n :
  Re.match_here pattern s = Some n <->
  exists a rest, s = (a ++ rest)%string /\ annotation a /\ n = String.length a.
Proof.
  unfold pattern. split.
  - intros H.
    apply match_here_Cls in H as (c & s1 & n1 & -> & Hc & H & ->).
    apply match_here_Chr in H as (s2 & n2 & -> & H & ->).
    apply match_here_Chr in H as (s3 & n3 & -> & H & ->).
    apply match_here_Chr in H as (s4 & n4 & -> & H & ->).
    apply match_here_Chr in H as (s5 & n5 & -> & H & ->).
    apply digits_then_paren_sound in H as (ds & rest & -> & Hne & Hall & ->).
    exists (String c ("(IM-" ++ ds ++ ")")), rest. split; [|split].
    + simpl. rewrite append_assoc. reflexivity.
    + constructor; auto.
    + simpl. rewrite length_append. simpl. lia.
  - intros (a & rest & -> & Ha & ->). destruct Ha as [c ds Hc Hne Hall].
    apply match_here_Cls. do 3 eexists. split; [reflexivity|]. split; [exact Hc|].
    split; [|reflexivity].
    apply match_here_Chr. do 2 eexists. split; [reflexivity|]. split; [|reflexivity].
    apply match_here_Chr. do 2 eexists. split; [reflexivity|]. split; [|reflexivity].
    apply match_here_Chr. do 2 eexists. split; [reflexivity|]. split; [|reflexivity].
    apply match_here_Chr. do 2 eexists. split; [reflexivity|]. split.
    + rewrite append_assoc. simpl.
      apply digits_then_paren_complete; auto.
    + rewrite length_append. simpl. lia.
Qed.

Lemma annotation_nonempty a : annotation a -> exists c a', a = String c a'.
Proof. intros [c ds _ _ _]. eauto. Qed.

Lemma sub_from_skip pat a rest :
  Re.sub_from pat (String.length a) (a ++ rest) = Re.sub_from pat 0 rest.
Proof. induction a as [|c a IH]; simpl; auto. Qed.

Lemma sub_stripped_bounded n :
  forall s, String.length s <= n -> stripped s (Re.sub pattern s).
Proof.
  induction n as [|n IH]; intros s Hlen.
  - destruct s; [apply stripped_nil | simpl in Hlen; lia].
  - destruct s as [|c s']; [apply stripped_nil|].
    unfold Re.sub. cbn [Re.sub_from].
    destruct (Re.match_here pattern (String c s')) as [[|k]|] eqn:E.
    + apply match_here_pattern in E as (a & rest & _ & Ha & Hl).
      apply annotation_nonempty in Ha as (c' & a' & ->). discriminate.
    + apply match_here_pattern in E as (a & rest & Heq & Ha & Hl).
      destruct (annotation_nonempty Ha) as (c' & a' & ->).
      simpl in Heq. injection Heq as <- ->. simpl in Hl. injection Hl as ->.
      rewrite sub_from_skip.
      apply (stripped_drop (a := String c a') (rest := rest)); [exact Ha|].
      apply IH. simpl in Hlen. rewrite length_append in Hlen. lia.
    + apply stripped_keep.
      * intros a rest Ha Heq.
        assert (H : Re.match_here pattern (String c s') = Some (String.length a)).
        { apply match_here_pattern. eauto. }
        congruence.
      * apply IH. simpl in Hlen. lia.
Qed.

(** [re.sub(pattern, '', s)] drops every annotation of [s]. *)
Lemma sub_stripped s : stripped s (Re.sub pattern s).
Proof. apply (sub_stripped_bounded (n := String.length s)). lia. Qed.

Lemma join_strs_text sep (l : list string) :
  Py.join_strs sep (map VStr l) = Returned (String.concat sep l).
Proof.
  induction l as [|x l IH]; [reflexivity|].
  destruct l as [|y l]; [reflexivity|].
  change (Py.join_strs sep (map VStr (x :: y :: l)))
    with (r <- Py.join_strs sep (map VStr (y :: l)) ;; ret (x ++ sep ++ r)%string).
  rewrite IH. reflexivity.
Qed.

Lemma mapM_Returned {A B} (f : A -> result B) (l : list A) (bs : list B) :
  mapM f l = Returned bs <-> Forall2 (fun a b => f a = Returned b) l bs.
Proof.
  revert bs. induction l as [|a l IH]; intros bs; simpl.
  - split.
    + intros [= <-]. constructor.
    + intros H. inversion H. reflexivity.
  - split.
    + intros H. inv_binds. constructor; [assumption|]. now apply IH.
    + intros H. inversion H as [|a' b l' bs' Hab Hrest]; subst.
      rewrite Hab. cbn [bind]. apply IH in Hrest. rewrite Hrest. reflexivity.
Qed.

Lemma mapM_Raised {A B} (f : A -> result B) (l : list A) (e : exn) :
  mapM f l = Raised e -> exists a, In a l /\ f a = Raised e.
Proof.
  induction l as [|a l IH]; simpl; [discriminate|].
  destruct (f a) as [b|e'] eqn:Ea; cbn [bind].
  - destruct (mapM f l) as [bs|e'']; cbn [bind]; [discriminate|].
    intros [= ->]. destruct (IH eq_refl) as (a' & Hin & Ha'). eauto.
  - intros [= ->]. eauto.
Qed.

Lemma mapM_length {A B} (f : A -> result B) (l : list A) (bs : list B) :
  mapM f l = Returned bs -> List.length bs = List.length l.
Proof.
  intros H. apply mapM_Returned in H. induction H; simpl; congruence.
Qed.

Lemma nodupb_NoDup l : nodupb l = true -> NoDup l.
Proof.
  induction l as [|x l IH]; simpl; intros H; constructor.
  - apply andb_true_iff in H as [H _]. intros Hin.
    apply negb_true_iff in H. unfold mem in H.
    assert (existsb (String.eqb x) l = true); [|congruence].
    apply existsb_exists. exists x. split; [assumption | apply String.eqb_refl].
  - apply IH. now apply andb_true_iff in H as [_ H].
Qed.

Lemma mem_In x l : mem x l = true <-> In x l.
Proof.
  unfold mem. rewrite existsb_exists. split.
  - intros (y & Hin & Heq). apply String.eqb_eq in Heq. now subst.
  - intros Hin. exists x. split; [assumption | apply String.eqb_refl].
Qed.

Section Properties.

Variable py_repr : value -> string.
Variable json_dumps : value -> string.

Local Abbreviation clean := (clean_field py_repr).
Local Abbreviation str := (py_str py_repr).
Local Abbreviation flatten := (format_task py_repr json_dumps).

(** *** The text normaliser *)

Lemma clean_field_list (l : list value) :
  l <> [] ->
  clean (VList l) =
  Returned (VStr (String.concat "," (map (fun x => Re.sub pattern (str x)) l))).
Proof.
  intros Hne. unfold clean_field. destruct l as [|x l]; [congruence|].
  cbn [Py.truthy negb]. unfold Py.join.
  rewrite <- (map_map (fun x => Re.sub pattern (str x)) VStr).
  rewrite join_strs_text. reflexivity.
Qed.

Lemma clean_field_scalar (field : value) :
  Py.truthy field = true -> (forall l, field <> VList l) ->
  clean field = Returned (VStr (Re.sub pattern (str field))).
Proof.
  intros Ht Hl. unfold clean_field. rewrite Ht. simpl.
  destruct field; try reflexivity. now destruct (Hl l).
Qed.

Lemma clean_field_falsy (field : value) :
  Py.truthy field = false -> clean field = Returned (VStr "").
Proof. intros Ht. unfold clean_field. now rewrite Ht. Qed.

Lemma clean_field_returns_text (field : value) :
  exists text, clean field = Returned (VStr text).
Proof.
  destruct (Py.truthy field) eqn:Ht.
  - destruct field;
      try (eexists; apply clean_field_scalar; [exact Ht | discriminate]).
    eexists. apply clean_field_list. intros ->. discriminate.
  - eexists. apply clean_field_falsy. exact Ht.
Qed.

(** C3. The text normaliser returns text on every input and never raises.
    A falsy input ([None], the empty list among them) gives the empty
    text. A scalar gives its text form with every annotation
    " (IM-<digits>)" dropped; a list gives the text forms of its elements,
    each with its annotations dropped, joined with ",". *)
Theorem clean_field_total_and_strips :
  (forall field, exists text, clean field = Returned (VStr text)) /\
  (forall field, Py.truthy field = false -> clean field = Returned (VStr "")) /\
  clean VNone = Returned (VStr "") /\
  clean (VList []) = Returned (VStr "") /\
  (forall field, Py.truthy field = true -> (forall l, field <> VList l) ->
     exists out, clean field = Returned (VStr out) /\ stripped (str field) out) /\
  clean (VStr "Disk full (IM-1234)") = Returned (VStr "Disk full") /\
  (forall l, l <> [] ->
     exists outs, clean (VList l) = Returned (VStr (String.concat "," outs)) /\
                  Forall2 (fun x out => stripped (str x) out) l outs) /\
  clean (VList [VStr "A (IM-1)"; VStr "B"]) = Returned (VStr "A,B").
Proof.
  split; [exact clean_field_returns_text|].
  split; [exact clean_field_falsy|].
  split; [reflexivity|]. split; [reflexivity|].
  split.
  { intros field Ht Hl. eexists. split; [apply clean_field_scalar; auto|].
    apply sub_stripped. }
  split; [reflexivity|].
  split; [|reflexivity].
  intros l Hne. eexists. split; [apply clean_field_list; exact Hne|].
  clear Hne. induction l as [|x l IH]; simpl; constructor; auto.
  apply sub_stripped.
Qed.

(** *** The flattener *)

Lemma format_task_run_columns (task : value) (fields : dict) (k : value) :
  Py.getitem task "fields" = Returned (VDict fields) ->
  Py.getitem task "key" = Returned k ->
  forall row,
    flatten task = Returned row <->
    exists rest, run_columns py_repr json_dumps (VDict fields) = Returned rest /\
                 row = ("key", k) :: rest.
Proof.
  intros Hf Hk row. split.
  - intros H. unfold format_task in H. rewrite Hf, Hk in H. cbn [bind] in H.
    inv_binds.
    unfold run_columns, columns. cbn [mapM].
    repeat match goal with
           | E : ?x = Returned _ |- context [?x] => rewrite E; cbn [bind ret]
           end.
    eexists. split; reflexivity.
  - intros (rest & H & ->). unfold run_columns, columns in H. cbn [mapM] in H.
    inv_binds.
    unfold format_task. rewrite Hf, Hk. cbn [bind].
    repeat match goal with
           | E : ?x = Returned _ |- context [?x] => rewrite E; cbn [bind ret]
           end.
    reflexivity.
Qed.

Lemma column_absent name entry compute (fields : dict) :
  In (name, entry, compute) (columns py_repr json_dumps) ->
  Py.lookup entry fields = None ->
  compute (VDict fields) = Returned (absent_default name).
Proof.
  intros Hin Hl. unfold columns in Hin. simpl in Hin.
  repeat (destruct Hin as [Hin|Hin];
          [injection Hin as <- <- <-;
           cbv [get_attr cleaned get_nested_value vendor_related system_owner
                error_rate problem_links l2_assignee Py.get Py.contains];
           rewrite Hl; reflexivity|]).
  contradiction.
Qed.

Lemma column_null name entry compute (fields : dict) :
  In (name, entry, compute) (columns py_repr json_dumps) ->
  Py.lookup entry fields = Some VNone ->
  mem entry attr_entries = false ->
  compute (VDict fields) = Returned (null_default name).
Proof.
  intros Hin Hl Hattr. unfold columns in Hin. simpl in Hin.
  repeat (destruct Hin as [Hin|Hin];
          [injection Hin as <- <- <-; try discriminate Hattr;
           cbv [get_attr cleaned get_nested_value vendor_related system_owner
                error_rate problem_links l2_assignee Py.get Py.contains Py.getitem];
           rewrite ?Hl; cbn [bind ret Py.truthy negb]; rewrite ?Hl; reflexivity|]).
  contradiction.
Qed.

Lemma flatten_keys (task : value) (row : dict) :
  flatten task = Returned row -> Py.keys row = row_columns.
Proof.
  intros H. unfold format_task in H. inv_binds. reflexivity.
Qed.

Lemma flatten_fields_dict (task : value) (row : dict) :
  flatten task = Returned row ->
  exists fields k, Py.getitem task "fields" = Returned (VDict fields) /\
                   Py.getitem task "key" = Returned k.
Proof.
  intros H. unfold format_task in H.
  destruct (Py.getitem task "fields") as [fields|] eqn:Ef; [|discriminate].
  cbn [bind] in H.
  destruct (l2_assignee fields) as [l2|] eqn:El; [|discriminate].
  destruct fields; try discriminate El.
  cbn [bind] in H. inv_binds. eauto.
Qed.

(** C4. Every row that the flattener produces has the same 28 column
    keys, without repetition, and they are the 28 names of the Writer's
    header, which lists them in another order. *)
Theorem flatten_columns_match_header (task : value) (row : dict)
        (name delim : string) :
  flatten task = Returned row ->
  Py.keys row = row_columns /\
  List.length (Py.keys row) = 28 /\
  NoDup (Py.keys row) /\
  (forall task' row', flatten task' = Returned row' -> Py.keys row' = Py.keys row) /\
  List.length (fieldnames (CSVExporter_init name delim)) = 28 /\
  NoDup (fieldnames (CSVExporter_init name delim)) /\
  (forall c, In c (Py.keys row) <-> In c (fieldnames (CSVExporter_init name delim))) /\
  Permutation (Py.keys row) (fieldnames (CSVExporter_init name delim)).
Proof.
  intros H. pose proof H as Hk. apply flatten_keys in Hk. rewrite Hk.
  assert (Hn1 : NoDup row_columns) by (apply nodupb_NoDup; reflexivity).
  assert (Hn2 : NoDup (fieldnames (CSVExporter_init name delim)))
    by (apply nodupb_NoDup; reflexivity).
  assert (Hin : forall c, In c row_columns <->
                          In c (fieldnames (CSVExporter_init name delim))).
  { intros c. rewrite <- !mem_In. split; intros Hm; apply mem_In in Hm.
    - simpl in Hm. repeat (destruct Hm as [<-|Hm]; [reflexivity|]). contradiction.
    - simpl in Hm. repeat (destruct Hm as [<-|Hm]; [reflexivity|]). contradiction. }
  repeat split; try assumption; try reflexivity; try (apply Hin).
  - intros task' row' H'. now apply flatten_keys in H'.
  - apply NoDup_Permutation; assumption.
Qed.

Lemma vendor_related_spec (fields : dict) (v : value) :
  vendor_related (VDict fields) = Returned v ->
  v = conditional_nested fields "customfield_20906" "value".
Proof.
  unfold vendor_related, conditional_nested. cbn [Py.contains Py.getitem bind].
  destruct (Py.lookup "customfield_20906" fields) as [c|]; cbn [bind].
  - destruct (Py.truthy c) eqn:Ht; cbn [bind].
    + destruct c; cbn [Py.get]; try discriminate.
      destruct (Py.lookup "value" d); intros [= <-]; reflexivity.
    + intros [= <-]; reflexivity.
  - intros [= <-]; reflexivity.
Qed.

Lemma system_owner_spec (fields : dict) (v : value) :
  system_owner (VDict fields) = Returned v ->
  v = conditional_nested fields "customfield_20157" "displayName".
Proof.
  unfold system_owner, conditional_nested. cbn [Py.get Py.getitem bind].
  destruct (Py.lookup "customfield_20157" fields) as [c|]; cbn [bind].
  - destruct (Py.truthy c) eqn:Ht; cbn [bind].
    + destruct c; cbn [Py.contains Py.getitem bind]; try discriminate.
      * destruct (Py.is_substring "displayName" s); [discriminate|].
        intros [= <-]; reflexivity.
      * destruct (existsb (Py.is_str "displayName") l); [discriminate|].
        intros [= <-]; reflexivity.
      * destruct (Py.lookup "displayName" d); intros [= <-]; reflexivity.
    + intros [= <-]; reflexivity.
  - cbn [Py.truthy bind]. intros [= <-]; reflexivity.
Qed.

Lemma vendor_related_returns (fields : dict) :
  object_or_falsy (Py.lookup "customfield_20906" fields) = true ->
  vendor_related (VDict fields) =
  Returned (conditional_nested fields "customfield_20906" "value").
Proof.
  unfold vendor_related, conditional_nested, object_or_falsy.
  cbn [Py.contains Py.getitem bind].
  destruct (Py.lookup "customfield_20906" fields) as [c|]; cbn [bind];
    [|reflexivity].
  destruct (Py.truthy c) eqn:Ht; cbn [bind]; [|reflexivity].
  destruct c as [ |b|n|f|s|l|d]; intros H; try discriminate H.
  cbn [Py.get]. destruct (Py.lookup "value" d); reflexivity.
Qed.

Lemma system_owner_returns (fields : dict) :
  object_or_falsy (Py.lookup "customfield_20157" fields) = true ->
  system_owner (VDict fields) =
  Returned (conditional_nested fields "customfield_20157" "displayName").
Proof.
  unfold system_owner, conditional_nested, object_or_falsy.
  cbn [Py.get Py.getitem bind].
  destruct (Py.lookup "customfield_20157" fields) as [c|]; cbn [bind];
    [|reflexivity].
  destruct (Py.truthy c) eqn:Ht; cbn [bind]; [|reflexivity].
  destruct c as [ |b|n|f|s|l|d]; intros H; try discriminate H.
  cbn [Py.contains Py.getitem bind].
  destruct (Py.lookup "displayName" d); reflexivity.
Qed.

Lemma vendor_related_rejects (fields : dict) :
  object_or_falsy (Py.lookup "customfield_20906" fields) = false ->
  vendor_related (VDict fields) = Raised AttributeError.
Proof.
  unfold vendor_related, object_or_falsy.
  cbn [Py.contains Py.getitem bind].
  destruct (Py.lookup "customfield_20906" fields) as [c|]; cbn [bind];
    [|discriminate].
  destruct c; intros H; try discriminate H;
    apply negb_false_iff in H; rewrite H; reflexivity.
Qed.

Lemma flatten_runs_conditionals (task : value) (row : dict) :
  flatten task = Returned row ->
  exists fields v o,
    Py.getitem task "fields" = Returned (VDict fields) /\
    vendor_related (VDict fields) = Returned v /\
    system_owner (VDict fields) = Returned o /\
    Py.lookup "Vendor Related Incidents" row = Some v /\
    Py.lookup "System Owner" row = Some o.
Proof.
  intros H. destruct (@flatten_fields_dict task row H) as (fields & k & Hf & Hk).
  destruct (proj1 (@format_task_run_columns task fields k Hf Hk row) H)
    as (rest & Hr & ->).
  clear H; rename Hr into H.
  unfold run_columns, columns in H. cbn [mapM] in H. inv_binds.
  match goal with
  | Ev : vendor_related _ = Returned ?v, Eo : system_owner _ = Returned ?o |- _ =>
      exists fields, v, o; repeat split; assumption || reflexivity
  end.
Qed.

Lemma mapM_all_return {A B} (f : A -> result B) (l : list A) :
  (forall a, In a l -> exists b, f a = Returned b) ->
  exists bs, mapM f l = Returned bs.
Proof.
  induction l as [|a l IH]; intros H; simpl.
  - eauto.
  - destruct (H a (or_introl eq_refl)) as [b Hb]. rewrite Hb. cbn [bind].
    destruct IH as [bs Hbs]; [intros a' Ha'; apply H; now right|].
    rewrite Hbs. cbn [bind ret]. eauto.
Qed.

(** C6. The computations of "Vendor Related Incidents" and "System Owner"
    are the conditional nested extraction of [customfield_20906] / "value"
    and of [customfield_20157] / "displayName": on an entry that is absent,
    falsy or an object they return what the extraction says, so a truthy
    object gives its "value" (its "displayName"), and an absent or null
    entry the empty text; on a truthy [customfield_20906] that is not an
    object the flattener raises. In every row that the flattener produces
    the two columns hold the extraction, and the flattener does produce
    that row when the two entries are absent, falsy or objects and no other
    column raises. *)
Theorem conditional_nested_columns :
  (forall fields : dict,
      (object_or_falsy (Py.lookup "customfield_20906" fields) = true ->
       vendor_related (VDict fields) =
       Returned (conditional_nested fields "customfield_20906" "value")) /\
      (object_or_falsy (Py.lookup "customfield_20157" fields) = true ->
       system_owner (VDict fields) =
       Returned (conditional_nested fields "customfield_20157" "displayName")) /\
      (forall d x,
          Py.lookup "customfield_20906" fields = Some (VDict d) ->
          Py.lookup "value" d = Some x ->
          vendor_related (VDict fields) = Returned x) /\
      (forall d x,
          Py.lookup "customfield_20157" fields = Some (VDict d) ->
          Py.lookup "displayName" d = Some x ->
          system_owner (VDict fields) = Returned x) /\
      (Py.lookup "customfield_20906" fields = None \/
       Py.lookup "customfield_20906" fields = Some VNone ->
       vendor_related (VDict fields) = Returned (VStr "")) /\
      (object_or_falsy (Py.lookup "customfield_20906" fields) = false ->
       vendor_related (VDict fields) = Raised AttributeError /\
       forall task, Py.getitem task "fields" = Returned (VDict fields) ->
                    exists e, flatten task = Raised e)) /\
  (forall task row,
      flatten task = Returned row ->
      exists fields,
        Py.getitem task "fields" = Returned (VDict fields) /\
        Py.lookup "System Owner" row =
          Some (conditional_nested fields "customfield_20157" "displayName") /\
        Py.lookup "Vendor Related Incidents" row =
          Some (conditional_nested fields "customfield_20906" "value") /\
        (Py.lookup "customfield_20906" fields = None \/
         Py.lookup "customfield_20906" fields = Some VNone ->
         Py.lookup "Vendor Related Incidents" row = Some (VStr ""))) /\
  (forall task fields k,
      Py.getitem task "fields" = Returned (VDict fields) ->
      Py.getitem task "key" = Returned k ->
      object_or_falsy (Py.lookup "customfield_20906" fields) = true ->
      object_or_falsy (Py.lookup "customfield_20157" fields) = true ->
      (forall name entry compute,
          In (name, entry, compute) (columns py_repr json_dumps) ->
          name <> "Vendor Related Incidents" -> name <> "System Owner" ->
          exists v, compute (VDict fields) = Returned v) ->
      exists row,
        flatten task = Returned row /\
        Py.lookup "Vendor Related Incidents" row =
          Some (conditional_nested fields "customfield_20906" "value") /\
        Py.lookup "System Owner" row =
          Some (conditional_nested fields "customfield_20157" "displayName")).
Proof.
  assert (Hnull : forall fields : dict,
             Py.lookup "customfield_20906" fields = None \/
             Py.lookup "customfield_20906" fields = Some VNone ->
             object_or_falsy (Py.lookup "customfield_20906" fields) = true /\
             conditional_nested fields "customfield_20906" "value" = VStr "").
  { intros fields [Hl|Hl]; unfold object_or_falsy, conditional_nested;
      rewrite Hl; split; reflexivity. }
  assert (Hrow : forall task row,
             flatten task = Returned row ->
             exists fields,
               Py.getitem task "fields" = Returned (VDict fields) /\
               Py.lookup "System Owner" row =
                 Some (conditional_nested fields "customfield_20157" "displayName") /\
               Py.lookup "Vendor Related Incidents" row =
                 Some (conditional_nested fields "customfield_20906" "value")).
  { intros task row H.
    destruct (@flatten_runs_conditionals task row H)
      as (fields & v & o & Hf & Hv & Ho & Hlv & Hlo).
    apply vendor_related_spec in Hv. apply system_owner_spec in Ho. subst v o.
    exists fields. auto. }
  split; [|split].
  - intros fields.
    split; [apply vendor_related_returns|].
    split; [apply system_owner_returns|].
    split; [|split; [|split]].
    + intros d x Hl Hx.
      rewrite vendor_related_returns
        by (unfold object_or_falsy; rewrite Hl; reflexivity).
      unfold conditional_nested. rewrite Hl.
      destruct d as [|kv d]; [discriminate Hx|]. cbn [Py.truthy].
      now rewrite Hx.
    + intros d x Hl Hx.
      rewrite system_owner_returns
        by (unfold object_or_falsy; rewrite Hl; reflexivity).
      unfold conditional_nested. rewrite Hl.
      destruct d as [|kv d]; [discriminate Hx|]. cbn [Py.truthy].
      now rewrite Hx.
    + intros Hl. destruct (Hnull fields Hl) as [Hobj Hcn].
      now rewrite vendor_related_returns, Hcn.
    + intros Hobj. pose proof (vendor_related_rejects fields Hobj) as Hraise.
      split; [exact Hraise|].
      intros task Hf. destruct (flatten task) as [row|e] eqn:E; [exfalso | eauto].
      destruct (@flatten_runs_conditionals task row E)
        as (fields' & v & o & Hf' & Hv & _).
      rewrite Hf in Hf'. injection Hf' as <-. congruence.
  - intros task row H. destruct (Hrow task row H) as (fields & Hf & Ho & Hv).
    exists fields. split; [exact Hf|]. split; [exact Ho|]. split; [exact Hv|].
    intros Hl. destruct (Hnull fields Hl) as [_ Hcn]. now rewrite <- Hcn.
  - intros task fields k Hf Hk Hv Ho Hother.
    destruct (@mapM_all_return _ _
                (fun c : string * string * (value -> result value) =>
                   let '(name, _, compute) := c in
                   v <- compute (VDict fields) ;; ret (name, v))
                (columns py_repr json_dumps)) as [rest Hrest].
    { intros [[name entry] compute] Hin.
      assert (Hc : exists v, compute (VDict fields) = Returned v).
      { pose proof Hin as Hin'. unfold columns in Hin'. simpl in Hin'.
        repeat (destruct Hin' as [Hin'|Hin'];
                [injection Hin' as <- <- <-;
                 first [ eexists; exact (vendor_related_returns fields Hv)
                       | eexists; exact (system_owner_returns fields Ho)
                       | apply (Hother _ _ _ Hin); discriminate ] |]).
        contradiction. }
      destruct Hc as [v Hc]. rewrite Hc. cbn [bind ret]. eauto. }
    assert (H : flatten task = Returned (("key", k) :: rest)).
    { apply (@format_task_run_columns task fields k Hf Hk). eauto. }
    exists (("key", k) :: rest). split; [exact H|].
    destruct (Hrow _ _ H) as (fields' & Hf' & Ho' & Hv').
    rewrite Hf in Hf'. injection Hf' as <-. auto.
Qed.

Lemma run_table_lookup (cols : list (string * string * (value -> result value)))
      (fields : value) (rest : dict) name entry compute :
  mapM (fun c : string * string * (value -> result value) =>
          let '(name, _, compute) := c in
          v <- compute fields ;; ret (name, v)) cols = Returned rest ->
  NoDup (map column_name cols) ->
  In (name, entry, compute) cols ->
  exists v, compute fields = Returned v /\ Py.lookup name rest = Some v.
Proof.
  revert rest. induction cols as [|[[n0 s0] comp0] cols IH]; intros rest H Hnd Hin.
  - contradiction.
  - cbn [mapM] in H. inv_binds. inversion Hnd as [|x l Hnotin Hnd']; subst.
    destruct Hin as [[= -> -> ->]|Hin].
    + eexists. split; [eassumption|]. simpl. now rewrite String.eqb_refl.
    + destruct (IH _ Hv0 Hnd' Hin) as (v' & Hc & Hl).
      exists v'. split; [assumption|]. simpl.
      destruct (String.eqb_spec name n0) as [->|Hne]; [|assumption].
      exfalso. apply Hnotin.
      change (column_name (n0, s0, comp0))
        with (column_name (n0, entry, compute)).
      now apply in_map.
Qed.

Lemma columns_NoDup : NoDup (map column_name (columns py_repr json_dumps)).
Proof. apply nodupb_NoDup. reflexivity. Qed.

Lemma columns_not_key name entry compute :
  In (name, entry, compute) (columns py_repr json_dumps) -> name <> "key".
Proof.
  intros Hin ->. unfold columns in Hin. simpl in Hin.
  repeat (destruct Hin as [Hin|Hin]; [discriminate Hin|]). contradiction.
Qed.

Lemma flatten_column_value (task : value) (fields : dict) (k : value)
      (row : dict) name entry compute :
  Py.getitem task "fields" = Returned (VDict fields) ->
  Py.getitem task "key" = Returned k ->
  flatten task = Returned row ->
  In (name, entry, compute) (columns py_repr json_dumps) ->
  exists v, compute (VDict fields) = Returned v /\ Py.lookup name row = Some v.
Proof.
  intros Hf Hk H Hin.
  destruct (proj1 (@format_task_run_columns task fields k Hf Hk row) H)
    as (rest & Hr & ->).
  destruct (@run_table_lookup (columns py_repr json_dumps) (VDict fields) rest
                              name entry compute Hr columns_NoDup Hin)
    as (v & Hc & Hl).
  exists v. split; [assumption|].
  cbn [Py.lookup]. apply columns_not_key in Hin.
  destruct (String.eqb_spec name "key"); [contradiction | assumption].
Qed.

Lemma flatten_raises_in_a_column (task : value) (fields : dict) (k : value)
      (e : exn) :
  Py.getitem task "fields" = Returned (VDict fields) ->
  Py.getitem task "key" = Returned k ->
  flatten task = Raised e ->
  exists name entry compute e',
    In (name, entry, compute) (columns py_repr json_dumps) /\
    compute (VDict fields) = Raised e'.
Proof.
  intros Hf Hk H.
  destruct (run_columns py_repr json_dumps (VDict fields)) as [rest|e'] eqn:R.
  - assert (flatten task = Returned (("key", k) :: rest)); [|congruence].
    apply (@format_task_run_columns task fields k Hf Hk). eauto.
  - apply mapM_Raised in R as ([[name entry] compute] & Hin & Hc).
    exists name, entry, compute.
    destruct (compute (VDict fields)) as [v|e''] eqn:Ec; [discriminate|].
    eauto.
Qed.

(** C7 (as amended). The flattener raises on every record without
    "fields", without "key", or whose "fields" is not a mapping. On a
    record that has both, it raises only where the computation of some
    column raises, and that column's entry is then present (and, if null,
    one of reporter, status, priority); in the row, the column of an
    absent entry holds the empty text ("0" for "Error Rate"), and the column
    of a null entry holds null for a direct-scalar column, "0" for
    "Error Rate", and the empty text otherwise. *)
Theorem flatten_shape_and_defaults :
  (forall task,
      missing task "fields" \/ missing task "key" \/
      (exists v, Py.getitem task "fields" = Returned v /\ forall d, v <> VDict d) ->
      exists e, flatten task = Raised e) /\
  (forall task fields k,
      Py.getitem task "fields" = Returned (VDict fields) ->
      Py.getitem task "key" = Returned k ->
      (forall e, flatten task = Raised e ->
         exists name entry compute e',
           In (name, entry, compute) (columns py_repr json_dumps) /\
           compute (VDict fields) = Raised e' /\
           Py.lookup entry fields <> None /\
           (Py.lookup entry fields = Some VNone -> In entry attr_entries)) /\
      (forall row, flatten task = Returned row ->
         Py.lookup "key" row = Some k /\
         forall name entry compute,
           In (name, entry, compute) (columns py_repr json_dumps) ->
           (Py.lookup entry fields = None ->
            Py.lookup name row = Some (absent_default name)) /\
           (Py.lookup entry fields = Some VNone ->
            Py.lookup name row = Some (null_default name)))).
Proof.
  split.
  - intros task Hmiss.
    destruct (flatten task) as [row|e] eqn:E; [exfalso | eauto].
    destruct (@flatten_fields_dict task row E) as (fields & k & Hf & Hk).
    destruct Hmiss as [Hm|[Hm|(v & Hv & Hnd)]].
    + exact (Hm _ Hf).
    + exact (Hm _ Hk).
    + rewrite Hf in Hv. injection Hv as <-. exact (Hnd _ eq_refl).
  - intros task fields k Hf Hk. split.
    + intros e H.
      destruct (@flatten_raises_in_a_column task fields k e Hf Hk H)
        as (name & entry & compute & e' & Hin & Hc).
      exists name, entry, compute, e'. repeat split; try assumption.
      * intros Hl. rewrite (@column_absent name entry compute fields Hin Hl) in Hc. discriminate.
      * intros Hl. apply mem_In.
        destruct (mem entry attr_entries) eqn:Hm; [reflexivity|].
        rewrite (@column_null name entry compute fields Hin Hl Hm) in Hc. discriminate.
    + intros row H. split.
      * destruct (proj1 (@format_task_run_columns task fields k Hf Hk row) H)
          as (rest & _ & ->). reflexivity.
      * intros name entry compute Hin.
        destruct (@flatten_column_value task fields k row name entry compute
                    Hf Hk H Hin) as (v & Hc & Hl).
        split; intros Hent.
        -- rewrite (@column_absent name entry compute fields Hin Hent) in Hc. congruence.
        -- destruct (mem entry attr_entries) eqn:Hm.
           ++ exfalso. unfold columns in Hin. simpl in Hin.
              repeat (destruct Hin as [Hin|Hin];
                      [injection Hin as <- <- <-; try discriminate Hm;
                       cbv [get_attr Py.get] in Hc; rewrite Hent in Hc;
                       discriminate Hc|]).
              contradiction.
           ++ rewrite (@column_null name entry compute fields Hin Hent Hm) in Hc. congruence.
Qed.

(** *** The fetch loop *)

Section Fetch.

Variable St : Type.
Variable serve : St -> request -> reply * St.
Variable self : JiraClient.
Variable jql_query : string.
Variable ps : Z.

Local Abbreviation rq_at := (request_at self jql_query ps).
Local Abbreviation loop := (fun fuel => while_true serve fuel self jql_query ps).
Local Abbreviation records := records_of.

Lemma chars_length (s : string) : List.length (Py.chars s) = String.length s.
Proof. induction s; simpl; congruence. Qed.

Lemma len_iter (v : value) (items : list value) :
  Py.iter v = Returned items ->
  Py.len v = Returned (Z.of_nat (List.length items)).
Proof.
  destruct v; simpl; try discriminate; intros [= <-].
  - now rewrite chars_length.
  - reflexivity.
  - unfold Py.keys. now rewrite !length_map.
Qed.

Lemma try_block_records (l : locals) (rep : reply) :
  try_block ps l rep =
  match records rep with
  | Raised e => Raised e
  | Returned items =>
      if (Z.of_nat (List.length items) <? ps)%Z
      then Returned (Break, {| start_at := start_at l;
                               all_tasks := all_tasks l ++ items |})
      else Returned (Continue, {| start_at := (start_at l + ps)%Z;
                                  all_tasks := all_tasks l ++ items |})
  end.
Proof.
  unfold try_block, records_of. destruct rep as [|status body]; [reflexivity|].
  destruct (raise_for_status status); cbn [bind]; [|reflexivity].
  destruct (response_json body) as [js|]; cbn [bind]; [|reflexivity].
  destruct (Py.get js "issues" (VList [])) as [issues|]; cbn [bind]; [|reflexivity].
  destruct (Py.iter issues) as [items|] eqn:Ei; cbn [bind]; [|reflexivity].
  rewrite (@len_iter issues items Ei). cbn [bind]. reflexivity.
Qed.

Lemma requests_get_after (w : world St) (off : Z) rep s1 :
  serve (server w) (rq_at off) = (rep, s1) ->
  requests_get serve (rq_at off) w = (rep, after s1 [(rq_at off, rep)] w).
Proof. intros H. unfold requests_get. now rewrite H. Qed.

Lemma page_request_at (l : locals) :
  page_request self jql_query ps l = rq_at (start_at l).
Proof. reflexivity. Qed.

Lemma after_after (w : world St) s1 s2 x xs :
  after s2 xs (after s1 [x] w) = after s2 (x :: xs) w.
Proof. unfold after. simpl. now rewrite <- app_assoc. Qed.

Lemma loop_full (fuel : nat) (l : locals) (w : world St) rep s1 p :
  serve (server w) (rq_at (start_at l)) = (rep, s1) ->
  records rep = Returned p ->
  (ps <= Z.of_nat (List.length p))%Z ->
  loop (S fuel) l w =
  loop fuel {| start_at := (start_at l + ps)%Z; all_tasks := all_tasks l ++ p |}
       (after s1 [(rq_at (start_at l), rep)] w).
Proof.
  intros Hs Hr Hlen. cbn [while_true]. unfold loop_body.
  rewrite page_request_at, (@requests_get_after w (start_at l) rep s1 Hs),
    try_block_records, Hr.
  destruct (Z.ltb_spec (Z.of_nat (List.length p)) ps); [lia | reflexivity].
Qed.

Lemma loop_short (fuel : nat) (l : locals) (w : world St) rep s1 p :
  serve (server w) (rq_at (start_at l)) = (rep, s1) ->
  records rep = Returned p ->
  (Z.of_nat (List.length p) < ps)%Z ->
  loop (S fuel) l w =
  Some (Returned (all_tasks l ++ p), after s1 [(rq_at (start_at l), rep)] w).
Proof.
  intros Hs Hr Hlen. cbn [while_true]. unfold loop_body.
  rewrite page_request_at, (@requests_get_after w (start_at l) rep s1 Hs),
    try_block_records, Hr.
  destruct (Z.ltb_spec (Z.of_nat (List.length p)) ps); [reflexivity | lia].
Qed.

Lemma loop_failure (fuel : nat) (l : locals) (w : world St) rep s1 err :
  serve (server w) (rq_at (start_at l)) = (rep, s1) ->
  request_failure rep = Some err ->
  loop (S fuel) l w =
  Some (Returned (all_tasks l),
        print (FetchError err) (after s1 [(rq_at (start_at l), rep)] w)).
Proof.
  intros Hs Hf. cbn [while_true]. unfold loop_body.
  rewrite page_request_at, (@requests_get_after w (start_at l) rep s1 Hs),
    try_block_records.
  unfold request_failure in Hf.
  destruct (records rep) as [p|[]]; try discriminate Hf.
  injection Hf as ->. reflexivity.
Qed.

Lemma loop_raise (fuel : nat) (l : locals) (w : world St) rep s1 e :
  serve (server w) (rq_at (start_at l)) = (rep, s1) ->
  records rep = Raised e ->
  request_failure rep = None ->
  loop (S fuel) l w = Some (Raised e, after s1 [(rq_at (start_at l), rep)] w).
Proof.
  intros Hs Hr Hf. cbn [while_true]. unfold loop_body.
  rewrite page_request_at, (@requests_get_after w (start_at l) rep s1 Hs),
    try_block_records.
  unfold request_failure in Hf. rewrite Hr in *.
  destruct e; try discriminate Hf; reflexivity.
Qed.

(** Over pages that are not short the loop goes on, one request a page. *)
Lemma loop_full_pages (fuel : nat) pages xs s s' off :
  full_pages serve self jql_query ps s off pages xs s' ->
  forall (l : locals) (w : world St),
    server w = s -> start_at l = off ->
    loop (List.length pages + fuel) l w =
    loop fuel {| start_at := (off + ps * Z.of_nat (List.length pages))%Z;
                 all_tasks := all_tasks l ++ List.concat pages |}
         (after s' xs w).
Proof.
  induction 1 as [s off|s off rep s1 p pages xs s' Hs Hr Hlen Hrest IH];
    intros l w Hw Hl.
  - simpl. rewrite Z.mul_0_r, Z.add_0_r, app_nil_r.
    unfold after. rewrite app_nil_r. subst. now destruct l, w.
  - subst s off. cbn [List.length Nat.add].
    rewrite (@loop_full _ l w rep s1 p Hs Hr Hlen).
    rewrite IH by reflexivity. cbn [start_at all_tasks List.concat].
    rewrite after_after. f_equal. f_equal.
    + rewrite Nat2Z.inj_succ. lia.
    + now rewrite <- app_assoc.
Qed.

Lemma loop_chain (fuel : nat) :
  forall (l : locals) (w : world St) r w',
    loop fuel l w = Some (r, w') ->
    exists xs,
      exchanges w' = exchanges w ++ xs /\
      chain self jql_query ps (start_at l) xs /\
      (forall tasks, r = Returned tasks -> console w' = console w ->
         exists xs0 rq rep p,
           xs = xs0 ++ [(rq, rep)] /\ records rep = Returned p /\
           (Z.of_nat (List.length p) < ps)%Z).
Proof.
  induction fuel as [|fuel IH]; intros l w r w' H; [discriminate|].
  destruct (serve (server w) (rq_at (start_at l))) as [rep s1] eqn:Es.
  destruct (records rep) as [p|e] eqn:Er.
  - destruct (Z.ltb_spec (Z.of_nat (List.length p)) ps) as [Hlt|Hge].
    + rewrite (@loop_short fuel l w rep s1 p Es Er Hlt) in H.
      injection H as <- <-. exists [(rq_at (start_at l), rep)].
      split; [reflexivity|]. split.
      * apply chain_last. intros p' Hp'. congruence.
      * intros tasks _ _. exists [], (rq_at (start_at l)), rep, p. auto.
    + rewrite (@loop_full fuel l w rep s1 p Es Er Hge) in H.
      apply IH in H as (xs & Hx & Hc & Hlast).
      exists ((rq_at (start_at l), rep) :: xs). split; [|split].
      * rewrite Hx. simpl. now rewrite <- app_assoc.
      * eapply chain_more; eauto.
      * intros tasks Hr Hcon.
        destruct (Hlast tasks Hr Hcon) as (xs0 & rq & rep' & p' & -> & Hp' & Hlen).
        exists ((rq_at (start_at l), rep) :: xs0), rq, rep', p'. auto.
  - destruct (request_failure rep) as [err|] eqn:Ef.
    + rewrite (@loop_failure fuel l w rep s1 err Es Ef) in H.
      injection H as <- <-. exists [(rq_at (start_at l), rep)].
      split; [reflexivity|]. split.
      * apply chain_last. intros p' Hp'. congruence.
      * intros tasks _ Hcon. simpl in Hcon. exfalso.
        apply (f_equal (@List.length message)) in Hcon.
        rewrite length_app in Hcon. simpl in Hcon. lia.
    + rewrite (@loop_raise fuel l w rep s1 e Es Er Ef) in H.
      injection H as <- <-. exists [(rq_at (start_at l), rep)].
      split; [reflexivity|]. split.
      * apply chain_last. intros p' Hp'. congruence.
      * intros tasks Hr. discriminate Hr.
Qed.

Lemma chain_next off xs :
  chain self jql_query ps off xs ->
  forall i rq rep p,
    nth_error xs i = Some (rq, rep) ->
    records rep = Returned p ->
    Z.of_nat (List.length p) = ps ->
    exists rep',
      nth_error xs (S i) = Some (rq_at (startAt (req_params rq) + ps)%Z, rep').
Proof.
  induction 1 as [off rep0 Hshort|off rep0 p0 xs Hr0 Hlen0 Hc IH];
    intros i rq rep p Hi Hr Hlen.
  - destruct i as [|i]; simpl in Hi.
    + injection Hi as <- <-. apply Hshort in Hr. lia.
    + destruct i; discriminate Hi.
  - destruct i as [|i]; simpl in Hi.
    + injection Hi as <- <-. simpl.
      destruct Hc; simpl; eauto.
    + simpl. eapply IH; eauto.
Qed.

Lemma full_pages_chain s off pages xs s1 rep :
  full_pages serve self jql_query ps s off pages xs s1 ->
  (forall q, records rep = Returned q -> (Z.of_nat (List.length q) < ps)%Z) ->
  chain self jql_query ps off
        (xs ++ [(rq_at (off + ps * Z.of_nat (List.length pages))%Z, rep)]).
Proof.
  intros H Hshort.
  induction H as [s off|s off rep0 s0 p pages xs s' Hs Hr Hlen Hrest IH].
  - simpl. rewrite Z.mul_0_r, Z.add_0_r. now apply chain_last.
  - cbn [app List.length]. eapply chain_more; [exact Hr | exact Hlen |].
    replace (off + ps * Z.of_nat (S (List.length pages)))%Z
      with (off + ps + ps * Z.of_nat (List.length pages))%Z by lia.
    exact IH.
Qed.

(** Every run of the loop that ends went over pages that are not short
    and then met one reply that is not such a page: a short page, a failed
    request, or a body the [try] block raises on. That reply decides the
    result and what is printed. *)
Lemma loop_shape (fuel : nat) :
  forall (l : locals) (w : world St) r w',
    loop fuel l w = Some (r, w') ->
    exists pages xs s1 rep s2,
      full_pages serve self jql_query ps (server w) (start_at l) pages xs s1 /\
      serve s1 (rq_at (start_at l + ps * Z.of_nat (List.length pages))%Z) = (rep, s2) /\
      (forall q, records rep = Returned q -> (Z.of_nat (List.length q) < ps)%Z) /\
      w' = match request_failure rep with
           | Some err =>
               print (FetchError err)
                     (after s2 (xs ++ [(rq_at (start_at l + ps * Z.of_nat (List.length pages))%Z,
                                        rep)]) w)
           | None =>
               after s2 (xs ++ [(rq_at (start_at l + ps * Z.of_nat (List.length pages))%Z,
                                 rep)]) w
           end /\
      r = match records rep with
          | Returned q => Returned (all_tasks l ++ List.concat pages ++ q)
          | Raised e =>
              match request_failure rep with
              | Some _ => Returned (all_tasks l ++ List.concat pages)
              | None => Raised e
              end
          end.
Proof.
  induction fuel as [|fuel IH]; intros l w r w' H; [discriminate|].
  destruct (serve (server w) (rq_at (start_at l))) as [rep s1] eqn:Es.
  destruct (records rep) as [p|e] eqn:Er.
  - destruct (Z.ltb_spec (Z.of_nat (List.length p)) ps) as [Hlt|Hge].
    + rewrite (@loop_short fuel l w rep s1 p Es Er Hlt) in H.
      injection H as <- <-. exists [], [], (server w), rep, s1.
      cbn [List.length List.concat app]. rewrite Z.mul_0_r, Z.add_0_r.
      split; [apply full_pages_nil|]. split; [exact Es|].
      split; [intros q Hq; congruence|].
      unfold request_failure. rewrite Er. split; reflexivity.
    + rewrite (@loop_full fuel l w rep s1 p Es Er Hge) in H.
      apply IH in H as (pages & xs & s1' & rep' & s2 & Hp & Hs & Hshort & Hw & Hr).
      cbn [start_at all_tasks server after] in Hp, Hs, Hw, Hr.
      replace (start_at l + ps + ps * Z.of_nat (List.length pages))%Z
        with (start_at l + ps * Z.of_nat (S (List.length pages)))%Z in Hs, Hw by lia.
      exists (p :: pages), ((rq_at (start_at l), rep) :: xs), s1', rep', s2.
      split; [eapply full_pages_cons; eauto|].
      split; [exact Hs|]. split; [exact Hshort|].
      cbn [List.length List.concat app]. split.
      * rewrite Hw, !after_after. reflexivity.
      * rewrite Hr. destruct (records rep'); [|destruct (request_failure rep')];
          rewrite <- ?app_assoc; reflexivity.
  - exists [], [], (server w), rep, s1.
    cbn [List.length List.concat app]. rewrite Z.mul_0_r, Z.add_0_r, app_nil_r.
    split; [apply full_pages_nil|]. split; [exact Es|].
    split; [intros q Hq; congruence|]. rewrite Er.
    destruct (request_failure rep) as [err|] eqn:Ef.
    + rewrite (@loop_failure fuel l w rep s1 err Es Ef) in H.
      injection H as <- <-. split; reflexivity.
    + rewrite (@loop_raise fuel l w rep s1 e Es Er Ef) in H.
      injection H as <- <-. split; reflexivity.
Qed.

(** C5. After pages that are not short (a page of exactly the page size
    is one), the fetch sends the request for the next offset, and when
    that request brings back a short page, an empty one included, the
    fetch returns with it: every page in order, one exchange a page, nothing
    printed. Whatever that request brings back, unless it is one more page
    that is not short, the fetch ends with it as its last exchange.
    Conversely every run that ends has sent at least one request,
    its exchanges are pages that are not short followed by one reply that is
    not such a page, every page of exactly the page size is followed in the
    log by the request for the next offset, and a run that returns without
    a reported error has ended on a page shorter than the page size. *)
Theorem full_page_triggers_next_request (w : world St) :
  (forall (fuel : nat) pages xs s1 rep s2 q,
      full_pages serve self jql_query ps (server w) 0 pages xs s1 ->
      serve s1 (rq_at (ps * Z.of_nat (List.length pages))) = (rep, s2) ->
      records rep = Returned q ->
      (Z.of_nat (List.length q) < ps)%Z ->
      List.length pages < fuel ->
      get_tasks serve fuel self jql_query ps w =
      Some (Returned (List.concat pages ++ q),
            after s2 (xs ++ [(rq_at (ps * Z.of_nat (List.length pages)), rep)]) w)) /\
  (forall (fuel : nat) pages xs s1 rep s2,
      full_pages serve self jql_query ps (server w) 0 pages xs s1 ->
      serve s1 (rq_at (ps * Z.of_nat (List.length pages))) = (rep, s2) ->
      (forall q, records rep = Returned q -> (Z.of_nat (List.length q) < ps)%Z) ->
      List.length pages < fuel ->
      exists r w',
        get_tasks serve fuel self jql_query ps w = Some (r, w') /\
        exchanges w' =
          exchanges w ++ xs ++ [(rq_at (ps * Z.of_nat (List.length pages)), rep)] /\
        server w' = s2) /\
  (forall (fuel : nat) r w',
      get_tasks serve fuel self jql_query ps w = Some (r, w') ->
      exists pages xs s1 rep s2,
        full_pages serve self jql_query ps (server w) 0 pages xs s1 /\
        serve s1 (rq_at (ps * Z.of_nat (List.length pages))) = (rep, s2) /\
        (forall q, records rep = Returned q -> (Z.of_nat (List.length q) < ps)%Z) /\
        exchanges w' =
          exchanges w ++ xs ++ [(rq_at (ps * Z.of_nat (List.length pages)), rep)] /\
        server w' = s2 /\
        (forall i rq rep0 p,
            nth_error (xs ++ [(rq_at (ps * Z.of_nat (List.length pages)), rep)]) i
              = Some (rq, rep0) ->
            records rep0 = Returned p ->
            Z.of_nat (List.length p) = ps ->
            exists rep',
              nth_error (xs ++ [(rq_at (ps * Z.of_nat (List.length pages)), rep)]) (S i)
                = Some (rq_at (startAt (req_params rq) + ps)%Z, rep')) /\
        (forall tasks,
            r = Returned tasks -> console w' = console w ->
            exists q,
              records rep = Returned q /\
              (Z.of_nat (List.length q) < ps)%Z /\
              tasks = List.concat pages ++ q)).
Proof.
  assert (Hrun : forall fuel pages xs s1,
             full_pages serve self jql_query ps (server w) 0 pages xs s1 ->
             List.length pages < fuel ->
             get_tasks serve fuel self jql_query ps w =
             loop (S (fuel - S (List.length pages)))
                  {| start_at := (ps * Z.of_nat (List.length pages))%Z;
                     all_tasks := List.concat pages |}
                  (after s1 xs w)).
  { intros fuel pages xs s1 Hpages Hfuel.
    replace fuel with (List.length pages + S (fuel - S (List.length pages)))
      at 1 by lia.
    unfold get_tasks.
    rewrite (@loop_full_pages (S (fuel - S (List.length pages))) pages xs
               (server w) s1 0%Z Hpages {| start_at := 0; all_tasks := [] |} w
               eq_refl eq_refl).
    cbn [all_tasks app]. now rewrite Z.add_0_l. }
  assert (Hlog : forall s1 s2 xs x,
             exchanges (after s2 [x] (after s1 xs w)) = exchanges w ++ xs ++ [x]).
  { intros s1 s2 xs x. unfold after. simpl. now rewrite <- app_assoc. }
  split; [|split].
  - intros fuel pages xs s1 rep s2 q Hpages Hs Hr Hlen Hfuel.
    rewrite (Hrun fuel pages xs s1 Hpages Hfuel).
    erewrite loop_short; [| exact Hs | exact Hr | exact Hlen].
    cbn [all_tasks start_at]. f_equal. f_equal.
    unfold after. simpl. now rewrite <- app_assoc.
  - intros fuel pages xs s1 rep s2 Hpages Hs Hshort Hfuel.
    rewrite (Hrun fuel pages xs s1 Hpages Hfuel).
    destruct (records rep) as [q|e] eqn:Er.
    + do 2 eexists. split; [|split].
      * apply loop_short with (p := q); [exact Hs | exact Er | now apply Hshort].
      * cbn [start_at]. apply Hlog.
      * reflexivity.
    + destruct (request_failure rep) as [err|] eqn:Ef.
      * do 2 eexists. split; [|split].
        -- apply loop_failure; [exact Hs | exact Ef].
        -- cbn [start_at print exchanges]. apply (Hlog s1 s2).
        -- reflexivity.
      * do 2 eexists. split; [|split].
        -- apply loop_raise; [exact Hs | exact Er | exact Ef].
        -- cbn [start_at]. apply Hlog.
        -- reflexivity.
  - intros fuel r w' H. unfold get_tasks in H.
    apply loop_shape in H as (pages & xs & s1 & rep & s2 & Hp & Hs & Hshort & Hw & Hr).
    cbn [start_at all_tasks app] in Hp, Hs, Hw, Hr. rewrite Z.add_0_l in Hs, Hw.
    exists pages, xs, s1, rep, s2.
    split; [exact Hp|]. split; [exact Hs|]. split; [exact Hshort|].
    split; [subst w'; destruct (request_failure rep); reflexivity|].
    split; [subst w'; destruct (request_failure rep); reflexivity|].
    split.
    + pose proof (@full_pages_chain (server w) 0%Z pages xs s1 rep Hp Hshort) as Hc.
      rewrite Z.add_0_l in Hc. exact (chain_next Hc).
    + intros tasks Hret Hcon. destruct (records rep) as [q|e] eqn:Er.
      * exists q. split; [reflexivity|]. split; [now apply Hshort|]. congruence.
      * exfalso. unfold request_failure in Hw, Hr. rewrite Er in Hw, Hr.
        destruct e; try congruence.
        subst w'. simpl in Hcon.
        apply (f_equal (@List.length message)) in Hcon.
        rewrite length_app in Hcon. simpl in Hcon. lia.
Qed.

Lemma after_app (w : world St) s1 s2 xs x :
  after s2 [x] (after s1 xs w) = after s2 (xs ++ [x]) w.
Proof. unfold after. simpl. now rewrite <- app_assoc. Qed.

(** C2 (as amended). When the pages before it were not short and a
    request fails (the transport raises, the status is 4xx or 5xx, or
    the body is not JSON), the fetch ends with that request: it reports
    the error and returns the records of the earlier pages, in order.
    With one page of the page size before the failure, the failing
    request is the second one. *)
Theorem fetch_stops_at_failed_request (fuel : nat) (w : world St)
        pages xs s1 rep s2 err :
  full_pages serve self jql_query ps (server w) 0 pages xs s1 ->
  serve s1 (rq_at (ps * Z.of_nat (List.length pages))) = (rep, s2) ->
  request_failure rep = Some err ->
  List.length pages < fuel ->
  get_tasks serve fuel self jql_query ps w =
  Some (Returned (List.concat pages),
        print (FetchError err)
              (after s2 (xs ++ [(rq_at (ps * Z.of_nat (List.length pages)), rep)]) w)).
Proof.
  intros Hpages Hs Hf Hfuel.
  replace fuel with (List.length pages + S (fuel - S (List.length pages))) by lia.
  unfold get_tasks.
  rewrite (@loop_full_pages (S (fuel - S (List.length pages))) pages xs
             (server w) s1 0%Z Hpages {| start_at := 0; all_tasks := [] |} w
             eq_refl eq_refl).
  cbn [all_tasks app]. rewrite Z.add_0_l.
  erewrite loop_failure; [|exact Hs|exact Hf].
  cbn [all_tasks start_at]. now rewrite after_app.
Qed.

(** The loop returns as soon as the server, after pages that are not
    short, sends a reply that is not such a page: fuel beyond the number of
    requests changes nothing. *)
Lemma get_tasks_returns (w : world St) pages xs s1 rep s2 :
  full_pages serve self jql_query ps (server w) 0 pages xs s1 ->
  serve s1 (rq_at (ps * Z.of_nat (List.length pages))) = (rep, s2) ->
  (forall p, records rep = Returned p -> (Z.of_nat (List.length p) < ps)%Z) ->
  exists r w',
    forall fuel, List.length pages < fuel ->
                 get_tasks serve fuel self jql_query ps w = Some (r, w').
Proof.
  intros Hpages Hs Hshort.
  assert (Hrun : forall fuel, List.length pages < fuel ->
            get_tasks serve fuel self jql_query ps w =
            loop (S (fuel - S (List.length pages)))
                 {| start_at := (ps * Z.of_nat (List.length pages))%Z;
                    all_tasks := List.concat pages |}
                 (after s1 xs w)).
  { intros fuel Hfuel.
    replace fuel with (List.length pages + S (fuel - S (List.length pages))) at 1 by lia.
    unfold get_tasks.
    rewrite (@loop_full_pages (S (fuel - S (List.length pages))) pages xs
               (server w) s1 0%Z Hpages {| start_at := 0; all_tasks := [] |} w
               eq_refl eq_refl).
    cbn [all_tasks app]. now rewrite Z.add_0_l. }
  destruct (records rep) as [p|e] eqn:Er.
  - do 2 eexists. intros fuel Hfuel. rewrite (Hrun fuel Hfuel).
    apply loop_short with (p := p); [exact Hs | exact Er | now apply Hshort].
  - destruct (request_failure rep) as [err|] eqn:Ef.
    + do 2 eexists. intros fuel Hfuel. rewrite (Hrun fuel Hfuel).
      apply loop_failure; [exact Hs | exact Ef].
    + do 2 eexists. intros fuel Hfuel. rewrite (Hrun fuel Hfuel).
      apply loop_raise; [exact Hs | exact Er | exact Ef].
Qed.

End Fetch.

(** C1. Against a server whose first three answers are pages of 50, 50
    and 12 records, the fetch with page size 50 returns the 112 records,
    page after page in the order the server gave them, after exactly three
    requests, for the offsets 0, 50 and 100. *)
Theorem fetch_pages_50_50_12 (St : Type) (serve : St -> request -> reply * St)
        (self : JiraClient) (jql_query : string) (fuel : nat) (w : world St)
        (r1 r2 r3 : reply) (p1 p2 p3 : list value) (s1 s2 s3 : St) :
  serve (server w) (request_at self jql_query 50 0) = (r1, s1) ->
  records_of r1 = Returned p1 -> List.length p1 = 50 ->
  serve s1 (request_at self jql_query 50 50) = (r2, s2) ->
  records_of r2 = Returned p2 -> List.length p2 = 50 ->
  serve s2 (request_at self jql_query 50 100) = (r3, s3) ->
  records_of r3 = Returned p3 -> List.length p3 = 12 ->
  3 <= fuel ->
  get_tasks serve fuel self jql_query 50 w =
    Some (Returned (p1 ++ p2 ++ p3),
          after s3 [ (request_at self jql_query 50 0, r1);
                     (request_at self jql_query 50 50, r2);
                     (request_at self jql_query 50 100, r3) ] w) /\
  List.length (p1 ++ p2 ++ p3) = 112 /\
  map offset_of [ (request_at self jql_query 50 0, r1);
                  (request_at self jql_query 50 50, r2);
                  (request_at self jql_query 50 100, r3) ] = [0; 50; 100]%Z.
Proof.
  intros Hs1 Hr1 Hl1 Hs2 Hr2 Hl2 Hs3 Hr3 Hl3 Hfuel.
  split; [|split; [rewrite !length_app; lia | reflexivity]].
  assert (Hpages : full_pages serve self jql_query 50 (server w) 0 [p1; p2]
                     [ (request_at self jql_query 50 0, r1);
                       (request_at self jql_query 50 50, r2) ] s2).
  { eapply full_pages_cons; [exact Hs1 | exact Hr1 | lia |].
    eapply full_pages_cons; [exact Hs2 | exact Hr2 | lia |].
    apply full_pages_nil. }
  replace fuel with (List.length [p1; p2] + S (fuel - 3)) by (simpl; lia).
  unfold get_tasks.
  rewrite (@loop_full_pages St serve self jql_query 50 (S (fuel - 3)) [p1; p2] _
             (server w) s2 0%Z Hpages {| start_at := 0; all_tasks := [] |} w
             eq_refl eq_refl).
  erewrite loop_short; [| exact Hs3 | exact Hr3 | cbn [all_tasks]; lia].
  cbn [all_tasks start_at List.concat app]. rewrite app_nil_r, <- app_assoc.
  now rewrite after_app.
Qed.

(** *** The orchestrator *)

Section Orchestrator.

Variable St : Type.
Variable serve : St -> request -> reply * St.
Variable E : Type.
Variable X : DataExporter St E.

Local Abbreviation run := (@export_tasks py_repr json_dumps St serve E X).
Local Abbreviation fetch :=
  (fun fuel (self : JiraTaskExporter E) jql =>
     get_tasks serve fuel (jira_client self) jql 50).

Lemma loop_body_keeps_files self jql ps (l : locals) (w : world St) r w1 :
  loop_body serve self jql ps l w = (r, w1) ->
  disk w1 = disk w /\ export_calls w1 = export_calls w.
Proof.
  unfold loop_body, requests_get.
  destruct (serve (server w) (page_request self jql ps l)) as [rep s1].
  destruct (try_block ps l rep) as [cl|[]]; intros [= <- <-]; auto.
Qed.

Lemma get_tasks_keeps_files (fuel : nat) self jql ps :
  forall (l : locals) (w : world St) r w',
    while_true serve fuel self jql ps l w = Some (r, w') ->
    disk w' = disk w /\ export_calls w' = export_calls w.
Proof.
  induction fuel as [|fuel IH]; intros l w r w' H; [discriminate|].
  cbn [while_true] in H.
  destruct (loop_body serve self jql ps l w) as [[[[] l1]|e] w1] eqn:Eb;
    apply loop_body_keeps_files in Eb as [Hd Hc].
  - injection H as <- <-. auto.
  - apply IH in H as [Hd' Hc']. split; congruence.
  - injection H as <- <-. auto.
Qed.

(** C8 (as amended). When the fetch returns no record, the run reports
    that no tasks were found and ends: the Writer is not invoked and no
    file is touched. When the fetch returns records and the flattener
    accepts every one of them, the rows are the records flattened one by
    one in order, and the Writer is invoked once, with all the rows; when
    the flattener raises on a record, the run ends with that exception
    and the Writer is not invoked. *)
Theorem export_tasks_sequence (fuel : nat) (self : JiraTaskExporter E)
        (jql : string) (w w1 : world St) (tasks : list value) :
  fetch fuel self jql w = Some (Returned tasks, w1) ->
  (tasks = [] ->
   run fuel self jql w = Some (Returned tt, print NoTasksFound w1) /\
   console (print NoTasksFound w1) = console w1 ++ [NoTasksFound] /\
   export_calls (print NoTasksFound w1) = export_calls w /\
   disk (print NoTasksFound w1) = disk w) /\
  (tasks <> [] ->
   (forall rows,
       mapM flatten tasks = Returned rows ->
       Forall2 (fun task row => flatten task = Returned row) tasks rows /\
       List.length rows = List.length tasks /\
       run fuel self jql w =
       Some (export (exporter self) rows
                    {| server := server w1; exchanges := exchanges w1;
                       console := console w1; disk := disk w;
                       export_calls := export_calls w ++ [rows] |})) /\
   (forall e,
       mapM flatten tasks = Raised e ->
       run fuel self jql w = Some (Raised e, w1) /\
       export_calls w1 = export_calls w /\ disk w1 = disk w)).
Proof.
  intros Hfetch.
  destruct (@get_tasks_keeps_files fuel (jira_client self) jql 50
              {| start_at := 0; all_tasks := [] |} w (Returned tasks) w1 Hfetch)
    as [Hd Hc].
  unfold export_tasks. rewrite Hfetch. split.
  - intros ->. cbn [Py.truthy negb]. auto.
  - intros Hne. destruct tasks as [|t tasks]; [congruence|].
    cbn [Py.truthy negb]. split.
    + intros rows Hrows. rewrite Hrows. split; [now apply mapM_Returned|].
      split; [now apply mapM_length in Hrows|].
      unfold call_export. now rewrite Hd, Hc.
    + intros e He. rewrite He. auto.
Qed.

(** C10. When the first request of a fetch fails, the fetch returns the
    empty sequence and the run takes the path of an empty result: it
    reports that no tasks were found, does not invoke the Writer and
    touches no file. A run whose first page is empty gives the same
    result of the fetch, the same result of the run, the same last
    message, the same files and the same calls of the Writer. *)
Theorem first_request_failure_looks_empty (fuel : nat)
        (self : JiraTaskExporter E) (jql : string) (w w0 : world St)
        (rep rep0 : reply) (s1 s0 : St) (err : request_error) :
  serve (server w) (request_at (jira_client self) jql 50 0) = (rep, s1) ->
  request_failure rep = Some err ->
  serve (server w0) (request_at (jira_client self) jql 50 0) = (rep0, s0) ->
  records_of rep0 = Returned [] ->
  disk w0 = disk w -> export_calls w0 = export_calls w ->
  0 < fuel ->
  exists wf we,
    fetch fuel self jql w = Some (Returned [], wf) /\
    run fuel self jql w = Some (Returned tt, print NoTasksFound wf) /\
    console wf = console w ++ [FetchError err] /\
    export_calls (print NoTasksFound wf) = export_calls w /\
    disk (print NoTasksFound wf) = disk w /\
    fetch fuel self jql w0 = Some (Returned [], we) /\
    run fuel self jql w0 = Some (Returned tt, print NoTasksFound we) /\
    console we = console w0 /\
    export_calls (print NoTasksFound we) = export_calls (print NoTasksFound wf) /\
    disk (print NoTasksFound we) = disk (print NoTasksFound wf).
Proof.
  intros Hs Hf Hs0 Hr0 Hdisk Hcalls Hfuel.
  destruct fuel as [|fuel]; [lia|].
  assert (H1 : fetch (S fuel) self jql w =
               Some (Returned [],
                     print (FetchError err)
                           (after s1 [(request_at (jira_client self) jql 50 0, rep)] w))).
  { unfold get_tasks. erewrite loop_failure; [reflexivity | exact Hs | exact Hf]. }
  assert (H2 : fetch (S fuel) self jql w0 =
               Some (Returned [],
                     after s0 [(request_at (jira_client self) jql 50 0, rep0)] w0)).
  { unfold get_tasks.
    erewrite loop_short; [reflexivity | exact Hs0 | exact Hr0 | simpl; lia]. }
  do 2 eexists. split; [exact H1|].
  split; [unfold export_tasks; rewrite H1; reflexivity|].
  split; [reflexivity|]. split; [reflexivity|]. split; [reflexivity|].
  split; [exact H2|].
  split; [unfold export_tasks; rewrite H2; reflexivity|].
  split; [reflexivity|]. simpl. auto.
Qed.

End Orchestrator.

End Properties.

(** *** Reading back what the csv writer wrote *)

Unset Implicit Arguments.

Section CsvRoundTrip.

Variable d : ascii.
Hypothesis Hvalid : Csv.valid_delimiter d = true.

Local Abbreviation R := Csv.Build_reader.

Lemma delimiter_facts :
  Ascii.eqb d Csv.quotechar = false /\ Csv.is_newline d = false.
Proof.
  unfold Csv.valid_delimiter in Hvalid. apply negb_true_iff in Hvalid.
  now apply orb_false_iff in Hvalid.
Qed.

Lemma quote_facts :
  Csv.is_newline Csv.quotechar = false /\ Ascii.eqb Csv.quotechar d = false.
Proof.
  split; [reflexivity|]. rewrite Ascii.eqb_sym. apply delimiter_facts.
Qed.

Lemma plain_char c :
  Csv.special d c = false ->
  Ascii.eqb c d = false /\ Ascii.eqb c Csv.quotechar = false /\
  Csv.is_newline c = false.
Proof.
  unfold Csv.special, Csv.is_newline. intros H.
  apply orb_false_iff in H as [H H4]. apply orb_false_iff in H as [H H3].
  apply orb_false_iff in H as [H1 H2]. rewrite H3, H4. auto.
Qed.

Lemma feed_app (a b : string) (r : Csv.reader) :
  Csv.feed d (a ++ b) r = Csv.feed d b (Csv.feed d a r).
Proof. revert r. induction a as [|c a IH]; intros r; simpl; auto. Qed.

Lemma feed_plain (s b : string) flds recs :
  Csv.needs_quoting d s = false ->
  Csv.feed d s (R Csv.InField b flds recs) = R Csv.InField (b ++ s) flds recs.
Proof.
  revert b. induction s as [|c s IH]; intros b Hq; simpl.
  - now rewrite append_nil_r.
  - simpl in Hq. apply orb_false_iff in Hq as [Hc Hq].
    destruct (plain_char _ Hc) as (H1 & H2 & H3).
    unfold Csv.step. cbn [Csv.state]. rewrite H3, H1.
    unfold Csv.add_char. cbn [Csv.field Csv.fields Csv.records].
    rewrite IH by assumption. now rewrite append_assoc.
Qed.

Lemma feed_escaped (s b : string) flds recs :
  Csv.feed d (Csv.escape s) (R Csv.InQuotedField b flds recs) =
  R Csv.InQuotedField (b ++ s) flds recs.
Proof.
  revert b. induction s as [|c s IH]; intros b; simpl.
  - now rewrite append_nil_r.
  - destruct (Ascii.eqb_spec c Csv.quotechar) as [->|Hne].
    + cbn [Csv.feed]. unfold Csv.step at 2. cbn [Csv.state].
      rewrite Ascii.eqb_refl. unfold Csv.goto. cbn [Csv.field Csv.fields Csv.records].
      unfold Csv.step. cbn [Csv.state]. rewrite Ascii.eqb_refl.
      unfold Csv.add_char. cbn [Csv.field Csv.fields Csv.records].
      rewrite IH. now rewrite append_assoc.
    + cbn [Csv.feed]. unfold Csv.step. cbn [Csv.state].
      apply Ascii.eqb_neq in Hne. rewrite Hne.
      unfold Csv.add_char. cbn [Csv.field Csv.fields Csv.records].
      rewrite IH. now rewrite append_assoc.
Qed.

Lemma feed_field (st0 : Csv.rstate) (s : string) flds recs :
  st0 = Csv.StartField \/ st0 = Csv.StartRecord ->
  Csv.field_done st0 s flds recs
    (Csv.feed d (Csv.write_field d s) (R st0 EmptyString flds recs)).
Proof.
  intros Hst. unfold Csv.write_field.
  destruct (Csv.needs_quoting d s) eqn:Hq.
  - cbn [Csv.feed].
    assert (Hstep : Csv.step d Csv.quotechar (R st0 EmptyString flds recs)
                    = R Csv.InQuotedField EmptyString flds recs).
    { destruct Hst as [-> | ->]; reflexivity. }
    rewrite Hstep, feed_app, feed_escaped. cbn [Csv.feed String.append].
    unfold Csv.step. cbn [Csv.state]. rewrite Ascii.eqb_refl.
    unfold Csv.field_done, Csv.goto. cbn. repeat split; auto.
  - destruct s as [|c s].
    + cbn [Csv.feed]. unfold Csv.field_done. cbn. repeat split; auto 6.
    + simpl in Hq. apply orb_false_iff in Hq as [Hc Hq].
      destruct (plain_char _ Hc) as (H1 & H2 & H3).
      cbn [Csv.feed].
      assert (Hstep : Csv.step d c (R st0 EmptyString flds recs)
                      = R Csv.InField (String c EmptyString) flds recs).
      { destruct Hst as [-> | ->]; unfold Csv.step; cbn [Csv.state];
          unfold Csv.at_start_record, Csv.at_start_field; rewrite H3, H2, H1;
          reflexivity. }
      rewrite Hstep, feed_plain by assumption.
      unfold Csv.field_done. cbn. repeat split; auto.
Qed.

Lemma step_delimiter_done st0 s flds recs r :
  st0 = Csv.StartField \/ st0 = Csv.StartRecord ->
  Csv.field_done st0 s flds recs r ->
  Csv.step d d r = R Csv.StartField EmptyString (flds ++ [s]) recs.
Proof.
  destruct delimiter_facts as [Hdq Hdn].
  intros Hst (Hf & Hfs & Hr & Hs). destruct r as [st f fs rs].
  cbn in Hf, Hfs, Hr, Hs. subst f fs rs. unfold Csv.step. cbn [Csv.state].
  destruct Hs as [-> | [-> | [-> ->]]].
  - rewrite Hdq, Ascii.eqb_refl. reflexivity.
  - rewrite Hdn, Ascii.eqb_refl. reflexivity.
  - destruct Hst as [-> | ->];
      unfold Csv.at_start_record, Csv.at_start_field;
      rewrite Hdn, Hdq, Ascii.eqb_refl; reflexivity.
Qed.

Lemma step_CR_done st0 s flds recs r :
  st0 = Csv.StartField \/ s <> EmptyString ->
  Csv.field_done st0 s flds recs r ->
  Csv.step d Csv.CR r = R Csv.EatLF EmptyString [] (recs ++ [flds ++ [s]]).
Proof.
  destruct delimiter_facts as [Hdq Hdn].
  assert (Hcd : Ascii.eqb Csv.CR d = false).
  { unfold Csv.is_newline in Hdn. apply orb_false_iff in Hdn as [H _].
    now rewrite Ascii.eqb_sym. }
  intros Hst (Hf & Hfs & Hr & Hs). destruct r as [st f fs rs].
  cbn in Hf, Hfs, Hr, Hs. subst f fs rs. unfold Csv.step. cbn [Csv.state].
  destruct Hs as [-> | [-> | [-> ->]]].
  - rewrite Hcd. reflexivity.
  - reflexivity.
  - destruct Hst as [-> | Hne]; [reflexivity | congruence].
Qed.

Lemma feed_join_fields (cells : list string) :
  cells <> [] ->
  forall flds recs rest,
    Csv.feed d (Csv.join_fields d cells ++ String Csv.CR rest)
             (R Csv.StartField EmptyString flds recs) =
    Csv.feed d rest (R Csv.EatLF EmptyString [] (recs ++ [flds ++ cells])).
Proof.
  induction cells as [|c cells IH]; intros Hne flds recs rest; [congruence|].
  destruct cells as [|c' cells].
  - cbn [Csv.join_fields]. rewrite feed_app. cbn [Csv.feed].
    rewrite (step_CR_done Csv.StartField c flds recs);
      [reflexivity | left; reflexivity |].
    apply feed_field. now left.
  - change (Csv.join_fields d (c :: c' :: cells))
      with (Csv.write_field d c ++ String d (Csv.join_fields d (c' :: cells)))%string.
    rewrite append_assoc, feed_app.
    cbn [String.append Csv.feed].
    rewrite (step_delimiter_done Csv.StartField c flds recs);
      [| left; reflexivity | apply feed_field; now left].
    rewrite IH by discriminate. now rewrite <- app_assoc.
Qed.

(** One written row reads back as its cells. *)
Lemma feed_writerow (cells : list string) recs :
  Csv.feed d (Csv.writerow d cells) (R Csv.StartRecord EmptyString [] recs) =
  R Csv.StartRecord EmptyString [] (recs ++ [cells]).
Proof.
  destruct delimiter_facts as [Hdq Hdn].
  assert (Hcd : Ascii.eqb Csv.CR d = false).
  { unfold Csv.is_newline in Hdn. apply orb_false_iff in Hdn as [H _].
    now rewrite Ascii.eqb_sym. }
  destruct cells as [|c cells]; [reflexivity|].
  destruct cells as [|c' cells].
  - destruct c as [|a c].
    + unfold Csv.writerow, Csv.lineterminator. cbn [Csv.feed].
      change (Csv.step d Csv.quotechar (R Csv.StartRecord EmptyString [] recs))
        with (R Csv.InQuotedField EmptyString [] recs).
      change (Csv.step d Csv.quotechar (R Csv.InQuotedField EmptyString [] recs))
        with (R Csv.QuoteInQuotedField EmptyString [] recs).
      erewrite (step_CR_done Csv.StartField EmptyString [] recs);
        [reflexivity | left; reflexivity |].
      unfold Csv.field_done. cbn. repeat split; auto.
    + unfold Csv.writerow. cbn [Csv.join_fields]. rewrite feed_app.
      unfold Csv.lineterminator. cbn [Csv.feed].
      rewrite (step_CR_done Csv.StartRecord (String a c) [] recs);
        [reflexivity | right; discriminate | apply feed_field; now right].
  - assert (Hrow : Csv.writerow d (c :: c' :: cells) =
                   (Csv.join_fields d (c :: c' :: cells) ++ Csv.lineterminator)%string).
    { destruct c; reflexivity. }
    rewrite Hrow.
    change (Csv.join_fields d (c :: c' :: cells))
      with (Csv.write_field d c ++ String d (Csv.join_fields d (c' :: cells)))%string.
    rewrite append_assoc, feed_app.
    cbn [String.append Csv.feed].
    rewrite (step_delimiter_done Csv.StartRecord c [] recs);
      [| right; reflexivity | apply feed_field; now right].
    unfold Csv.lineterminator.
    rewrite feed_join_fields by discriminate. reflexivity.
Qed.

(** A text of written rows reads back as the rows, in order. *)
Lemma feed_rows (rows : list (list string)) :
  forall acc recs,
    Csv.feed d acc Csv.start = R Csv.StartRecord EmptyString [] recs ->
    Csv.feed d (fold_left (fun a cells => (a ++ Csv.writerow d cells)%string) rows acc)
             Csv.start =
    R Csv.StartRecord EmptyString [] (recs ++ rows).
Proof.
  induction rows as [|cells rows IH]; intros acc recs Hacc; cbn [fold_left].
  - now rewrite app_nil_r.
  - rewrite (IH _ (recs ++ [cells])).
    + now rewrite <- app_assoc.
    + rewrite feed_app, Hacc. apply feed_writerow.
Qed.

Lemma read_written (header : list string) (rows : list (list string)) :
  Csv.read d (fold_left (fun a cells => (a ++ Csv.writerow d cells)%string) rows
                        (Csv.writerow d header)) = header :: rows.
Proof.
  unfold Csv.read.
  rewrite (feed_rows rows _ [header]); [reflexivity|].
  apply (feed_writerow header []).
Qed.

End CsvRoundTrip.

(** *** The Writer *)

Section Writer.

Variable py_repr : value -> string.
Variable St : Type.

Lemma lookup_keys (k : string) (row : dict) (v : value) :
  Py.lookup k row = Some v -> In k (Py.keys row).
Proof.
  induction row as [|[k' v'] row IH]; simpl; [discriminate|].
  destruct (String.eqb_spec k k') as [->|Hne]; auto.
Qed.

Lemma dict_to_list_FlatRow (fns : list string) (row : dict) :
  FlatRow fns row ->
  exists cells,
    dict_to_list fns row = Returned cells /\
    map (cell_text py_repr) cells = row_cells fns row.
Proof.
  intros [Hall Hkeys]. unfold dict_to_list.
  assert (Hw : filter (fun k => negb (existsb (String.eqb k) fns)) (Py.keys row) = []).
  { induction (Py.keys row) as [|k ks IH]; [reflexivity|]. simpl.
    assert (Hk : existsb (String.eqb k) fns = true).
    { apply mem_In. apply Hkeys. now left. }
    rewrite Hk. simpl. apply IH. intros k' Hin. apply Hkeys. now right. }
  rewrite Hw. eexists. split; [reflexivity|].
  unfold row_cells. rewrite map_map. apply map_ext_in.
  intros c Hc. destruct (Hall c Hc) as (s & ->). reflexivity.
Qed.

Lemma file_write (name text : string) (d : filesystem) (old : string) :
  file d name = Some old ->
  file (write name text d) name = Some (old ++ text)%string /\
  writable (write name text d) = writable d.
Proof.
  intros H. unfold write. cbn [file writable]. now rewrite String.eqb_refl, H.
Qed.

Lemma writerows_FlatRows (name : string) (c : ascii) (fns : list string)
      (data : list dict) :
  Forall (FlatRow fns) data ->
  forall (d0 : filesystem) (t0 : string),
    file d0 name = Some t0 ->
    exists d1,
      writerows py_repr name c fns data d0 = (Returned tt, d1) /\
      file d1 name =
        Some (fold_left (fun a cells => (a ++ Csv.writerow c cells)%string)
                        (map (row_cells fns) data) t0).
Proof.
  induction 1 as [|row data Hrow Hdata IH]; intros d0 t0 Hfile.
  - exists d0. split; [reflexivity | exact Hfile].
  - cbn [writerows map fold_left].
    destruct (dict_to_list_FlatRow fns row Hrow) as (cells & -> & Hcells).
    rewrite Hcells.
    destruct (file_write name (Csv.writerow c (row_cells fns row)) d0 t0 Hfile)
      as [Hf _].
    exact (IH _ _ Hf).
Qed.

Lemma lookup_zip_row (header : list string) (f : string -> string) (k : string) :
  Py.lookup k (zip_row header (map f header)) =
  if mem k header then Some (VStr (f k)) else None.
Proof.
  unfold zip_row. induction header as [|h header IH]; [reflexivity|].
  cbn [map combine Py.lookup mem existsb].
  destruct (String.eqb_spec k h) as [->|Hne]; [reflexivity|].
  cbn [orb]. exact IH.
Qed.

Lemma zip_row_FlatRow (fns : list string) (row : dict) :
  FlatRow fns row -> dict_equal (zip_row fns (row_cells fns row)) row.
Proof.
  intros [Hall Hkeys] k. unfold row_cells. rewrite lookup_zip_row.
  destruct (mem k fns) eqn:Hm.
  - apply mem_In in Hm. destruct (Hall k Hm) as (s & ->). reflexivity.
  - destruct (Py.lookup k row) as [v|] eqn:Hl; [|reflexivity].
    apply lookup_keys, Hkeys, mem_In in Hl. congruence.
Qed.

Lemma keys_zip_row (header cells : list string) :
  List.length cells = List.length header ->
  Py.keys (zip_row header cells) = header.
Proof.
  unfold zip_row, Py.keys. revert cells.
  induction header as [|h header IH]; intros [|c cells] H;
    try discriminate H; [reflexivity|].
  simpl. f_equal. apply IH. simpl in H. congruence.
Qed.

(** C9. Written by the Writer and read back with the same delimiter, N
    FlatRows give N+1 records: the header and, in the order given, one
    record a row, its cells in the order of the header; read under the
    header, record i is the i-th FlatRow, key for key. *)
Theorem csv_round_trip (self : CSVExporter) (c : ascii) (data : list dict)
        (w : world St) :
  delimiter self = String c EmptyString ->
  Csv.valid_delimiter c = true ->
  writable (disk w) (filename self) = true ->
  Forall (FlatRow (fieldnames self)) data ->
  exists text,
    file (disk (snd (CSVExporter_export py_repr self data w))) (filename self)
      = Some text /\
    console (snd (CSVExporter_export py_repr self data w))
      = console w ++ [Exported (filename self)] /\
    Csv.read c text = fieldnames self :: map (row_cells (fieldnames self)) data /\
    List.length (Csv.read c text) = List.length data + 1 /\
    Forall2 dict_equal (DictReader c text) data /\
    Forall (fun row => Py.keys row = fieldnames self) (DictReader c text).
Proof.
  intros Hdelim Hvalid Hwritable Hrows.
  unfold CSVExporter_export, open_w. rewrite Hwritable, Hdelim.
  cbn [ret DictWriter].
  set (d0 := {| file := fun n => if String.eqb n (filename self)
                                 then Some EmptyString else file (disk w) n;
                writable := writable (disk w) |}).
  assert (H0 : file d0 (filename self) = Some EmptyString).
  { unfold d0. cbn [file]. now rewrite String.eqb_refl. }
  destruct (file_write (filename self) (Csv.writerow c (fieldnames self)) d0 _ H0)
    as [H1 _].
  unfold writeheader.
  destruct (writerows_FlatRows (filename self) c (fieldnames self) data Hrows _ _ H1)
    as (d2 & -> & H2).
  cbn [snd print with_disk disk console]. cbn [String.append] in H2.
  eexists. split; [exact H2|]. split; [reflexivity|].
  assert (Hread := read_written c Hvalid (fieldnames self)
                                (map (row_cells (fieldnames self)) data)).
  split; [exact Hread|].
  split; [rewrite Hread; cbn [List.length]; rewrite length_map; lia|].
  unfold DictReader. rewrite Hread. rewrite map_map. split.
  - clear -Hrows. induction Hrows as [|row data Hrow _ IH]; constructor; auto.
    now apply zip_row_FlatRow.
  - apply Forall_forall. intros row Hin. apply in_map_iff in Hin as (r & <- & _).
    apply keys_zip_row. unfold row_cells. now rewrite length_map.
Qed.

End Writer.

(* ================================================================= *)
(** ** The properties at work on closed inputs *)

Lemma fetch_pages_50_50_12_witness :
  get_tasks stub_serve 3 the_client the_query 50 (fresh_world script_50_50_12) =
    Some (Returned (issues_from 0 50 ++ issues_from 50 50 ++ issues_from 100 12),
          after []
                [ (request_at the_client the_query 50 0, page (issues_from 0 50));
                  (request_at the_client the_query 50 50, page (issues_from 50 50));
                  (request_at the_client the_query 50 100, page (issues_from 100 12)) ]
                (fresh_world script_50_50_12)) /\
  List.length (issues_from 0 50 ++ issues_from 50 50 ++ issues_from 100 12) = 112 /\
  map offset_of
      [ (request_at the_client the_query 50 0, page (issues_from 0 50));
        (request_at the_client the_query 50 50, page (issues_from 50 50));
        (request_at the_client the_query 50 100, page (issues_from 100 12)) ]
    = [0; 50; 100]%Z.
Proof.
  apply (@fetch_pages_50_50_12 (list reply) stub_serve the_client the_query 3
           (fresh_world script_50_50_12)
           (page (issues_from 0 50)) (page (issues_from 50 50))
           (page (issues_from 100 12))
           (issues_from 0 50) (issues_from 50 50) (issues_from 100 12)
           [page (issues_from 50 50); page (issues_from 100 12)]
           [page (issues_from 100 12)] []);
    reflexivity.
Defined.

Lemma fetch_stops_at_failed_request_witness :
  get_tasks stub_serve 9 the_client the_query 50 (fresh_world script_one_full_page) =
    Some (Returned (List.concat [issues_from 0 50]),
          print (FetchError ConnectionError)
                (after []
                       ([(request_at the_client the_query 50 0, page (issues_from 0 50))]
                          ++ [(request_at the_client the_query 50
                                          (50 * Z.of_nat (List.length [issues_from 0 50])),
                               NoResponse)])
                       (fresh_world script_one_full_page))).
Proof.
  apply (@fetch_stops_at_failed_request (list reply) stub_serve the_client the_query
           50 9 (fresh_world script_one_full_page) [issues_from 0 50]
           [(request_at the_client the_query 50 0, page (issues_from 0 50))]
           [] NoResponse [] ConnectionError).
  - eapply full_pages_cons; [reflexivity | reflexivity | vm_compute; discriminate |].
    apply full_pages_nil.
  - reflexivity.
  - reflexivity.
  - vm_compute. repeat constructor.
Defined.

(** C2, the sentence as it stands. After one page of the page size the
    stub has nothing more: the request that fails is the second of two (for
    the offsets 0 and 50), not a fourth. And a reply with status 304 is no
    failure for the fetch: its records are taken and no error is reported. *)
Lemma one_full_page_then_failure_counterexample :
  (exists w',
      get_tasks stub_serve 9 the_client the_query 50 (fresh_world script_one_full_page)
        = Some (Returned (issues_from 0 50), w') /\
      map offset_of (exchanges w') = [0; 50]%Z /\
      console w' = [FetchError ConnectionError]) /\
  (exists w',
      get_tasks stub_serve 9 the_client the_query 50 (fresh_world script_not_modified)
        = Some (Returned (issues_from 0 2), w') /\
      map (fun x => snd x) (exchanges w') = script_not_modified /\
      console w' = []).
Proof.
  split; eexists; (split; [vm_compute; reflexivity|]); split; reflexivity.
Qed.

Lemma clean_field_examples :
  clean_field no_repr (VStr "Disk full (IM-1234)") = Returned (VStr "Disk full") /\
  clean_field no_repr (VList [VStr "A (IM-1)"; VStr "B"]) = Returned (VStr "A,B") /\
  clean_field no_repr (VStr "x (IM-12) y (IM-) z(IM-3) (IM-45)") =
    Returned (VStr "x y (IM-) z(IM-3)") /\
  clean_field no_repr (VInt 0) = Returned (VStr "") /\
  clean_field no_repr (VInt 7) = Returned (VStr "7").
Proof. repeat split; reflexivity. Qed.

Lemma flatten_columns_match_header_witness :
  exists row,
    format_task no_repr no_repr sample_task = Returned row /\
    Py.keys row = row_columns /\
    List.length (Py.keys row) = 28 /\
    NoDup (Py.keys row) /\
    (forall task' row', format_task no_repr no_repr task' = Returned row' ->
                        Py.keys row' = Py.keys row) /\
    List.length (fieldnames the_exporter) = 28 /\
    NoDup (fieldnames the_exporter) /\
    (forall c, In c (Py.keys row) <-> In c (fieldnames the_exporter)) /\
    Permutation (Py.keys row) (fieldnames the_exporter).
Proof.
  eexists. split; [reflexivity|].
  apply (@flatten_columns_match_header no_repr no_repr sample_task _
           "jira_exported_tasks.csv" ";").
  reflexivity.
Defined.

Lemma full_page_triggers_next_request_witness :
  get_tasks stub_serve 2 the_client the_query 50 (fresh_world script_full_then_empty) =
    Some (Returned (issues_from 0 50),
          after []
                [ (request_at the_client the_query 50 0, page (issues_from 0 50));
                  (request_at the_client the_query 50 50, page []) ]
                (fresh_world script_full_then_empty)) /\
  List.length (issues_from 0 50) = 50 /\
  map offset_of
      [ (request_at the_client the_query 50 0, page (issues_from 0 50));
        (request_at the_client the_query 50 50, page []) ]
    = [0; 50]%Z.
Proof.
  split; [|split; reflexivity].
  destruct (@full_page_triggers_next_request (list reply) stub_serve the_client
              the_query 50 (fresh_world script_full_then_empty)) as (Hshort & _).
  apply (Hshort 2 [issues_from 0 50]
               [(request_at the_client the_query 50 0, page (issues_from 0 50))]
               [page []] (page []) [] []).
  - eapply full_pages_cons; [reflexivity | reflexivity | vm_compute; discriminate |].
    apply full_pages_nil.
  - reflexivity.
  - reflexivity.
  - reflexivity.
  - vm_compute. repeat constructor.
Defined.

Lemma conditional_nested_columns_witness :
  (exists row,
      format_task no_repr no_repr vendor_task = Returned row /\
      Py.lookup "Vendor Related Incidents" row = Some (VStr "Yes") /\
      Py.lookup "System Owner" row = Some (VStr "Ann")) /\
  (exists row,
      format_task no_repr no_repr sample_task = Returned row /\
      Py.lookup "Vendor Related Incidents" row = Some (VStr "") /\
      Py.lookup "System Owner" row = Some (VStr "Ann")) /\
  (exists row,
      format_task no_repr no_repr
                  (VDict [("key", VStr "IM-1"); ("fields", VDict [])])
        = Returned row /\
      Py.lookup "Vendor Related Incidents" row = Some (VStr "") /\
      Py.lookup "System Owner" row = Some (VStr "")) /\
  vendor_related (VDict [("customfield_20906", VDict [("value", VStr "Yes")])])
    = Returned (VStr "Yes") /\
  vendor_related (VDict [("customfield_20906", VDict [("id", VStr "10200")])])
    = Returned (VStr "") /\
  system_owner (VDict [("customfield_20157", VDict [("displayName", VStr "Ann")])])
    = Returned (VStr "Ann") /\
  vendor_related (VDict [("customfield_20906", VStr "Yes")]) = Raised AttributeError /\
  (exists e, format_task no_repr no_repr text_vendor_task = Raised e).
Proof.
  pose proof (@conditional_nested_columns no_repr no_repr) as (Hcols & Hrow & Hacc).
  split; [|split; [|split; [|split; [|split; [|split; [|split]]]]]].
  - destruct (Hacc vendor_task
                   [("summary", VStr "Link down");
                    ("customfield_20906",
                      VDict [("id", VStr "10200"); ("value", VStr "Yes")]);
                    ("customfield_20157",
                      VDict [("name", VStr "ann"); ("displayName", VStr "Ann")])]
                   (VStr "IM-11") eq_refl eq_refl eq_refl eq_refl)
      as (row & H & Hv & Ho).
    + intros name entry compute Hin _ _. unfold columns in Hin. simpl in Hin.
      repeat (destruct Hin as [Hin|Hin];
              [injection Hin as <- <- <-; eexists; reflexivity|]).
      contradiction.
    + exists row. split; [exact H|]. split; [exact Hv | exact Ho].
  - eexists. split; [reflexivity|].
    destruct (Hrow sample_task _ eq_refl) as (fields & Hf & Ho & _ & Hnull).
    injection Hf as <-. split; [|exact Ho].
    apply Hnull. right. reflexivity.
  - eexists. split; [reflexivity|].
    destruct (Hrow (VDict [("key", VStr "IM-1"); ("fields", VDict [])]) _ eq_refl)
      as (fields & Hf & Ho & _ & Hnull).
    injection Hf as <-. split; [|exact Ho].
    apply Hnull. left. reflexivity.
  - destruct (Hcols [("customfield_20906", VDict [("value", VStr "Yes")])])
      as (_ & _ & Hv & _).
    exact (Hv [("value", VStr "Yes")] (VStr "Yes") eq_refl eq_refl).
  - destruct (Hcols [("customfield_20906", VDict [("id", VStr "10200")])])
      as (Hv & _).
    exact (Hv eq_refl).
  - destruct (Hcols [("customfield_20157", VDict [("displayName", VStr "Ann")])])
      as (_ & _ & _ & Ho & _).
    exact (Ho [("displayName", VStr "Ann")] (VStr "Ann") eq_refl eq_refl).
  - destruct (Hcols [("customfield_20906", VStr "Yes")])
      as (_ & _ & _ & _ & _ & Hrej).
    exact (proj1 (Hrej eq_refl)).
  - destruct (Hcols [("customfield_20906", VStr "Yes")])
      as (_ & _ & _ & _ & _ & Hrej).
    exact (proj2 (Hrej eq_refl) text_vendor_task eq_refl).
Defined.

(** C7, the sentence as it stands. With every entry absent the row holds
    "0", not the empty text, under "Error Rate"; a null summary is passed on
    as null; and a null reporter makes the flattener raise. *)
Lemma flatten_defaults_counterexample :
  (exists row,
      format_task no_repr no_repr
                  (VDict [("key", VStr "IM-1"); ("fields", VDict [])])
        = Returned row /\
      Py.lookup "Error Rate" row = Some (VStr "0")) /\
  (exists row,
      format_task no_repr no_repr
                  (VDict [("key", VStr "IM-1");
                          ("fields", VDict [("summary", VNone)])])
        = Returned row /\
      Py.lookup "summary" row = Some VNone) /\
  format_task no_repr no_repr
              (VDict [("key", VStr "IM-1");
                      ("fields", VDict [("reporter", VNone)])])
    = Raised AttributeError.
Proof.
  split; [|split]; [eexists; split; reflexivity | eexists; split; reflexivity |].
  reflexivity.
Qed.

Lemma flatten_all_absent_example :
  format_task no_repr no_repr (VDict [("key", VStr "IM-1"); ("fields", VDict [])])
  = Returned (map (fun c => (c, if String.eqb c "key" then VStr "IM-1"
                                else absent_default c)) row_columns).
Proof. reflexivity. Qed.

Lemma export_tasks_sequence_witness :
  (exists w1,
      run_fetch 9 [page []] = Some (Returned [], w1) /\
      run_export 9 [page []] = Some (Returned tt, print NoTasksFound w1) /\
      console (print NoTasksFound w1) = console w1 ++ [NoTasksFound] /\
      export_calls (print NoTasksFound w1) = [] /\
      disk (print NoTasksFound w1) = empty_disk) /\
  (exists w1 rows,
      run_fetch 9 [page [sample_task; sample_task]]
        = Some (Returned [sample_task; sample_task], w1) /\
      mapM (format_task no_repr no_repr) [sample_task; sample_task] = Returned rows /\
      Forall2 (fun task row => format_task no_repr no_repr task = Returned row)
              [sample_task; sample_task] rows /\
      List.length rows = 2 /\
      run_export 9 [page [sample_task; sample_task]] =
      Some (@export (list reply) CSVExporter csv_instance
                    (exporter the_task_exporter) rows
                   {| server := server w1; exchanges := exchanges w1;
                      console := console w1; disk := empty_disk;
                      export_calls := [] ++ [rows] |})).
Proof.
  split.
  - eexists. split; [vm_compute; reflexivity|].
    destruct (@export_tasks_sequence no_repr no_repr (list reply) stub_serve
                CSVExporter csv_instance 9 the_task_exporter the_query
                (fresh_world [page []]) _ [] eq_refl) as [H _].
    exact (H eq_refl).
  - do 2 eexists. split; [vm_compute; reflexivity|].
    split; [vm_compute; reflexivity|].
    destruct (@export_tasks_sequence no_repr no_repr (list reply) stub_serve
                CSVExporter csv_instance 9 the_task_exporter the_query
                (fresh_world [page [sample_task; sample_task]]) _
                [sample_task; sample_task] eq_refl) as [_ H].
    assert (Hne : [sample_task; sample_task] <> []) by discriminate.
    destruct (H Hne) as [Hrows _].
    exact (Hrows _ eq_refl).
Defined.

(** C8, the sentence as it stands. The fetch returns one record, which has
    no "fields": the flattener raises, the run ends with that exception, the
    Writer is not invoked and there is no file. *)
Lemma export_tasks_shape_error_counterexample :
  exists w1,
    run_fetch 9 [page [shapeless_issue]] = Some (Returned [shapeless_issue], w1) /\
    run_export 9 [page [shapeless_issue]] = Some (Raised (KeyError "fields"), w1) /\
    export_calls w1 = [] /\
    file (disk w1) (filename the_exporter) = None.
Proof.
  eexists. split; [vm_compute; reflexivity|]. repeat split; reflexivity.
Qed.

Lemma first_request_failure_looks_empty_witness :
  exists wf we,
    run_fetch 9 [] = Some (Returned [], wf) /\
    run_export 9 [] = Some (Returned tt, print NoTasksFound wf) /\
    console wf = console (fresh_world (@nil reply)) ++ [FetchError ConnectionError] /\
    export_calls (print NoTasksFound wf) = export_calls (fresh_world (@nil reply)) /\
    disk (print NoTasksFound wf) = disk (fresh_world (@nil reply)) /\
    run_fetch 9 [page []] = Some (Returned [], we) /\
    run_export 9 [page []] = Some (Returned tt, print NoTasksFound we) /\
    console we = console (fresh_world [page []]) /\
    export_calls (print NoTasksFound we) = export_calls (print NoTasksFound wf) /\
    disk (print NoTasksFound we) = disk (print NoTasksFound wf).
Proof.
  apply (@first_request_failure_looks_empty no_repr no_repr (list reply) stub_serve
           CSVExporter csv_instance 9 the_task_exporter the_query
           (fresh_world []) (fresh_world [page []])
           NoResponse (page []) [] [] ConnectionError);
    try reflexivity.
  vm_compute. repeat constructor.
Defined.

Lemma sample_row_FlatRow (key summary : string) :
  FlatRow (fieldnames the_exporter) (sample_row key summary).
Proof.
  split.
  - intros c Hin. simpl in Hin.
    repeat (destruct Hin as [<-|Hin]; [eexists; reflexivity|]). contradiction.
  - intros k Hin. exact Hin.
Qed.

Lemma csv_round_trip_witness :
  exists text,
    file (disk (snd (CSVExporter_export no_repr the_exporter sample_rows
                                        (fresh_world (@nil reply)))))
         (filename the_exporter) = Some text /\
    console (snd (CSVExporter_export no_repr the_exporter sample_rows
                                     (fresh_world (@nil reply))))
      = console (fresh_world (@nil reply)) ++ [Exported (filename the_exporter)] /\
    Csv.read ";" text
      = fieldnames the_exporter :: map (row_cells (fieldnames the_exporter)) sample_rows /\
    List.length (Csv.read ";" text) = List.length sample_rows + 1 /\
    Forall2 dict_equal (DictReader ";" text) sample_rows /\
    Forall (fun row => Py.keys row = fieldnames the_exporter) (DictReader ";" text).
Proof.
  apply (@csv_round_trip no_repr (list reply) the_exporter ";"%char sample_rows
           (fresh_world [])); try reflexivity.
  unfold sample_rows.
  repeat (apply Forall_cons; [apply sample_row_FlatRow|]). apply Forall_nil.
Defined.

Lemma csv_written_row_example :
  Csv.writerow ";" ["a;b"; tricky_text; ""; "x"] =
  (String Csv.quotechar ("a;b" ++ String Csv.quotechar (";" ++
   String Csv.quotechar ("a;b says " ++ String Csv.quotechar (String Csv.quotechar
   ("hi" ++ String Csv.quotechar (String Csv.quotechar (String Csv.CR (String Csv.LF
   ("bye" ++ String Csv.quotechar (";;x" ++ Csv.lineterminator)))))))))))%string /\
  Csv.read ";" (Csv.writerow ";" ["a;b"; tricky_text; ""; "x"] ++
                Csv.writerow ";" [""] ++ Csv.writerow ";" [""; ""])
  = [["a;b"; tricky_text; ""; "x"]; [""]; [""; ""]].
Proof. split; reflexivity. Qed.

(* ================================================================= *)
(** ** Further properties: the flattener *)

Section FlattenerMore.

Variable py_repr : value -> string.
Variable json_dumps : value -> string.

Local Abbreviation flatten := (format_task py_repr json_dumps).
Local Abbreviation cols := (columns py_repr json_dumps).

Lemma flatten_row_column (task : value) (fields : dict) (row : dict)
      (name entry : string) (compute : value -> result value) :
  flatten task = Returned row ->
  Py.getitem task "fields" = Returned (VDict fields) ->
  In (name, entry, compute) cols ->
  exists v, compute (VDict fields) = Returned v /\ Py.lookup name row = Some v.
Proof.
  intros H Hf Hin.
  destruct (@flatten_fields_dict py_repr json_dumps task row H)
    as (fields' & k & Hf' & Hk).
  rewrite Hf in Hf'. injection Hf' as <-.
  exact (@flatten_column_value py_repr json_dumps task fields k row name entry
           compute Hf Hk H Hin).
Qed.

(** X1. On a mapping, whatever the key and the subkey, [get_nested_value]
    does not raise, and what it returns is the empty text or a truthy value:
    never null, zero, false or an empty container. *)
Theorem get_nested_value_text_or_truthy (data : dict) (key : string)
        (subkey : option string) :
  exists v,
    get_nested_value (VDict data) key subkey = Returned v /\
    (v = VStr "" \/ Py.truthy v = true).
Proof.
  unfold get_nested_value. cbn [Py.contains Py.getitem bind].
  destruct (Py.lookup key data) as [value|]; cbn [bind negb ret];
    [|eexists; split; [reflexivity | now left]].
  destruct (Py.truthy value) eqn:Ht; cbn [negb];
    [|eexists; split; [reflexivity | now left]].
  destruct subkey as [[|a sk]|];
    try (eexists; split; [reflexivity | now right]).
  destruct value; try (eexists; split; [reflexivity | now left]).
  cbn [Py.contains Py.getitem bind].
  destruct (Py.lookup (String a sk) d) as [x|]; cbn [bind ret];
    [|eexists; split; [reflexivity | now left]].
  eexists. split; [reflexivity|]. unfold Py.or_.
  destruct (Py.truthy x) eqn:Hx; [now right | now left].
Qed.

Lemma emails_projected (people : list dict) :
  (forall p, In p people ->
             Py.lookup "emailAddress" p = None \/
             exists e, Py.lookup "emailAddress" p = Some (VStr e)) ->
  mapM (fun x => Py.get x "emailAddress" (VStr "")) (map VDict people) =
  Returned (map VStr (map email_of people)).
Proof.
  induction people as [|p people IH]; intros H; [reflexivity|].
  cbn [map mapM]. rewrite IH by (intros q Hq; apply H; now right).
  unfold email_of, Py.get.
  destruct (H p (or_introl eq_refl)) as [-> | (e & ->)]; reflexivity.
Qed.

(** X2. When [customfield_20145] is a list of objects whose "emailAddress"
    is text or missing, the column "L2 Assignee" is their addresses in the
    order of the list, a missing one as the empty text, joined with ", ". *)
Theorem l2_assignee_joined (task : value) (fields : dict) (row : dict)
        (people : list dict) :
  Py.getitem task "fields" = Returned (VDict fields) ->
  Py.lookup "customfield_20145" fields = Some (VList (map VDict people)) ->
  (forall p, In p people ->
             Py.lookup "emailAddress" p = None \/
             exists e, Py.lookup "emailAddress" p = Some (VStr e)) ->
  flatten task = Returned row ->
  Py.lookup "L2 Assignee" row =
  Some (VStr (String.concat ", " (map email_of people))).
Proof.
  intros Hf Hl Hpeople H.
  destruct (flatten_row_column task fields row "L2 Assignee" "customfield_20145"
              (fun fields => bind (l2_assignee fields) (fun l2 => Py.join ", " l2))
              H Hf) as (v & Hc & Hrow).
  { unfold columns. right. right. left. reflexivity. }
  rewrite Hrow. f_equal. cbv beta in Hc.
  unfold l2_assignee in Hc. cbn [Py.get bind] in Hc. rewrite Hl in Hc.
  cbn [bind] in Hc. destruct people as [|p people].
  - cbn in Hc. now injection Hc as <-.
  - cbn [Py.truthy map Py.iter bind] in Hc.
    change (VDict p :: map VDict people) with (map VDict (p :: people)) in Hc.
    rewrite (emails_projected (p :: people) Hpeople) in Hc. cbn [bind] in Hc.
    unfold Py.join in Hc. rewrite join_strs_text in Hc. cbn [bind ret] in Hc.
    now injection Hc as <-.
Qed.

Lemma join_strs_items_text (sep : string) (items : list value) (s : string) :
  Py.join_strs sep items = Returned s ->
  forall v, In v items -> exists t, v = VStr t.
Proof.
  revert s. induction items as [|x items IH]; intros s H v Hin; [contradiction|].
  destruct x; try discriminate H.
  destruct Hin as [<-|Hin]; [eauto|].
  destruct items as [|y items]; [contradiction|].
  change (bind (Py.join_strs sep (y :: items))
               (fun r => ret (s0 ++ sep ++ r)%string) = Returned s) in H.
  destruct (Py.join_strs sep (y :: items)) as [r|] eqn:E; [|discriminate H].
  exact (IH r eq_refl v Hin).
Qed.

Lemma mapM_In {A B : Type} (f : A -> result B) (l : list A) (bs : list B) (a : A) :
  mapM f l = Returned bs -> In a l -> exists b, In b bs /\ f a = Returned b.
Proof.
  revert bs. induction l as [|x l IH]; intros bs H Hin; [contradiction|].
  cbn [mapM] in H.
  destruct (f x) as [b|] eqn:Ex; cbn [bind] in H; [|discriminate H].
  destruct (mapM f l) as [bs'|] eqn:El; cbn [bind ret] in H; [|discriminate H].
  injection H as <-. destruct Hin as [<-|Hin].
  - exists b. split; [now left | assumption].
  - destruct (IH bs' eq_refl Hin) as (b' & Hb' & Hf). exists b'. split; [now right | assumption].
Qed.

(** X3. When [customfield_20145] lists an assignee from which
    [x.get("emailAddress", "")] does not give text (the assignee is no
    object, or its "emailAddress" is null or a number), the flattener raises
    on the record. *)
Theorem l2_assignee_needs_text (task : value) (fields : dict) (l : list value)
        (x : value) :
  Py.getitem task "fields" = Returned (VDict fields) ->
  Py.lookup "customfield_20145" fields = Some (VList l) ->
  In x l ->
  (forall e, Py.get x "emailAddress" (VStr "") <> Returned (VStr e)) ->
  exists e, flatten task = Raised e.
Proof.
  intros Hf Hl Hin Hx.
  destruct (flatten task) as [row|e] eqn:E; [exfalso | eauto].
  destruct (flatten_row_column task fields row "L2 Assignee" "customfield_20145"
              (fun fields => bind (l2_assignee fields) (fun l2 => Py.join ", " l2))
              E Hf) as (v & Hc & _).
  { unfold columns. right. right. left. reflexivity. }
  cbv beta in Hc. unfold l2_assignee in Hc. cbn [Py.get bind] in Hc.
  rewrite Hl in Hc. cbn [bind] in Hc.
  destruct l as [|y l]; [contradiction|].
  cbn [Py.truthy Py.iter bind] in Hc.
  destruct (mapM (fun x => Py.get x "emailAddress" (VStr "")) (y :: l))
    as [l2|] eqn:Em; cbn [bind] in Hc; [|discriminate Hc].
  destruct (mapM_In _ _ _ x Em Hin) as (b & Hb & Hfx).
  unfold Py.join in Hc.
  destruct (Py.join_strs ", " l2) as [s|] eqn:Ej; [|discriminate Hc].
  destruct (join_strs_items_text _ _ _ Ej b Hb) as (t & ->).
  exact (Hx t Hfx).
Qed.

(** X4. In every row that the flattener returns, "Error Rate" is text:
    "0" when [customfield_20904] is absent or falsy (null, 0, false, empty),
    and the text form of the value otherwise. *)
Theorem error_rate_column (task : value) (fields : dict) (row : dict) :
  Py.getitem task "fields" = Returned (VDict fields) ->
  flatten task = Returned row ->
  Py.lookup "Error Rate" row =
  Some (VStr (match Py.lookup "customfield_20904" fields with
              | Some v => if Py.truthy v then py_str py_repr v else "0"
              | None => "0"
              end)).
Proof.
  intros Hf H.
  destruct (flatten_row_column task fields row "Error Rate" "customfield_20904"
              (error_rate py_repr) H Hf) as (v & Hc & Hrow).
  { apply in_or_app with (l := firstn 25 cols) (m := skipn 25 cols).
    right. left. reflexivity. }
  rewrite Hrow. f_equal. unfold error_rate in Hc. cbn [Py.get bind] in Hc.
  destruct (Py.lookup "customfield_20904" fields) as [a|]; cbn [bind ret] in Hc.
  - injection Hc as <-. unfold Py.or_. now destruct (Py.truthy a).
  - now injection Hc as <-.
Qed.

(** X5. The flattener raises on every record whose reporter, status or
    priority is present and not an object (null among the values), and on
    every record whose [customfield_20906] is truthy and not an object. *)
Theorem flatten_raises_on_non_object (task : value) (fields : dict)
        (entry : string) (v : value) :
  Py.getitem task "fields" = Returned (VDict fields) ->
  Py.lookup entry fields = Some v ->
  is_dict v = false ->
  In entry attr_entries \/ (entry = "customfield_20906" /\ Py.truthy v = true) ->
  exists e, flatten task = Raised e.
Proof.
  intros Hf Hl Hv Hentry.
  destruct (flatten task) as [row|e] eqn:E; [exfalso | eauto].
  assert (Hcol : forall name attr,
             In (name, entry, fun fields => get_attr fields entry attr) cols ->
             False).
  { intros name attr Hin.
    destruct (flatten_row_column task fields row name entry _ E Hf Hin)
      as (x & Hc & _).
    cbv beta in Hc. unfold get_attr in Hc. cbn [Py.get bind] in Hc.
    rewrite Hl in Hc. cbn [bind] in Hc. destruct v; discriminate. }
  destruct Hentry as [Hattr | [-> Ht]].
  - simpl in Hattr. destruct Hattr as [<-|[<-|[<-|[]]]].
    + apply (Hcol "reporter" "displayName"). unfold columns. right. now left.
    + apply (Hcol "status" "name"). unfold columns. do 6 right. now left.
    + apply (Hcol "priority" "name"). unfold columns. do 7 right. now left.
  - destruct (flatten_row_column task fields row "Vendor Related Incidents"
                "customfield_20906" vendor_related E Hf) as (x & Hc & _).
    { unfold columns. do 5 right. now left. }
    unfold vendor_related in Hc. cbn [Py.contains Py.getitem bind] in Hc.
    rewrite Hl in Hc. cbn [bind] in Hc. rewrite Ht in Hc. cbn [bind] in Hc.
    destruct v; discriminate.
Qed.

Lemma columns_agree (f f' : dict) (k : string) :
  Py.lookup k f = Py.lookup k f' ->
  (forall dflt, Py.get (VDict f) k dflt = Py.get (VDict f') k dflt) /\
  (forall attr, get_attr (VDict f) k attr = get_attr (VDict f') k attr) /\
  cleaned py_repr (VDict f) k = cleaned py_repr (VDict f') k /\
  (forall sk, get_nested_value (VDict f) k sk = get_nested_value (VDict f') k sk).
Proof.
  intros H. unfold get_attr, cleaned, get_nested_value.
  cbn [Py.get Py.contains Py.getitem]. rewrite H. auto.
Qed.

Lemma conditionals_agree (f f' : dict) :
  (forall entry, In entry source_entries -> Py.lookup entry f = Py.lookup entry f') ->
  l2_assignee (VDict f) = l2_assignee (VDict f') /\
  vendor_related (VDict f) = vendor_related (VDict f') /\
  system_owner (VDict f) = system_owner (VDict f') /\
  error_rate py_repr (VDict f) = error_rate py_repr (VDict f') /\
  problem_links json_dumps (VDict f) = problem_links json_dumps (VDict f').
Proof.
  intros H.
  unfold l2_assignee, vendor_related, system_owner, error_rate, problem_links.
  cbn [Py.get Py.contains Py.getitem].
  rewrite (H "customfield_20145"), (H "customfield_20906"),
    (H "customfield_20157"), (H "customfield_20904"), (H "customfield_22301")
    by (apply mem_In; reflexivity).
  auto.
Qed.

(** X6. Entries of [fields] that [format_task] does not read, and keys of
    the record other than "key" and "fields", do not count: two records
    with the same "key" whose [fields] agree on the 27 entries read are
    flattened alike, to the same row or to the same exception. *)
Theorem flatten_reads_only_its_entries (task task' : value)
        (fields fields' : dict) :
  Py.getitem task "fields" = Returned (VDict fields) ->
  Py.getitem task' "fields" = Returned (VDict fields') ->
  Py.getitem task "key" = Py.getitem task' "key" ->
  (forall entry, In entry source_entries ->
                 Py.lookup entry fields = Py.lookup entry fields') ->
  flatten task = flatten task'.
Proof.
  intros Hf Hf' Hk H.
  destruct (conditionals_agree fields fields' H) as (H1 & H2 & H3 & H4 & H5).
  assert (Hc : forall k, In k source_entries ->
             (forall dflt, Py.get (VDict fields) k dflt = Py.get (VDict fields') k dflt) /\
             (forall attr, get_attr (VDict fields) k attr = get_attr (VDict fields') k attr) /\
             cleaned py_repr (VDict fields) k = cleaned py_repr (VDict fields') k /\
             (forall sk, get_nested_value (VDict fields) k sk
                         = get_nested_value (VDict fields') k sk)).
  { intros k Hin. apply columns_agree, H, Hin. }
  unfold format_task. rewrite Hf, Hf', Hk. cbn [bind].
  rewrite H1, H2, H3, H4, H5.
  repeat match goal with
         | |- context [Py.get (VDict fields) ?k ?d] =>
             rewrite (proj1 (Hc k ltac:(apply mem_In; reflexivity)) d)
         | |- context [get_attr (VDict fields) ?k ?a] =>
             rewrite (proj1 (proj2 (Hc k ltac:(apply mem_In; reflexivity))) a)
         | |- context [cleaned py_repr (VDict fields) ?k] =>
             rewrite (proj1 (proj2 (proj2 (Hc k ltac:(apply mem_In; reflexivity)))))
         | |- context [get_nested_value (VDict fields) ?k ?sk] =>
             rewrite (proj2 (proj2 (proj2 (Hc k ltac:(apply mem_In; reflexivity)))) sk)
         end.
  reflexivity.
Qed.

End FlattenerMore.

(* ================================================================= *)
(** ** Further properties: the fetch loop *)

Section FetchMore.

Variable St : Type.
Variable serve : St -> request -> reply * St.
Variable self : JiraClient.
Variable jql_query : string.
Variable ps : Z.

Local Abbreviation rq_at := (request_at self jql_query ps).
Local Abbreviation loop := (fun fuel => while_true serve fuel self jql_query ps).

Lemma chain_nth (off : Z) (xs : list (request * reply)) :
  chain self jql_query ps off xs ->
  forall i rq rep,
    nth_error xs i = Some (rq, rep) ->
    rq = rq_at (off + ps * Z.of_nat i)%Z.
Proof.
  induction 1 as [off rep0 Hshort|off rep0 p0 xs Hr0 Hlen0 Hc IH];
    intros i rq rep Hi.
  - destruct i as [|i]; simpl in Hi.
    + injection Hi as <- _. f_equal. lia.
    + destruct i; discriminate Hi.
  - destruct i as [|i]; simpl in Hi.
    + injection Hi as <- _. f_equal. lia.
    + rewrite (IH i rq rep Hi). f_equal. lia.
Qed.

(** X7. In every run of the fetch that ends, the i-th request (from 0) is
    the page request for the offset i times the page size: same URL,
    headers, credentials, TLS flag and query each time, the page size as
    [maxResults]; no offset is skipped or asked twice, and at least one
    request is sent. *)
Theorem requests_step_by_page_size (fuel : nat) (w : world St) r w' :
  get_tasks serve fuel self jql_query ps w = Some (r, w') ->
  exists xs,
    exchanges w' = exchanges w ++ xs /\
    xs <> [] /\
    forall i rq rep,
      nth_error xs i = Some (rq, rep) ->
      req_url rq = url (config self) /\
      req_headers rq = headers self /\
      req_auth rq = auth self /\
      req_verify rq = verify_ssl (config self) /\
      req_params rq = {| jql := jql_query;
                         startAt := (ps * Z.of_nat i)%Z;
                         maxResults := ps |}.
Proof.
  intros H. unfold get_tasks in H.
  destruct (@loop_chain St serve self jql_query ps fuel _ w r w' H)
    as (xs & Hx & Hc & _).
  exists xs. split; [exact Hx|]. split.
  - destruct Hc; discriminate.
  - intros i rq rep Hi. rewrite (chain_nth _ _ Hc i rq rep Hi).
    cbn [start_at]. rewrite Z.add_0_l. repeat split.
Qed.

Lemma loop_outcome (fuel : nat) :
  forall (l : locals) (w : world St) tasks w',
    loop fuel l w = Some (Returned tasks, w') ->
    exists xs,
      exchanges w' = exchanges w ++ xs /\
      tasks = all_tasks l ++ List.concat (map page_records xs) /\
      ((console w' = console w /\
        exists xs0 rq rep p,
          xs = xs0 ++ [(rq, rep)] /\ records_of rep = Returned p /\
          (Z.of_nat (List.length p) < ps)%Z) \/
       (exists xs0 rq rep err,
           xs = xs0 ++ [(rq, rep)] /\ request_failure rep = Some err /\
           console w' = console w ++ [FetchError err])).
Proof.
  induction fuel as [|fuel IH]; intros l w tasks w' H; [discriminate|].
  destruct (serve (server w) (rq_at (start_at l))) as [rep s1] eqn:Es.
  destruct (records_of rep) as [p|e] eqn:Er.
  - destruct (Z.ltb_spec (Z.of_nat (List.length p)) ps) as [Hlt|Hge].
    + rewrite (@loop_short St serve self jql_query ps fuel l w rep s1 p Es Er Hlt) in H.
      injection H as <- <-. exists [(rq_at (start_at l), rep)].
      split; [reflexivity|]. split.
      * unfold page_records. cbn [map snd List.concat]. rewrite Er.
        now rewrite app_nil_r.
      * left. split; [reflexivity|].
        exists [], (rq_at (start_at l)), rep, p. auto.
    + rewrite (@loop_full St serve self jql_query ps fuel l w rep s1 p Es Er Hge) in H.
      apply IH in H as (xs & Hx & Ht & Hend).
      exists ((rq_at (start_at l), rep) :: xs). split; [|split].
      * rewrite Hx. simpl. now rewrite <- app_assoc.
      * rewrite Ht. cbn [all_tasks map List.concat]. unfold page_records at 2.
        cbn [snd]. rewrite Er. now rewrite <- app_assoc.
      * destruct Hend as [[Hcon (xs0 & rq & rep' & p' & -> & Hp' & Hlen)]
                         |(xs0 & rq & rep' & err & -> & Hf & Hcon)].
        -- left. split; [exact Hcon|].
           exists ((rq_at (start_at l), rep) :: xs0), rq, rep', p'. auto.
        -- right. exists ((rq_at (start_at l), rep) :: xs0), rq, rep', err. auto.
  - destruct (request_failure rep) as [err|] eqn:Ef.
    + rewrite (@loop_failure St serve self jql_query ps fuel l w rep s1 err Es Ef) in H.
      injection H as <- <-. exists [(rq_at (start_at l), rep)].
      split; [reflexivity|]. split.
      * unfold page_records. cbn [map snd List.concat]. rewrite Er.
        now rewrite app_nil_r.
      * right. exists [], (rq_at (start_at l)), rep, err. auto.
    + rewrite (@loop_raise St serve self jql_query ps fuel l w rep s1 e Es Er Ef) in H.
      discriminate H.
Qed.

(** X8. What a fetch returns is the records of its exchanges, page after
    page in the order of the requests: nothing is dropped, repeated or
    reordered, and a failed last request adds nothing. *)
Theorem fetch_returns_all_pages (fuel : nat) (w : world St) tasks w' :
  get_tasks serve fuel self jql_query ps w = Some (Returned tasks, w') ->
  exists xs,
    exchanges w' = exchanges w ++ xs /\
    tasks = List.concat (map page_records xs).
Proof.
  intros H. unfold get_tasks in H.
  destruct (loop_outcome fuel _ w tasks w' H) as (xs & Hx & Ht & _).
  exists xs. split; [exact Hx | exact Ht].
Qed.

(** X9. With a page size of zero or less no page is short: a fetch that
    returns has gone over its pages and then met a failed request. That
    request is the last exchange of the run, its error is the one line
    printed, and what is returned is the records of the pages before it. *)
Theorem non_positive_page_size_ends_by_failure (fuel : nat) (w : world St)
        tasks w' :
  (ps <= 0)%Z ->
  get_tasks serve fuel self jql_query ps w = Some (Returned tasks, w') ->
  exists pages xs s1 rep s2 err,
    full_pages serve self jql_query ps (server w) 0 pages xs s1 /\
    serve s1 (rq_at (ps * Z.of_nat (List.length pages))) = (rep, s2) /\
    request_failure rep = Some err /\
    exchanges w' =
      exchanges w ++ xs ++ [(rq_at (ps * Z.of_nat (List.length pages)), rep)] /\
    console w' = console w ++ [FetchError err] /\
    tasks = List.concat pages /\
    w' = print (FetchError err)
               (after s2 (xs ++ [(rq_at (ps * Z.of_nat (List.length pages)), rep)]) w).
Proof.
  intros Hps H. unfold get_tasks in H.
  destruct (@loop_shape St serve self jql_query ps fuel _ w _ w' H)
    as (pages & xs & s1 & rep & s2 & Hp & Hs & Hshort & Hw & Hr).
  cbn [start_at all_tasks app] in Hp, Hs, Hw, Hr. rewrite Z.add_0_l in Hs, Hw.
  destruct (records_of rep) as [q|e] eqn:Er.
  - specialize (Hshort q eq_refl). lia.
  - destruct (request_failure rep) as [err|] eqn:Ef; [|discriminate Hr].
    injection Hr as ->.
    exists pages, xs, s1, rep, s2, err. subst w'. repeat split; assumption.
Qed.

(** X10. The loop has no bound on the number of pages: against a server
    that answers every request with a page that is not short, the fetch
    does not return, however many turns it is given. *)
Theorem fetch_never_ends_on_full_pages (fuel : nat) (w : world St) :
  (forall s rq, exists p,
      records_of (fst (serve s rq)) = Returned p /\
      (ps <= Z.of_nat (List.length p))%Z) ->
  get_tasks serve fuel self jql_query ps w = None.
Proof.
  intros Hfull. unfold get_tasks.
  generalize {| start_at := 0; all_tasks := [] |}. revert w.
  induction fuel as [|fuel IH]; intros w l; [reflexivity|].
  destruct (serve (server w) (rq_at (start_at l))) as [rep s1] eqn:Es.
  destruct (Hfull (server w) (rq_at (start_at l))) as (p & Hr & Hlen).
  rewrite Es in Hr. cbn [fst] in Hr.
  rewrite (@loop_full St serve self jql_query ps fuel l w rep s1 p Es Hr Hlen).
  apply IH.
Qed.

Lemma run_to_last_reply (fuel : nat) (w : world St) pages xs s1 :
  full_pages serve self jql_query ps (server w) 0 pages xs s1 ->
  List.length pages < fuel ->
  get_tasks serve fuel self jql_query ps w =
  loop (S (fuel - S (List.length pages)))
       {| start_at := (ps * Z.of_nat (List.length pages))%Z;
          all_tasks := List.concat pages |}
       (after s1 xs w).
Proof.
  intros Hpages Hfuel.
  replace fuel with (List.length pages + S (fuel - S (List.length pages))) at 1 by lia.
  unfold get_tasks.
  rewrite (@loop_full_pages St serve self jql_query ps
             (S (fuel - S (List.length pages))) pages xs
             (server w) s1 0%Z Hpages {| start_at := 0; all_tasks := [] |} w
             eq_refl eq_refl).
  cbn [all_tasks app]. now rewrite Z.add_0_l.
Qed.

Lemma unhandled_body_raises (status : Z) (js : value) (e : exn) :
  raise_for_status status = Returned tt ->
  unhandled_body js = Some e ->
  records_of (Response status (Some js)) = Raised e /\
  request_failure (Response status (Some js)) = None /\
  (e = AttributeError \/ e = TypeError).
Proof.
  intros Hst Hb. unfold request_failure, records_of. rewrite Hst.
  cbn [bind response_json ret]. unfold unhandled_body in Hb.
  destruct (Py.get js "issues" (VList [])) as [issues|e1] eqn:Eg; cbn [bind].
  - destruct (Py.iter issues) as [items|e2] eqn:Ei; [discriminate Hb|].
    injection Hb as ->.
    assert (e = TypeError) as -> by (destruct issues; simpl in Ei; congruence).
    auto.
  - injection Hb as ->.
    assert (e = AttributeError) as ->.
    { destruct js; simpl in Eg; try congruence.
      destruct (Py.lookup "issues" d); discriminate Eg. }
    auto.
Qed.

End FetchMore.

(* ================================================================= *)
(** ** Further properties: the run as a whole *)

Section RunMore.

Variable py_repr : value -> string.
Variable json_dumps : value -> string.
Variable St : Type.
Variable serve : St -> request -> reply * St.
Variable E : Type.
Variable X : DataExporter St E.

Local Abbreviation run := (@export_tasks py_repr json_dumps St serve E X).

(** X11. A reply with an accepted status whose body is JSON but no object,
    or whose "issues" is null, a number or a boolean, is not a failed
    request for the fetch: [AttributeError] or [TypeError] leaves
    [get_tasks] and the run, nothing is printed, the records of the earlier
    pages are not returned, and the Writer is not invoked. *)
Theorem malformed_body_is_not_caught (fuel : nat) (self : JiraTaskExporter E)
        (jql : string) (w : world St) pages xs s1 status js s2 e :
  full_pages serve (jira_client self) jql 50 (server w) 0 pages xs s1 ->
  serve s1 (request_at (jira_client self) jql 50
                       (50 * Z.of_nat (List.length pages)))
    = (Response status (Some js), s2) ->
  raise_for_status status = Returned tt ->
  unhandled_body js = Some e ->
  List.length pages < fuel ->
  exists w',
    get_tasks serve fuel (jira_client self) jql 50 w = Some (Raised e, w') /\
    run fuel self jql w = Some (Raised e, w') /\
    (e = AttributeError \/ e = TypeError) /\
    console w' = console w /\
    export_calls w' = export_calls w /\
    disk w' = disk w.
Proof.
  intros Hpages Hs Hst Hb Hfuel.
  destruct (unhandled_body_raises status js e Hst Hb) as (Hr & Hf & He).
  eexists. split; [|split].
  - rewrite (run_to_last_reply St serve (jira_client self) jql 50 fuel w
               pages xs s1 Hpages Hfuel).
    exact (@loop_raise St serve (jira_client self) jql 50
             (fuel - S (List.length pages))
             {| start_at := (50 * Z.of_nat (List.length pages))%Z;
                all_tasks := List.concat pages |}
             (after s1 xs w) (Response status (Some js)) s2 e Hs Hr Hf).
  - unfold export_tasks.
    rewrite (run_to_last_reply St serve (jira_client self) jql 50 fuel w
               pages xs s1 Hpages Hfuel).
    rewrite (@loop_raise St serve (jira_client self) jql 50
             (fuel - S (List.length pages))
             {| start_at := (50 * Z.of_nat (List.length pages))%Z;
                all_tasks := List.concat pages |}
             (after s1 xs w) (Response status (Some js)) s2 e Hs Hr Hf).
    reflexivity.
  - repeat split; auto.
Qed.

(** X12. Records fetched before a failed request still go downstream: when
    pages that are not short are followed by a failed request and the
    flattener accepts the records of those pages, the run reports the fetch
    error and then hands the rows of exactly those records to the Writer. *)
Theorem partial_results_are_exported (fuel : nat) (self : JiraTaskExporter E)
        (jql : string) (w : world St) pages xs s1 rep s2 err rows :
  full_pages serve (jira_client self) jql 50 (server w) 0 pages xs s1 ->
  serve s1 (request_at (jira_client self) jql 50
                       (50 * Z.of_nat (List.length pages))) = (rep, s2) ->
  request_failure rep = Some err ->
  List.length pages < fuel ->
  List.concat pages <> [] ->
  mapM (format_task py_repr json_dumps) (List.concat pages) = Returned rows ->
  run fuel self jql w =
  Some (export (exporter self) rows
          {| server := s2;
             exchanges := exchanges w ++ xs ++
                          [(request_at (jira_client self) jql 50
                                       (50 * Z.of_nat (List.length pages)), rep)];
             console := console w ++ [FetchError err];
             disk := disk w;
             export_calls := export_calls w ++ [rows] |}).
Proof.
  intros Hpages Hs Hf Hfuel Hne Hrows.
  unfold export_tasks.
  rewrite (run_to_last_reply St serve (jira_client self) jql 50 fuel w
             pages xs s1 Hpages Hfuel).
  rewrite (@loop_failure St serve (jira_client self) jql 50
             (fuel - S (List.length pages))
             {| start_at := (50 * Z.of_nat (List.length pages))%Z;
                all_tasks := List.concat pages |}
             (after s1 xs w) rep s2 err Hs Hf).
  cbn [all_tasks]. destruct (List.concat pages) as [|t ts] eqn:Ec; [congruence|].
  cbn [Py.truthy negb]. rewrite Hrows. unfold call_export, print, after.
  cbn [server exchanges console disk export_calls]. now rewrite <- app_assoc.
Qed.

End RunMore.

(* ================================================================= *)
(** ** Further properties: the Writer *)

Section WriterMore.

Variable py_repr : value -> string.
Variable St : Type.

Local Abbreviation export_csv := (@CSVExporter_export py_repr St).

Lemma dict_to_list_cases (fns : list string) (row : dict) :
  if only_header_keys fns row
  then exists cells,
      dict_to_list fns row = Returned cells /\
      map (cell_text py_repr) cells = written_cells py_repr fns row
  else dict_to_list fns row = Raised ValueError.
Proof.
  unfold only_header_keys, dict_to_list, mem.
  induction (Py.keys row) as [|k ks IH]; cbn [forallb filter].
  - eexists. split; [reflexivity|]. unfold written_cells. rewrite map_map.
    apply map_ext. intros c. now destruct (Py.lookup c row).
  - destruct (existsb (String.eqb k) fns); cbn [negb andb]; [exact IH | reflexivity].
Qed.

Lemma writerows_prefix (name : string) (c : ascii) (fns : list string)
      (data : list dict) :
  forall (d0 : filesystem) (t0 : string),
    file d0 name = Some t0 ->
    exists r d1,
      writerows py_repr name c fns data d0 = (r, d1) /\
      file d1 name =
        Some (fold_left (fun a cells => (a ++ Csv.writerow c cells)%string)
                        (map (written_cells py_repr fns) (accepted_prefix fns data)) t0) /\
      (forall n, n <> name -> file d1 n = file d0 n) /\
      writable d1 = writable d0 /\
      r = (if forallb (only_header_keys fns) data
           then Returned tt else Raised ValueError).
Proof.
  induction data as [|row data IH]; intros d0 t0 Hfile.
  - exists (Returned tt), d0. cbn. auto.
  - cbn [writerows accepted_prefix forallb].
    pose proof (dict_to_list_cases fns row) as Hrow.
    destruct (only_header_keys fns row).
    + destruct Hrow as (cells & -> & Hcells). rewrite Hcells.
      destruct (file_write name (Csv.writerow c (written_cells py_repr fns row))
                           d0 t0 Hfile) as [Hf Hw].
      destruct (IH _ _ Hf) as (r & d1 & Hrun & Hfile1 & Hother & Hw1 & Hr).
      exists r, d1. split; [exact Hrun|]. split; [exact Hfile1|].
      split; [|split; [congruence | exact Hr]].
      intros n Hn. rewrite (Hother n Hn). unfold write. cbn [file].
      apply String.eqb_neq in Hn. now rewrite Hn.
    + rewrite Hrow. exists (Raised ValueError), d0. cbn. auto.
Qed.

(** X13. [export] never raises: it ends with one message on the console,
    of success or of the error, and changes nothing else in the world but
    the destination file; every other file keeps what it held. *)
Theorem export_touches_only_destination (self : CSVExporter) (data : list dict)
        (w : world St) :
  exists w' m,
    export_csv self data w = (Returned tt, w') /\
    console w' = console w ++ [m] /\
    server w' = server w /\
    exchanges w' = exchanges w /\
    export_calls w' = export_calls w /\
    writable (disk w') = writable (disk w) /\
    forall n, n <> filename self -> file (disk w') n = file (disk w) n.
Proof.
  unfold CSVExporter_export, open_w.
  destruct (writable (disk w) (filename self)) eqn:Hw; cbn [ret].
  - assert (Hother : forall t n, n <> filename self ->
              (if String.eqb n (filename self) then t else file (disk w) n)
              = file (disk w) n).
    { intros t n Hn. apply String.eqb_neq in Hn. now rewrite Hn. }
    destruct (DictWriter (delimiter self)) as [c|e].
    + set (d0 := {| file := fun n => if String.eqb n (filename self)
                                     then Some EmptyString else file (disk w) n;
                    writable := writable (disk w) |}).
      assert (H0 : file d0 (filename self) = Some EmptyString).
      { unfold d0. cbn [file]. now rewrite String.eqb_refl. }
      destruct (file_write (filename self) (Csv.writerow c (fieldnames self)) d0 _ H0)
        as [H1 Hw1].
      unfold writeheader.
      destruct (writerows_prefix (filename self) c (fieldnames self) data _ _ H1)
        as (r & d2 & -> & _ & Hkeep & Hw2 & _).
      assert (Hfiles : forall n, n <> filename self -> file d2 n = file (disk w) n).
      { intros n Hn. rewrite (Hkeep n Hn). unfold write. cbn [file].
        pose proof Hn as Hn'. apply String.eqb_neq in Hn'. rewrite Hn'.
        unfold d0. cbn [file]. now rewrite Hn'. }
      destruct r; do 2 eexists; (split; [reflexivity|]);
        cbn [print with_disk console server exchanges export_calls disk];
        repeat split; try assumption; congruence.
    + do 2 eexists. split; [reflexivity|].
      cbn [print with_disk console server exchanges export_calls disk file writable].
      repeat split. intros n Hn. now apply Hother.
  - do 2 eexists. split; [reflexivity|]. cbn. repeat split.
Qed.

(** X14. What the destination holds after [export]. If it cannot be opened
    it is left as it was. If the delimiter is not one character it is left
    empty. Otherwise it holds the header and the rows up to the first one
    with a key outside the header, each cell as the Writer renders it; the
    rows after that one are not written, and success is reported only when
    no row has such a key. *)
Theorem export_destination_cases (self : CSVExporter) (data : list dict)
        (w : world St) :
  (writable (disk w) (filename self) = false ->
   disk (snd (export_csv self data w)) = disk w /\
   console (snd (export_csv self data w)) = console w ++ [ExportError OSError]) /\
  (writable (disk w) (filename self) = true ->
   (forall c, delimiter self <> String c EmptyString) ->
   file (disk (snd (export_csv self data w))) (filename self) = Some EmptyString /\
   console (snd (export_csv self data w)) = console w ++ [ExportError TypeError]) /\
  (forall c,
      writable (disk w) (filename self) = true ->
      delimiter self = String c EmptyString ->
      file (disk (snd (export_csv self data w))) (filename self)
        = Some (csv_text c (fieldnames self)
                         (map (written_cells py_repr (fieldnames self))
                              (accepted_prefix (fieldnames self) data))) /\
      console (snd (export_csv self data w))
        = console w ++ [if forallb (only_header_keys (fieldnames self)) data
                        then Exported (filename self)
                        else ExportError ValueError]).
Proof.
  unfold CSVExporter_export, open_w. split; [|split].
  - intros ->. cbn. auto.
  - intros -> Hd. cbn [ret].
    assert (DictWriter (delimiter self) = Raised TypeError) as ->.
    { unfold DictWriter. destruct (delimiter self) as [|c [|c' t]]; try reflexivity.
      now destruct (Hd c). }
    cbn. rewrite String.eqb_refl. auto.
  - intros c -> ->. cbn [ret DictWriter].
    set (d0 := {| file := fun n => if String.eqb n (filename self)
                                   then Some EmptyString else file (disk w) n;
                  writable := writable (disk w) |}).
    assert (H0 : file d0 (filename self) = Some EmptyString).
    { unfold d0. cbn [file]. now rewrite String.eqb_refl. }
    destruct (file_write (filename self) (Csv.writerow c (fieldnames self)) d0 _ H0)
      as [H1 _].
    unfold writeheader.
    destruct (writerows_prefix (filename self) c (fieldnames self) data _ _ H1)
      as (r & d2 & -> & Hfile & _ & _ & ->).
    cbn [String.append] in Hfile. unfold csv_text.
    destruct (forallb (only_header_keys (fieldnames self)) data);
      cbn [snd print with_disk disk console]; auto.
Qed.

Lemma export_writes_prefix (self : CSVExporter) (data : list dict)
      (w : world St) (c : ascii) :
  writable (disk w) (filename self) = true ->
  delimiter self = String c EmptyString ->
  file (disk (snd (export_csv self data w))) (filename self)
    = Some (csv_text c (fieldnames self)
                     (map (written_cells py_repr (fieldnames self))
                          (accepted_prefix (fieldnames self) data))) /\
  console (snd (export_csv self data w))
    = console w ++ [if forallb (only_header_keys (fieldnames self)) data
                    then Exported (filename self)
                    else ExportError ValueError] /\
  fst (export_csv self data w) = Returned tt.
Proof.
  unfold CSVExporter_export, open_w. intros -> ->. cbn [ret DictWriter].
  set (d0 := {| file := fun n => if String.eqb n (filename self)
                                 then Some EmptyString else file (disk w) n;
                writable := writable (disk w) |}).
  assert (H0 : file d0 (filename self) = Some EmptyString).
  { unfold d0. cbn [file]. now rewrite String.eqb_refl. }
  destruct (file_write (filename self) (Csv.writerow c (fieldnames self)) d0 _ H0)
    as [H1 _].
  unfold writeheader.
  destruct (writerows_prefix (filename self) c (fieldnames self) data _ _ H1)
    as (r & d2 & -> & Hfile & _ & _ & ->).
  cbn [String.append] in Hfile. unfold csv_text.
  destruct (forallb (only_header_keys (fieldnames self)) data);
    cbn [fst snd print with_disk disk console]; auto.
Qed.

Lemma export_file_when_writable (self : CSVExporter) (data : list dict)
      (w : world St) :
  writable (disk w) (filename self) = true ->
  file (disk (snd (export_csv self data w))) (filename self)
  = Some (match DictWriter (delimiter self) with
          | Returned c =>
              csv_text c (fieldnames self)
                       (map (written_cells py_repr (fieldnames self))
                            (accepted_prefix (fieldnames self) data))
          | Raised _ => EmptyString
          end).
Proof.
  intros Hw.
  destruct (DictWriter (delimiter self)) as [c|e] eqn:Ed.
  - assert (Hd : delimiter self = String c EmptyString).
    { unfold DictWriter in Ed. destruct (delimiter self) as [|a [|b t]];
        try discriminate Ed. now injection Ed as ->. }
    apply (export_writes_prefix self data w c Hw Hd).
  - unfold CSVExporter_export, open_w. rewrite Hw, Ed. cbn.
    now rewrite String.eqb_refl.
Qed.

(** X15. [export] replaces the destination; it never adds to it: what the
    file holds afterwards does not depend on what it held before. *)
Theorem export_discards_previous_content (self : CSVExporter)
        (data : list dict) (w : world St) (old : string) :
  writable (disk w) (filename self) = true ->
  file (disk (snd (export_csv self data
                     (with_disk (put_file (filename self) old (disk w)) w))))
       (filename self)
  = file (disk (snd (export_csv self data w))) (filename self).
Proof.
  intros Hw.
  rewrite (export_file_when_writable self data w Hw).
  apply (export_file_when_writable self data
           (with_disk (put_file (filename self) old (disk w)) w)).
  exact Hw.
Qed.

Lemma accepted_prefix_all (fns : list string) (data : list dict) :
  forallb (only_header_keys fns) data = true -> accepted_prefix fns data = data.
Proof.
  induction data as [|row data IH]; [reflexivity|]. cbn [forallb accepted_prefix].
  intros H. apply andb_true_iff in H as [-> H]. now rewrite IH.
Qed.






End WriterMore.

(* ================================================================= *)
(** ** Further properties: from the flattener to the file *)

Section Pipeline.

Variable py_repr : value -> string.
Variable json_dumps : value -> string.
Variable St : Type.
Variable serve : St -> request -> reply * St.

Local Abbreviation flatten := (format_task py_repr json_dumps).
Local Abbreviation run :=
  (@export_tasks py_repr json_dumps St serve CSVExporter
                 (CSVExporter_DataExporter py_repr St)).

Lemma flattened_rows_accepted (name delim : string) (tasks : list value)
      (rows : list dict) :
  mapM flatten tasks = Returned rows ->
  forallb (only_header_keys (fieldnames (CSVExporter_init name delim))) rows = true.
Proof.
  intros H. apply mapM_Returned in H.
  induction H as [|task row tasks rows Hrow _ IH]; [reflexivity|].
  cbn [forallb]. rewrite IH, andb_true_r.
  unfold only_header_keys. apply flatten_keys in Hrow. rewrite Hrow. reflexivity.
Qed.

(** X17. Every row that the flattener returns is one the Writer takes: its
    keys are names of the header. So a run whose records the flattener
    accepts, with a writable destination and a delimiter of the dialect,
    leaves a file that reads back as the header and one record a fetched
    record, in order, the cells of each row as the Writer renders them (a
    null or missing value as an empty cell). *)
Theorem run_writes_every_flattened_row (fuel : nat)
        (self : JiraTaskExporter CSVExporter) (jql : string) (w w1 : world St)
        (tasks : list value) (rows : list dict) (name : string) (c : ascii) :
  exporter self = CSVExporter_init name (String c EmptyString) ->
  Csv.valid_delimiter c = true ->
  writable (disk w) name = true ->
  get_tasks serve fuel (jira_client self) jql 50 w = Some (Returned tasks, w1) ->
  tasks <> [] ->
  mapM flatten tasks = Returned rows ->
  exists w' text,
    run fuel self jql w = Some (Returned tt, w') /\
    console w' = console w1 ++ [Exported name] /\
    file (disk w') name = Some text /\
    Csv.read c text =
      fieldnames (exporter self)
      :: map (written_cells py_repr (fieldnames (exporter self))) rows /\
    List.length (Csv.read c text) = List.length tasks + 1.
Proof.
  intros Hexp Hvalid Hw Hfetch Hne Hrows.
  destruct (get_tasks_keeps_files serve fuel (jira_client self) jql 50
              {| start_at := 0; all_tasks := [] |} w Hfetch) as [Hd _].
  pose proof (flattened_rows_accepted name (String c EmptyString) tasks rows Hrows)
    as Hkeys.
  unfold export_tasks. rewrite Hfetch.
  destruct tasks as [|t tasks]; [congruence|].
  cbn [Py.truthy negb]. rewrite Hrows. unfold call_export.
  cbn [export CSVExporter_DataExporter]. rewrite Hexp.
  set (w2 := {| server := server w1; exchanges := exchanges w1;
                console := console w1; disk := disk w1;
                export_calls := export_calls w1 ++ [rows] |}).
  assert (Hw2 : writable (disk w2) (filename (CSVExporter_init name (String c EmptyString)))
                = true).
  { cbn [w2 disk filename CSVExporter_init]. now rewrite Hd. }
  destruct (export_writes_prefix py_repr St (CSVExporter_init name (String c EmptyString))
              rows w2 c Hw2 eq_refl) as (Hfile & Hcon & Hres).
  rewrite Hkeys in Hcon. rewrite (accepted_prefix_all _ _ Hkeys) in Hfile.
  destruct (CSVExporter_export py_repr (CSVExporter_init name (String c EmptyString))
              rows w2) as [r w'] eqn:Ex.
  cbn [fst snd] in Hfile, Hcon, Hres. subst r.
  exists w'. eexists. split; [reflexivity|]. split; [exact Hcon|].
  split; [exact Hfile|].
  unfold csv_text. rewrite (read_written c Hvalid).
  split; [reflexivity|].
  cbn [List.length]. rewrite length_map. apply mapM_length in Hrows.
  cbn [List.length] in Hrows. lia.
Qed.

End Pipeline.

(* ================================================================= *)
(** ** Further properties: the text normaliser *)

Section CleanerMore.

Variable py_repr : value -> string.

Lemma pattern_needs_paren (c : ascii) (s : string) :
  count_char "("%char s = 0 ->
  Re.match_here pattern (String c s) = None.
Proof.
  intros Hs. unfold pattern. cbn [Re.match_here].
  destruct (Re.is_space c); [|reflexivity].
  destruct s as [|a s]; [reflexivity|]. cbn [count_char] in Hs.
  destruct (Ascii.eqb a "("%char); [discriminate Hs | reflexivity].
Qed.

Lemma sub_keeps_text_without_paren (s : string) :
  count_char "("%char s = 0 -> Re.sub pattern s = s.
Proof.
  unfold Re.sub. induction s as [|c s IH]; intros Hs; [reflexivity|].
  cbn [Re.sub_from]. cbn [count_char] in Hs.
  assert (Hrest : count_char "("%char s = 0) by lia.
  rewrite (pattern_needs_paren c s Hrest), IH by exact Hrest. reflexivity.
Qed.

(** X18. The normaliser leaves text without an opening parenthesis as it
    is, and gives for a list of such texts the texts joined with ",",
    nothing else changed. *)
Theorem clean_field_keeps_plain_text :
  (forall s, count_char "("%char s = 0 ->
             clean_field py_repr (VStr s) = Returned (VStr s)) /\
  (forall l, Forall (fun s => count_char "("%char s = 0) l ->
             clean_field py_repr (VList (map VStr l))
             = Returned (VStr (String.concat "," l))).
Proof.
  split.
  - intros s Hs. destruct s as [|c s]; [reflexivity|].
    unfold clean_field. cbn [Py.truthy negb String.eqb py_str ret].
    now rewrite sub_keeps_text_without_paren.
  - intros l Hl. destruct l as [|s l]; [reflexivity|].
    unfold clean_field. cbn [map Py.truthy negb]. unfold Py.join.
    change (VStr (Re.sub pattern (py_str py_repr (VStr s)))
            :: map (fun x => VStr (Re.sub pattern (py_str py_repr x))) (map VStr l))
      with (map (fun x => VStr (Re.sub pattern (py_str py_repr x)))
                (map VStr (s :: l))).
    rewrite map_map.
    rewrite (map_ext_in _ VStr).
    + rewrite join_strs_text. reflexivity.
    + intros t Ht. cbn [py_str]. f_equal. apply sub_keeps_text_without_paren.
      rewrite Forall_forall in Hl. now apply Hl.
Qed.

End CleanerMore.

(* ================================================================= *)
(** ** The further properties at work on closed inputs *)

Lemma l2_assignee_joined_witness :
  exists row,
    format_task no_repr no_repr sample_task = Returned row /\
    Py.lookup "L2 Assignee" row =
    Some (VStr (String.concat ", "
                  (map email_of [ [("emailAddress", VStr "a@x.com")];
                                  [("emailAddress", VStr "b@x.com")] ]))) /\
    Py.lookup "L2 Assignee" row = Some (VStr "a@x.com, b@x.com").
Proof.
  eexists. split; [reflexivity|]. split; [|reflexivity].
  eapply (l2_assignee_joined no_repr no_repr sample_task _ _
            [ [("emailAddress", VStr "a@x.com")]; [("emailAddress", VStr "b@x.com")] ]).
  - reflexivity.
  - reflexivity.
  - intros p [<-|[<-|[]]]; right; eexists; reflexivity.
  - reflexivity.
Defined.

Lemma l2_assignee_needs_text_witness :
  exists e, format_task no_repr no_repr null_email_task = Raised e.
Proof.
  eapply (l2_assignee_needs_text no_repr no_repr null_email_task _ _
            (VDict [("emailAddress", VNone)])).
  - reflexivity.
  - reflexivity.
  - right. left. reflexivity.
  - intros e. discriminate.
Defined.

Lemma error_rate_column_witness :
  exists row,
    format_task no_repr no_repr sample_task = Returned row /\
    Py.lookup "Error Rate" row = Some (VStr "5").
Proof.
  eexists. split; [reflexivity|].
  pose proof (error_rate_column no_repr no_repr sample_task _ _ eq_refl eq_refl) as H.
  exact H.
Defined.

Lemma flatten_raises_on_non_object_witness :
  exists e, format_task no_repr no_repr null_reporter_task = Raised e.
Proof.
  eapply (flatten_raises_on_non_object no_repr no_repr null_reporter_task _
            "reporter" VNone).
  - reflexivity.
  - reflexivity.
  - reflexivity.
  - left. left. reflexivity.
Defined.

Lemma flatten_reads_only_its_entries_witness :
  format_task no_repr no_repr sample_task = format_task no_repr no_repr padded_task.
Proof.
  eapply (flatten_reads_only_its_entries no_repr no_repr sample_task padded_task).
  - reflexivity.
  - reflexivity.
  - reflexivity.
  - intros entry Hin. simpl in Hin.
    repeat (destruct Hin as [<-|Hin]; [reflexivity|]). contradiction.
Defined.

Lemma requests_step_by_page_size_witness :
  exists r w',
    run_fetch 9 script_50_50_12 = Some (r, w') /\
    exists xs,
      exchanges w' = exchanges (fresh_world script_50_50_12) ++ xs /\
      xs <> [] /\
      forall i rq rep,
        nth_error xs i = Some (rq, rep) ->
        req_url rq = url (config the_client) /\
        req_headers rq = headers the_client /\
        req_auth rq = auth the_client /\
        req_verify rq = verify_ssl (config the_client) /\
        req_params rq = {| jql := the_query;
                           startAt := (50 * Z.of_nat i)%Z;
                           maxResults := 50 |}.
Proof.
  do 2 eexists. split; [vm_compute; reflexivity|].
  eapply (requests_step_by_page_size (list reply) stub_serve the_client the_query
           50 9 (fresh_world script_50_50_12) _ _).
  vm_compute. reflexivity.
Defined.

Lemma fetch_returns_all_pages_witness :
  exists tasks w',
    run_fetch 9 script_one_full_page = Some (Returned tasks, w') /\
    exists xs,
      exchanges w' = exchanges (fresh_world script_one_full_page) ++ xs /\
      tasks = List.concat (map page_records xs).
Proof.
  do 2 eexists. split; [vm_compute; reflexivity|].
  eapply (fetch_returns_all_pages (list reply) stub_serve the_client the_query
           50 9 (fresh_world script_one_full_page) _ _).
  vm_compute. reflexivity.
Defined.

Lemma non_positive_page_size_ends_by_failure_witness :
  get_tasks stub_serve 9 the_client the_query 0 (fresh_world [page []])
    = Some (Returned [],
            print (FetchError ConnectionError)
                  (after []
                         [ (request_at the_client the_query 0 0, page []);
                           (request_at the_client the_query 0 0, NoResponse) ]
                         (fresh_world [page []]))) /\
  exists pages xs s1 rep s2 err,
    full_pages stub_serve the_client the_query 0
               (server (fresh_world [page []])) 0 pages xs s1 /\
    stub_serve s1 (request_at the_client the_query 0
                              (0 * Z.of_nat (List.length pages))) = (rep, s2) /\
    request_failure rep = Some err /\
    exchanges (print (FetchError ConnectionError)
                  (after []
                         [ (request_at the_client the_query 0 0, page []);
                           (request_at the_client the_query 0 0, NoResponse) ]
                         (fresh_world [page []]))) =
      exchanges (fresh_world [page []]) ++ xs ++
        [(request_at the_client the_query 0 (0 * Z.of_nat (List.length pages)), rep)] /\
    console (print (FetchError ConnectionError)
                  (after []
                         [ (request_at the_client the_query 0 0, page []);
                           (request_at the_client the_query 0 0, NoResponse) ]
                         (fresh_world [page []]))) =
      console (fresh_world [page []]) ++ [FetchError err] /\
    @nil value = List.concat pages /\
    print (FetchError ConnectionError)
          (after []
                 [ (request_at the_client the_query 0 0, page []);
                   (request_at the_client the_query 0 0, NoResponse) ]
                 (fresh_world [page []])) =
    print (FetchError err)
          (after s2 (xs ++ [(request_at the_client the_query 0
                                        (0 * Z.of_nat (List.length pages)), rep)])
                 (fresh_world [page []])).
Proof.
  split; [vm_compute; reflexivity|].
  apply (non_positive_page_size_ends_by_failure (list reply) stub_serve the_client
           the_query 0 9 (fresh_world [page []]) []
           (print (FetchError ConnectionError)
                  (after []
                         [ (request_at the_client the_query 0 0, page []);
                           (request_at the_client the_query 0 0, NoResponse) ]
                         (fresh_world [page []])))).
  - apply Z.le_refl.
  - vm_compute. reflexivity.
Defined.

Lemma fetch_never_ends_on_full_pages_witness :
  get_tasks (repeat_serve (issues_from 0 50)) 40 the_client the_query 50
            (fresh_world 0) = None.
Proof.
  apply (fetch_never_ends_on_full_pages nat (repeat_serve (issues_from 0 50))
           the_client the_query 50 40 (fresh_world 0)).
  intros s rq. exists (issues_from 0 50). split; [reflexivity|].
  vm_compute. discriminate.
Defined.

Lemma malformed_body_is_not_caught_witness :
  exists w',
    get_tasks stub_serve 9 (jira_client the_task_exporter) the_query 50
              (fresh_world script_list_body) = Some (Raised AttributeError, w') /\
    run_export 9 script_list_body = Some (Raised AttributeError, w') /\
    (AttributeError = AttributeError \/ AttributeError = TypeError) /\
    console w' = console (fresh_world script_list_body) /\
    export_calls w' = export_calls (fresh_world script_list_body) /\
    disk w' = disk (fresh_world script_list_body).
Proof.
  apply (malformed_body_is_not_caught no_repr no_repr (list reply) stub_serve
           CSVExporter csv_instance 9 the_task_exporter the_query
           (fresh_world script_list_body) [issues_from 0 50]
           [(request_at the_client the_query 50 0, page (issues_from 0 50))]
           [Response 200 (Some (VList []))] 200 (VList []) [] AttributeError).
  - eapply full_pages_cons; [reflexivity | reflexivity | vm_compute; discriminate |].
    apply full_pages_nil.
  - reflexivity.
  - reflexivity.
  - reflexivity.
  - vm_compute. repeat constructor.
Defined.

Lemma partial_results_are_exported_witness :
  exists rows,
    mapM (format_task no_repr no_repr) (List.concat [issues_from 0 50])
      = Returned rows /\
    List.length rows = 50 /\
    run_export 9 script_one_full_page =
    Some (@export (list reply) CSVExporter csv_instance
            (exporter the_task_exporter) rows
            {| server := [];
               exchanges :=
                 exchanges (fresh_world script_one_full_page) ++
                 [(request_at the_client the_query 50 0, page (issues_from 0 50))] ++
                 [(request_at (jira_client the_task_exporter) the_query 50
                              (50 * Z.of_nat (List.length [issues_from 0 50])),
                   NoResponse)];
               console := console (fresh_world script_one_full_page)
                          ++ [FetchError ConnectionError];
               disk := disk (fresh_world script_one_full_page);
               export_calls := export_calls (fresh_world script_one_full_page)
                               ++ [rows] |}).
Proof.
  eexists. split; [vm_compute; reflexivity|]. split; [reflexivity|].
  apply (partial_results_are_exported no_repr no_repr (list reply) stub_serve
           CSVExporter csv_instance 9 the_task_exporter the_query
           (fresh_world script_one_full_page) [issues_from 0 50]
           [(request_at the_client the_query 50 0, page (issues_from 0 50))]
           [] NoResponse [] ConnectionError).
  - eapply full_pages_cons; [reflexivity | reflexivity | vm_compute; discriminate |].
    apply full_pages_nil.
  - reflexivity.
  - reflexivity.
  - vm_compute. repeat constructor.
  - discriminate.
  - vm_compute. reflexivity.
Defined.

Lemma export_cases_example :
  file (disk (snd (CSVExporter_export no_repr the_exporter
                     [sample_row "IM-2" "plain"; odd_row; sample_row "IM-4" "late"]
                     (fresh_world (@nil reply)))))
       (filename the_exporter)
  = Some (csv_text ";" (fieldnames the_exporter)
                   [row_cells (fieldnames the_exporter) (sample_row "IM-2" "plain")]) /\
  console (snd (CSVExporter_export no_repr the_exporter
                  [sample_row "IM-2" "plain"; odd_row; sample_row "IM-4" "late"]
                  (fresh_world (@nil reply))))
  = [ExportError ValueError] /\
  written_cells no_repr ["key"; "summary"; "status"; "Error Rate"] loose_row
  = ["IM-9"; ""; ""; "5"].
Proof. repeat split; vm_compute; reflexivity. Qed.

Lemma export_discards_previous_content_witness :
  file (disk (snd (CSVExporter_export no_repr the_exporter sample_rows
                     (with_disk (put_file (filename the_exporter) "old text"
                                          (disk (fresh_world (@nil reply))))
                                (fresh_world (@nil reply))))))
       (filename the_exporter)
  = file (disk (snd (CSVExporter_export no_repr the_exporter sample_rows
                       (fresh_world (@nil reply)))))
         (filename the_exporter).
Proof.
  apply (export_discards_previous_content no_repr (list reply) the_exporter
           sample_rows (fresh_world []) "old text").
  reflexivity.
Defined.




Lemma run_writes_every_flattened_row_witness :
  exists w1 rows w' text,
    run_fetch 9 [page [sample_task; null_summary_task]]
      = Some (Returned [sample_task; null_summary_task], w1) /\
    mapM (format_task no_repr no_repr) [sample_task; null_summary_task]
      = Returned rows /\
    run_export 9 [page [sample_task; null_summary_task]] = Some (Returned tt, w') /\
    console w' = console w1 ++ [Exported "jira_exported_tasks.csv"] /\
    file (disk w') "jira_exported_tasks.csv" = Some text /\
    Csv.read ";" text =
      fieldnames (exporter the_task_exporter)
      :: map (written_cells no_repr (fieldnames (exporter the_task_exporter))) rows /\
    List.length (Csv.read ";" text)
      = List.length [sample_task; null_summary_task] + 1.
Proof.
  do 2 eexists.
  assert (Hfetch : run_fetch 9 [page [sample_task; null_summary_task]]
                   = Some (Returned [sample_task; null_summary_task],
                           after [] [(request_at the_client the_query 50 0,
                                      page [sample_task; null_summary_task])]
                                 (fresh_world [page [sample_task; null_summary_task]])))
    by reflexivity.
  destruct (run_writes_every_flattened_row no_repr no_repr (list reply) stub_serve
              9 the_task_exporter the_query
              (fresh_world [page [sample_task; null_summary_task]]) _
              [sample_task; null_summary_task] _
              "jira_exported_tasks.csv" ";"%char
              eq_refl eq_refl eq_refl Hfetch ltac:(discriminate) eq_refl)
    as (w' & text & H1 & H2 & H3 & H4 & H5).
  exists w', text. split; [exact Hfetch|]. split; [reflexivity|].
  split; [exact H1|]. split; [exact H2|]. split; [exact H3|].
  split; [exact H4 | exact H5].
Defined.
